(* ===== verification/_CoqProject ===== *)
-Q . S2P
Prelude.v
PyStr.v
PyInt.v
Parser.v
RegexSpec.v
Calendar.v
Timestamp.v
Frame.v
SpikeDetector.v
Features.v
Outlier.v
Analysis.v
Report.v
ReportHtml.v
Server.v
FlaskApp.v
