(* ===== verification/Prelude.v ===== *)
(** * Verification of aiops-log-analysis: a log anomaly detector

    ** The program

    Three Python files.  [src/web_app.py] is a Flask service with two
    analyses of [error_logs.txt], each behind a JSON endpoint;
    [src/web_anomaly_display.py] runs the second analysis again and
    writes an HTML report; [src/serve_webpage.py] serves that file.
    Both analyses read the file line by line, turn each line into a row
    [timestamp, level, message], convert the timestamps with
    [pd.to_datetime], and then
    - [get_basic_analysis] (regular-expression parser) counts the ERROR
      rows per 30-second bucket ([Counter] over [.dt.floor("30s")]) and
      reports the buckets with more than 3, with the level distribution;
    - [get_ai_analysis] and [generate_anomaly_webpage] (split parser)
      map each row to [(level_score, message_length)] and label it with
      [IsolationForest(contamination=0.1, random_state=42).fit_predict].
    Nothing is shared between runs: every call recomputes from the file.

    ** The development, file by file (in [_CoqProject] order)

    - [Prelude] (this file): Python exceptions [py_error], the result
      type [result] with its [let*] notation ([pylog_scope]), [map_result],
      [countb], the [int64] range, generic list/sorting lemmas, the hint
      databases [pylog] and [pylog_rw], the [bind_inv] tactic.
    - [PyStr], Module [PyStr]: [str.strip] ([py_strip]), [str.split(sep,
      maxsplit)] ([py_split]), [str.isdigit], [in] on strings
      ([py_contains]), on ASCII strings.
    - [PyInt], Module [PyInt]: Python's [int(s)] on a string ([py_int])
      and [str(n)] ([py_str]).
    - [Parser]: Module [Lines] ([readlines] with universal newlines),
      Module [SplitParser] ([parse_line]/[parse_logs], the loop of
      web_anomaly_display.py:14-22 and web_app.py:60-68), Module
      [RegexParser] ([match_line]/[parse_logs], web_app.py:15-21: the
      regular expression read in one deterministic pass).
    - [RegexSpec], Module [RegexSpec]: the reference for [match_line]: a
      backtracking matcher [bt] with the semantics of Python's [re] for
      character classes, greedy [+] and groups, the pattern [log_pattern]
      written in it, and [match_line_ref] ([re.match] on the stripped
      line).
    - [Calendar], Module [Calendar]: Python's [datetime] calendar
      ([ymd2ord], [ord2ymd] with its day-of-year part [month_day],
      [valid_date]).
    - [Timestamp], Module [Datetime]: [pd.to_datetime] on
      "YYYY-MM-DD HH:MM:SS" ([to_datetime_one]), instants as [int64]
      nanoseconds with the [Timestamp] bounds, [floor] with its overflow
      check, [strftime] (through [format_datetime]).
    - [Frame], Module [Frame]: the data frame [row]s ([build_frame]) and
      the type of a row built from the file ([row_wf]).
    - [SpikeDetector]: Module [Counter] (a [Section] over a key type
      with [EqDecision]: insertion-ordered [collections.Counter]) and
      Module [Spikes] ([error_counts], [detect_spikes],
      [spike_anomalies], [threshold = 3]).
    - [Features], Module [Features]: [level_mapping] (NaN as [None]),
      [message_length], [features].
    - [Outlier], Module [Outlier]: the class [OutlierModel] is the
      interface to the isolation forest (fitting gives a score per row);
      from it, scikit-learn's [fit_predict] is modelled exactly:
      [check_array], [offset_ = np.percentile(scores, 10)] with numpy's
      linear interpolation ([percentile], [sort_scores], [lerp]), and the
      label [-1] when [score - offset_ < 0].  Every theorem holds for
      every instance of the class; [predict_by_rank] is the reference
      that labels a row from the rank of its score ([count_le],
      [rank_outlier]).
    - [Analysis], Module [Analysis]: [get_basic_analysis],
      [get_ai_analysis] (with [round(x, 2)] as [round2]), [value_counts]
      as a [gmap], the endpoints [api_basic_analysis]/[api_ai_analysis]
      (status 200 or 500).
    - [Report], Module [Report]: [generate_anomaly_webpage] as the list
      of page blocks (statistics, anomaly table sorted by timestamp, or
      the no-anomaly block); [sort_values("timestamp")] is the class
      [SortValues] (a permutation in timestamp order: numpy's default
      quicksort is not stable), with stdpp's merge sort as the instance
      of concrete runs.
    - [ReportHtml], Module [ReportHtml]: the HTML text of the page
      ([page_html]: the literal text of each f-string of
      web_anomaly_display.py:42-271 with its interpolations; [clock] is
      [datetime.now()]) and the end of the script ([webpage_script]: the
      file written, the two prints, the returned name).
    - [Server], Module [Server]: src/serve_webpage.py
      as a state machine ([state]: [Main], [Serve], [Listening],
      [Exited]; [step], [run] over inputs [Request]/[CtrlC], and the
      relation [steps]) against an environment record [env] (does the
      HTML file exist, what does [bind] answer), with the printed lines
      as output.
    - [FlaskApp], Module [FlaskApp]: web_app.py:9 and 98-122, the Flask
      application around the analyses: the files a request finds
      ([app_env]), the URL map ([match_rule]: the three routes and
      Flask's [/static/<path:filename>]), the views ([view], [dashboard]
      with [render_template], the JSON endpoints of [Analysis] with
      [error_logs.txt] opened at each request), Flask's dispatch of a
      request ([dispatch]: 404, 405, the automatic [OPTIONS], [HEAD]
      without body) and [app.run(debug=True, host='0.0.0.0')]
      ([app_run], [uncaught]: the debugger's traceback page).

    How the parts interact: [Parser] and [Timestamp] feed [Frame];
    [Features] and the [OutlierModel] interface feed [Outlier]; the
    analyses of [Analysis] compose them with [SpikeDetector]; [FlaskApp]
    calls the analyses per request, [Report]/[ReportHtml] call the AI
    analysis's steps once and write the page that [Server] serves.

    ** What is proved

    - Spike detector: exactly the buckets with more than 3 ERROR rows
      are reported, each with its exact count (ties at 3 are not);
      the counts add up to the ERROR rows; buckets come in order of
      first occurrence, increasing when the ERROR rows are in time order
      (and not otherwise: a concrete file shows the reverse order).
    - Outlier detector: [fit_predict] labels [-1] at most
      [ceil((n - 1) / 10)] of [n] rows, exactly that many when the scores
      are pairwise distinct, none when all rows are equal; it raises
      [ValueError] exactly on an empty matrix or a NaN level.  The
      interpolated percentile and the strict comparison amount to a rank
      test ([fit_predict_by_rank], an equivalence), so two scorers that
      order the rows alike give the same labels
      ([fit_predict_order_invariant]): the abstraction of the forest as
      an interface loses only the order its trees induce.
    - Analyses: the basic analysis counts one log per matching line with
      the right level distribution; the AI analysis reports at most
      [ceil((n - 1) / 10)] anomalies, at most 20 listed, all labelled
      [-1], a percentage in [[0, 100]]; it answers 500 on a file without
      rows or with an unknown level; the report lists the anomalies in
      timestamp order and shows the table exactly when there is one, the
      same page for every sort keeping the contract when timestamps are
      distinct (and two pages for two such sorts on a tie); the
      page holds the raw message of every anomaly, unescaped (a log line
      can inject markup), and the script prints the true counts.
    - Parsers: a line is skipped by the split parser exactly when its
      stripped text has fewer than three spaces; the three fields and the
      message joined by spaces give back the stripped line (roundtrip);
      the message has no trailing whitespace; every timestamp the regular
      expression keeps has the shape "YYYY-MM-DD HH:MM:SS" that pandas
      infers, so [to_datetime_one] is exact on the basic analysis and
      raises [DateParseError] there only on a date or time that does not
      exist; over a file, the rows of
      the regular expression are a subsequence of the rows of the split
      parser, equal on every line both accept.
    - Regular expression: [match_line] equals the backtracking
      [re.match] of the pattern on every line (equivalence with the
      reference [match_line_ref]).
    - Types: every row of the basic analysis's frame is well typed
      ([frame_wf]: an [int64] timestamp in the [Timestamp] range on a
      whole second, a non-empty [\w+] level, a non-empty message without
      newline); on that path the model of [pd.to_datetime] is exact
      ([basic_frame_errors]).  (On the split parser's rows pandas may
      accept more shapes, e.g. fractional seconds, which raise here, so
      no such claim is made for them.)
    - Timestamps and strings: every parsed instant is a whole second in
      the [int64] range; [floor] gives the bucket start below the instant
      and overflows exactly when that start is below [-2^63] (reachable:
      1677-09-21 00:12:44); [strftime] and
      [to_datetime_one] are inverse both ways on the whole [datetime64]
      range (through the calendar bijection of [Calendar], a lemma of
      CPython's [datetime], and [py_join] inverting [py_split]).
    - Server: it listens only on the chosen port, in [0..65535], after
      the file check and a successful bind (an invariant of [steps]);
      every step of the running script other than [serve_forever]
      serving a request, self-loops included, is well founded (no stage
      but serving can repeat forever); Ctrl+C always ends it; a port outside [0..65535] crashes it with an
      uncaught [OverflowError]; when the port is in use the suggested
      command reads back as the next port ([int(str(n)) = n]), which at
      65535 crashes; port 0 prints a wrong URL.
    - Flask app: the two JSON endpoints answer exactly the analyses of
      the file (200) or their exception (500, [FileNotFoundError] for a
      missing file), a refinement of [Analysis]; unknown paths (a
      trailing slash included) get 404 and other methods 405 without
      running a view; a traceback page is sent exactly for [GET /] when
      the template is missing under [debug=True], which [app.run] sets
      together with [host='0.0.0.0'].
    - The scenarios of the specification are evaluated as [Example]s.

    ** Bounds, fuel, representation

    No fuel is needed: every function is structurally recursive (the
    server's infinite [serve_forever] loop is a state that steps to
    itself on each request).  The calendar lemmas hold for every integer
    day number; two finite checks by [vm_compute] (the 730 day-of-year
    cases of [month_day], the 2 x 12 x 31 month-day offsets) carry the
    table lookups.  Scores
    and percentiles are exact rationals [Q]; numpy computes the virtual
    index [(n - 1) * 0.1] in binary floating point, which has the same
    floor, so the upper bound [floor + 1] holds there too.  Strings are
    ASCII ([\w], [\d], [isspace] and [len] agree with Python on ASCII).

    ** Not modelled

    The isolation forest's trees and scores (an interface: they are
    scikit-learn's, built from numpy's random stream under seed 42, and
    the labels depend on them only through the order of the scores);
    pandas' acceptance of other timestamp strings on the split
    parser's rows (pandas infers the format from the first row with
    dateutil's version-dependent guesser; such strings raise here; the
    basic analysis only ever sees the modelled format); the order of the [value_counts] dictionary; the
    order numpy's quicksort gives to rows with equal timestamps (the
    sort is the class [SortValues] of its contract); the value of
    the clock (an input of the page); binary floating point in the rate
    ([len(anomalies)/len(df)*100] is formatted from the exact rational:
    the text differs only when the exact value is within 1e-15 of a tie
    of the rounding); the text of [templates/dashboard.html] (not in
    the repository: an input of [app_env]); paths with two consecutive
    slashes, which Werkzeug's [merge_slashes] redirects (outside the
    model); the JSON text written by [jsonify]; the request
    handling of [SimpleHTTPRequestHandler] (a library: a request is an
    input that prints nothing); the limit of 4300 digits of [int()] in
    recent Python versions (version dependent; only ports matter).

    ** Plan for the next sittings

    The [tail(10)] records of the basic analysis; the trees of the
    isolation forest over an explicit random stream. *)

From stdpp Require Import base list.
From Stdlib Require Import ZArith Lia Sorted.
From Stdlib Require Export ZifyNat.

(** ** Python exceptions

    The exceptions the analysis paths can raise, by the library call
    that raises them: [pd.to_datetime] raises [DateParseError] on a
    string it cannot read and [OutOfBoundsDatetime] on an instant outside
    the nanosecond [int64] range; [Series.dt.floor] raises [OverflowError]
    when the floored value leaves that range; scikit-learn's input
    validation raises [ValueError] on an empty or NaN feature matrix; a
    Python division by a zero length raises [ZeroDivisionError];
    [open("error_logs.txt")] raises [FileNotFoundError] when the file is
    missing, and Flask's [render_template] raises Jinja's
    [TemplateNotFound] when the template is. *)
Inductive py_error : Type :=
| DateParseError
| OutOfBoundsDatetime
| OverflowError
| ValueError
| ZeroDivisionError
| FileNotFoundError
| TemplateNotFound.

#[export] Instance py_error_eq_dec : EqDecision py_error.
Proof. solve_decision. Defined.

(** A computation that returns a value or raises. *)
Inductive result (A : Type) : Type :=
| Ok (a : A)
| Err (e : py_error).
Arguments Ok {A} a.
Arguments Err {A} e.

Definition bind {A B} (r : result A) (k : A -> result B) : result B :=
  match r with
  | Ok a => k a
  | Err e => Err e
  end.

Declare Scope pylog_scope.
Delimit Scope pylog_scope with pylog.
Notation "'let*' x := c 'in' k" := (bind c (fun x => k))
  (at level 10, x name, c at level 100, k at level 200) : pylog_scope.
Notation "'raise' e" := (Err e) (at level 10) : pylog_scope.
Open Scope pylog_scope.

(** Apply a raising function to every element, stopping at the first
    exception (a Python loop or a vectorised pandas call). *)
Fixpoint map_result {A B} (f : A -> result B) (l : list A) : result (list B) :=
  match l with
  | [] => Ok []
  | x :: xs => let* y := f x in let* ys := map_result f xs in Ok (y :: ys)
  end.

(** The number of elements satisfying a boolean test. *)
Definition countb {A} (p : A -> bool) (l : list A) : nat :=
  List.length (List.filter p l).

(** ** Machine integers: pandas stores instants as [int64] nanoseconds. *)
Definition int64_min : Z := (- 2 ^ 63)%Z.
Definition int64_max : Z := (2 ^ 63 - 1)%Z.
Definition in_int64 (z : Z) : bool := ((int64_min <=? z) && (z <=? int64_max))%Z.

(** ** Generic lemmas *)

Lemma Ok_inj {A} (a b : A) : Ok a = Ok b -> a = b.
Proof. congruence. Qed.

Lemma bind_Ok {A B} (r : result A) (k : A -> result B) (b : B) :
  bind r k = Ok b -> exists a, r = Ok a /\ k a = Ok b.
Proof. destruct r; simpl; [eauto | discriminate]. Qed.

Lemma bind_Err {A B} (r : result A) (k : A -> result B) e :
  r = Err e -> bind r k = Err e.
Proof. intros ->. reflexivity. Qed.

Lemma map_result_Ok {A B} (f : A -> result B) (l : list A) (l' : list B) :
  map_result f l = Ok l' <-> Forall2 (fun a b => f a = Ok b) l l'.
Proof.
  revert l'. induction l as [|x xs IH]; intros l'; simpl.
  - split; [intros [= <-]; constructor | intros H; inversion H; reflexivity].
  - split.
    + intros H. apply bind_Ok in H as (y & Hy & H).
      apply bind_Ok in H as (ys & Hys & [= <-]).
      constructor; [exact Hy | by apply IH].
    + intros H. inversion H as [|? y ? ys Hy Hys]; subst.
      rewrite Hy. simpl. apply IH in Hys. rewrite Hys. reflexivity.
Qed.

Lemma map_result_length {A B} (f : A -> result B) l l' :
  map_result f l = Ok l' -> List.length l' = List.length l.
Proof. intros H%map_result_Ok. symmetry. eapply Forall2_length; eauto. Qed.

Lemma map_result_map {A B} (f : A -> B) (l : list A) :
  map_result (fun x => Ok (f x)) l = Ok (List.map f l).
Proof. induction l as [|x xs IH]; simpl; [done | by rewrite IH]. Qed.

Lemma map_result_Err_inv {A B} (f : A -> result B) (l : list A) e :
  map_result f l = Err e -> exists x, In x l /\ f x = Err e.
Proof.
  induction l as [|x xs IH]; simpl; [discriminate|].
  destruct (f x) as [y|e'] eqn:Hx; simpl.
  - destruct (map_result f xs) as [ys|e'] eqn:Hxs; simpl; [discriminate|].
    intros [= ->]. destruct IH as (z & Hz & Hfz); [done|]. eauto.
  - intros [= ->]. eauto.
Qed.

Lemma map_result_raises {A B} (f : A -> result B) (l : list A) x e :
  In x l -> f x = Err e -> exists e', map_result f l = Err e'.
Proof.
  intros Hin Hx. induction l as [|y ys IH]; [done|]. simpl.
  destruct Hin as [<-|Hin].
  - rewrite Hx. eauto.
  - destruct (f y) as [b|e']; simpl; [|eauto].
    destruct IH as [e' ->]; [done|]. simpl. eauto.
Qed.

Lemma map_result_total {A B} (f : A -> result B) (l : list A) :
  (forall x, In x l -> exists y, f x = Ok y) -> exists l', map_result f l = Ok l'.
Proof.
  induction l as [|x l IH]; intros H; simpl; [eauto|].
  destruct (H x (or_introl eq_refl)) as [y ->]. simpl.
  destruct IH as [l' ->]; [intros z Hz; apply H; by right|]. simpl. eauto.
Qed.

Lemma Forall2_In_l {A B} (R : A -> B -> Prop) l k x :
  Forall2 R l k -> In x l -> exists y, In y k /\ R x y.
Proof.
  intros H. induction H as [|a b l k Hab _ IH]; [done|].
  intros [<-|Hx]; [exists b; split; [left|]; done|].
  destruct (IH Hx) as (y & ? & ?). exists y. split; [by right | done].
Qed.

Lemma countb_nil {A} (p : A -> bool) : countb p [] = 0%nat.
Proof. reflexivity. Qed.

Lemma countb_cons {A} (p : A -> bool) x l :
  countb p (x :: l) = ((if p x then 1 else 0) + countb p l)%nat.
Proof. unfold countb. simpl. by destruct (p x). Qed.

Lemma countb_app {A} (p : A -> bool) l1 l2 :
  countb p (l1 ++ l2) = (countb p l1 + countb p l2)%nat.
Proof. unfold countb. by rewrite List.filter_app, List.length_app. Qed.

Lemma countb_le_length {A} (p : A -> bool) l : (countb p l <= List.length l)%nat.
Proof. unfold countb. apply List.filter_length_le. Qed.

Lemma countb_pos {A} (p : A -> bool) l :
  (0 < countb p l)%nat -> exists x, In x l /\ p x = true.
Proof.
  induction l as [|y l IH]; rewrite ?countb_nil, ?countb_cons; [lia|].
  destruct (p y) eqn:E; [eauto using in_eq|].
  intros H. destruct IH as (x & ? & ?); [lia|]. eauto using in_cons.
Qed.

Lemma countb_zero {A} (p : A -> bool) l :
  (forall x, In x l -> p x = false) -> countb p l = 0%nat.
Proof.
  induction l as [|y l IH]; intros H; [done|]. rewrite countb_cons, H by (left; done).
  rewrite IH; [done|]. intros x Hx. apply H. by right.
Qed.

Lemma countb_ext_in {A} (p q : A -> bool) l :
  (forall x, In x l -> p x = q x) -> countb p l = countb q l.
Proof. intros H. unfold countb. by rewrite (List.filter_ext_in p q l H). Qed.

#[export] Instance countb_perm {A} (p : A -> bool) :
  Proper (Permutation ==> eq) (countb p).
Proof.
  intros l1 l2 Hp. induction Hp; rewrite ?countb_cons; lia.
Qed.

Lemma countb_map {A B} (p : B -> bool) (f : A -> B) l :
  countb p (List.map f l) = countb (fun x => p (f x)) l.
Proof.
  induction l as [|x xs IH]; [done|]. simpl. rewrite !countb_cons, IH. done.
Qed.

Lemma countb_filter {A} (p q : A -> bool) l :
  countb p (List.filter q l) = countb (fun x => q x && p x) l.
Proof.
  induction l as [|x l IH]; [done|]. simpl.
  destruct (q x) eqn:E; simpl; rewrite !countb_cons, IH, E; simpl; done.
Qed.

Lemma StronglySorted_snoc {A} (R : A -> A -> Prop) l x :
  StronglySorted R (l ++ [x]) <-> StronglySorted R l /\ Forall (fun y => R y x) l.
Proof.
  induction l as [|y l IH]; simpl.
  - split; [split; constructor | intros _; repeat constructor].
  - split.
    + intros H. inversion H as [|? ? Hs Hf]; subst. apply IH in Hs as [Hs Hx].
      apply List.Forall_app in Hf as [Hf Hyx]. inversion Hyx; subst.
      split; constructor; auto.
    + intros [Hs Hf]. inversion Hs as [|? ? Hs' Hf']; subst.
      inversion Hf as [|? ? Hyx Hf'']; subst.
      constructor; [by apply IH | apply List.Forall_app; auto].
Qed.

Lemma StronglySorted_map_mono {A B} (R : A -> A -> Prop) (R' : B -> B -> Prop) (f : A -> B) l :
  (forall x y, R x y -> R' (f x) (f y)) ->
  StronglySorted R l -> StronglySorted R' (List.map f l).
Proof.
  intros Hf Hs. induction Hs as [|x l Hs IH Hx]; simpl; constructor; [exact IH|].
  apply List.Forall_map. eapply List.Forall_impl; [|exact Hx]. auto.
Qed.

(** [ceil(k / 10)] in natural numbers. *)
Lemma ceil_tenths k : ((k + 9) / 10 = k / 10 + (if k mod 10 =? 0 then 0 else 1))%nat.
Proof.
  rewrite (Nat.div_mod_eq k 10) at 1.
  replace (10 * (k / 10) + k mod 10 + 9)%nat with (k mod 10 + 9 + (k / 10) * 10)%nat by lia.
  rewrite Nat.div_add, Nat.add_comm by lia.
  pose proof (Nat.mod_upper_bound k 10 ltac:(lia)) as Hr.
  destruct (k mod 10) as [|r]; [reflexivity|].
  do 9 (destruct r as [|r]; [reflexivity|]). lia.
Qed.

Create HintDb pylog.
Create Rewrite HintDb pylog_rw.
#[export] Hint Rewrite @countb_nil @countb_cons @countb_app @countb_map @countb_filter : pylog_rw.
#[export] Hint Resolve countb_le_length map_result_length : pylog.

(** Invert every [bind _ _ = Ok _] hypothesis into its two steps. *)
Ltac bind_inv :=
  repeat match goal with
         | H : bind _ _ = Ok _ |- _ =>
             let a := fresh "a" in
             let Ha := fresh "Ha" in
             apply bind_Ok in H as (a & Ha & H)
         | H : Ok _ = Ok _ |- _ => apply Ok_inj in H; subst
         | H : Err _ = Ok _ |- _ => discriminate H
         end.
