(* ===== verification/PyStr.v ===== *)
(** * Python string primitives used by the log parsers

    [str.strip()], [str.split(sep, maxsplit)] with a one-character
    separator, the concatenation [+] and [len], on ASCII strings
    ([String.string]).  Both parsers of the program call them on every
    line: [log.strip().split(" ", 3)] in
    src/web_anomaly_display.py:16 and src/web_app.py:62, and
    [line.strip()] before the regular expression in src/web_app.py:18. *)

From stdpp Require Import base list.
From Stdlib Require Import String Ascii ZArith Lia.
From S2P Require Import Prelude.

Module PyStr.

(** [str.isspace] on one ASCII character: \t \n \v \f \r (9-13), the
    information separators \x1c-\x1f (28-31) and the space (32). *)
Definition py_isspace (c : ascii) : bool :=
  let n := nat_of_ascii c in
  ((9 <=? n) && (n <=? 13)) || ((28 <=? n) && (n <=? 32)).

(** [str.isdigit] (and the regular-expression class [\d]) on ASCII. *)
Definition is_digit (c : ascii) : bool :=
  let n := nat_of_ascii c in (48 <=? n) && (n <=? 57).

(** The value of a decimal digit ([int(c)]). *)
Definition digit_value (c : ascii) : Z := (Z.of_nat (nat_of_ascii c) - 48)%Z.

Fixpoint lstrip (s : string) : string :=
  match s with
  | EmptyString => EmptyString
  | String c s' => if py_isspace c then lstrip s' else s
  end.

Fixpoint rstrip (s : string) : string :=
  match s with
  | EmptyString => EmptyString
  | String c s' =>
      match rstrip s' with
      | EmptyString => if py_isspace c then EmptyString else String c EmptyString
      | r => String c r
      end
  end.

(** [s.strip()]: whitespace removed at both ends. *)
Definition py_strip (s : string) : string := rstrip (lstrip s).

(** Prepend a character to the first field of a split. *)
Definition cons_first (c : ascii) (fields : list string) : list string :=
  match fields with
  | [] => [String c EmptyString]
  | f :: fs => String c f :: fs
  end.

(** [s.split(sep, maxsplit)] for a one-character [sep]: cut at each
    occurrence of [sep] from the left, at most [maxsplit] times; empty
    fields are kept and the remainder after the last cut is one field. *)
Fixpoint py_split (sep : ascii) (maxsplit : nat) (s : string) : list string :=
  match s with
  | EmptyString => [EmptyString]
  | String c s' =>
      if Ascii.eqb c sep then
        match maxsplit with
        | O => cons_first c (py_split sep O s')
        | S m => EmptyString :: py_split sep m s'
        end
      else cons_first c (py_split sep maxsplit s')
  end.

(** [sep.join(fields)]. *)
Fixpoint py_join (sep : ascii) (fields : list string) : string :=
  match fields with
  | [] => EmptyString
  | [f] => f
  | f :: fs => (f ++ String sep (py_join sep fs))%string
  end.

(** The number of occurrences of a character ([s.count(c)]). *)
Fixpoint count_char (c : ascii) (s : string) : nat :=
  match s with
  | EmptyString => 0
  | String c' s' => (if Ascii.eqb c' c then 1 else 0) + count_char c s'
  end.

(** The last character, if any ([s[-1]]). *)
Fixpoint last_char (s : string) : option ascii :=
  match s with
  | EmptyString => None
  | String c EmptyString => Some c
  | String _ s' => last_char s'
  end.

(** Every character passes [p] ([all(p(c) for c in s)]). *)
Fixpoint str_forallb (p : ascii -> bool) (s : string) : bool :=
  match s with
  | EmptyString => true
  | String c s' => p c && str_forallb p s'
  end.

(** [needle in hay] for strings. *)
Fixpoint py_contains (needle hay : string) : bool :=
  String.prefix needle hay ||
  match hay with
  | EmptyString => false
  | String _ hay' => py_contains needle hay'
  end.

(** ** Lemmas *)

Lemma py_split_nonempty sep n s : py_split sep n s <> [].
Proof.
  revert n. induction s as [|c s IH]; intros n; simpl; [done|].
  destruct (Ascii.eqb c sep), n; simpl; try done;
    destruct (py_split sep _ s); done.
Qed.

Lemma length_cons_first c fs :
  fs <> [] -> List.length (cons_first c fs) = List.length fs.
Proof. by destruct fs. Qed.

(** The number of fields is one more than the number of cuts, which is
    the number of separators capped by [maxsplit]. *)
Lemma py_split_length sep n s :
  List.length (py_split sep n s) = S (Nat.min n (count_char sep s)).
Proof.
  revert n. induction s as [|c s IH]; intros n; simpl; [lia|].
  destruct (Ascii.eqb c sep) eqn:E, n as [|m]; simpl;
    rewrite ?length_cons_first by apply py_split_nonempty; rewrite ?IH;
    destruct (count_char sep s); simpl; lia.
Qed.

Lemma py_join_cons_first sep c fs :
  fs <> [] -> py_join sep (cons_first c fs) = String c (py_join sep fs).
Proof. destruct fs as [|f [|g gs]]; done. Qed.

Lemma py_join_cons sep f fs :
  fs <> [] -> py_join sep (f :: fs) = (f ++ String sep (py_join sep fs))%string.
Proof. by destruct fs. Qed.

(** Joining the fields with the separator gives the string back. *)
Lemma py_join_split sep n s : py_join sep (py_split sep n s) = s.
Proof.
  revert n. induction s as [|c s IH]; intros n; simpl; [done|].
  destruct (Ascii.eqb c sep) eqn:E.
  - apply Ascii.eqb_eq in E as ->. destruct n as [|m].
    + rewrite py_join_cons_first by apply py_split_nonempty. by rewrite IH.
    + rewrite py_join_cons by apply py_split_nonempty. by rewrite IH.
  - rewrite py_join_cons_first by apply py_split_nonempty. by rewrite IH.
Qed.

Lemma lstrip_head s c s' :
  lstrip s = String c s' -> py_isspace c = false.
Proof.
  induction s as [|d s IH]; simpl; [done|].
  destruct (py_isspace d) eqn:E; [exact IH|]. by intros [= <- _].
Qed.

Lemma rstrip_last s c :
  last_char (rstrip s) = Some c -> py_isspace c = false.
Proof.
  induction s as [|d s IH]; simpl; [done|].
  destruct (rstrip s) as [|e r] eqn:Hr.
  - destruct (py_isspace d) eqn:E; simpl; [done|]. by intros [= <-].
  - simpl. intros H. apply IH. exact H.
Qed.

Lemma lstrip_rstrip_head s c s' :
  rstrip (lstrip s) = String c s' -> py_isspace c = false.
Proof.
  destruct (lstrip s) as [|d t] eqn:Hl; simpl; [done|].
  pose proof (lstrip_head s d t Hl) as Hd. rewrite Hd.
  destruct (rstrip t); by intros [= <- _].
Qed.

(** [s.strip()] leaves no whitespace at either end. *)
Lemma py_strip_ends s c :
  (last_char (py_strip s) = Some c -> py_isspace c = false) /\
  (forall s', py_strip s = String c s' -> py_isspace c = false).
Proof.
  split; [apply rstrip_last | apply lstrip_rstrip_head].
Qed.

Lemma string_app_nil_r (s : string) : (s ++ "")%string = s.
Proof. induction s as [|c s IH]; simpl; [done | by rewrite IH]. Qed.

Lemma string_app_assoc (a b c : string) :
  ((a ++ b) ++ c = a ++ (b ++ c))%string.
Proof. induction a as [|x a IH]; simpl; [done | by rewrite IH]. Qed.

Lemma count_char_app c (a b : string) :
  count_char c (a ++ b) = count_char c a + count_char c b.
Proof. induction a as [|x a IH]; simpl; [done | rewrite IH; lia]. Qed.

(** With no cut left, the whole string is one field. *)
Lemma py_split_zero sep s : py_split sep 0 s = [s].
Proof.
  induction s as [|c s IH]; simpl; [done|].
  by destruct (Ascii.eqb c sep); rewrite IH.
Qed.

(** A field free of the separator is cut off whole. *)
Lemma py_split_app_sep sep n (a b : string) :
  count_char sep a = 0 ->
  py_split sep (S n) (a ++ String sep b) = a :: py_split sep n b.
Proof.
  induction a as [|c a IH]; simpl; intros Ha.
  - by rewrite Ascii.eqb_refl.
  - destruct (Ascii.eqb c sep); [lia|]. rewrite IH by lia. done.
Qed.

Lemma rstrip_app_space (s : string) c :
  py_isspace c = true -> rstrip (s ++ String c EmptyString) = rstrip s.
Proof.
  intros Hc. induction s as [|d s IH]; simpl; [by rewrite Hc|].
  by rewrite IH.
Qed.

(** A trailing whitespace character does not change [s.strip()]. *)
Lemma py_strip_app_space (s : string) c :
  py_isspace c = true -> py_strip (s ++ String c EmptyString) = py_strip s.
Proof.
  intros Hc. unfold py_strip. induction s as [|d s IH]; simpl.
  - by rewrite Hc.
  - destruct (py_isspace d) eqn:Hd; [exact IH|].
    change (String d (s ++ String c EmptyString)) with
      ((String d s) ++ String c EmptyString)%string.
    by apply rstrip_app_space.
Qed.

Lemma count_char_lstrip_le c s : count_char c (lstrip s) <= count_char c s.
Proof.
  induction s as [|d s IH]; simpl; [lia|]. destruct (py_isspace d); simpl; lia.
Qed.

Lemma count_char_rstrip_le c s : count_char c (rstrip s) <= count_char c s.
Proof.
  induction s as [|d s IH]; simpl; [lia|].
  destruct (rstrip s) as [|e r] eqn:Hr; simpl in *;
    [destruct (py_isspace d); simpl|]; lia.
Qed.

Lemma count_char_py_strip_le c s : count_char c (py_strip s) <= count_char c s.
Proof.
  unfold py_strip. etrans; [apply count_char_rstrip_le | apply count_char_lstrip_le].
Qed.

Lemma last_char_app_cons (a b : string) c :
  last_char (a ++ String c b) = last_char (String c b).
Proof.
  induction a as [|d a IH]; [done|]. simpl. rewrite IH. by destruct a.
Qed.

(** A string without whitespace is its own [strip()]. *)
Lemma rstrip_no_space s :
  str_forallb (fun c => negb (py_isspace c)) s = true -> rstrip s = s.
Proof.
  induction s as [|c s IH]; simpl; [done|].
  intros [Hc Hs]%andb_prop. rewrite (IH Hs).
  destruct s; [by destruct (py_isspace c)|done].
Qed.

Lemma py_strip_no_space s :
  str_forallb (fun c => negb (py_isspace c)) s = true -> py_strip s = s.
Proof.
  intros H. unfold py_strip. destruct s as [|c s]; [done|].
  cbn [lstrip]. simpl in H. apply andb_prop in H as [Hc Hs].
  pose proof Hc as Hc'. apply negb_true_iff in Hc'. rewrite Hc'.
  apply rstrip_no_space. simpl. by rewrite Hc, Hs.
Qed.

Lemma prefix_spec a b : String.prefix a b = true <-> exists q, b = (a ++ q)%string.
Proof.
  revert b; induction a as [|c a IH]; intros [|c' b]; simpl.
  - split; [by exists EmptyString | done].
  - split; [by exists (String c' b) | done].
  - split; [done | intros [q Hq]; discriminate].
  - destruct (ascii_dec c c') as [<-|Hne].
    + rewrite IH. split; intros [q Hq]; exists q; congruence.
    + split; [done|]. intros [q Hq]. congruence.
Qed.

(** [needle in hay] holds exactly when [hay] has [needle] as a factor. *)
Lemma py_contains_spec a h :
  py_contains a h = true <-> exists p q, h = (p ++ a ++ q)%string.
Proof.
  induction h as [|c h IH]; cbn [py_contains].
  - rewrite orb_false_r, prefix_spec. split.
    + intros [q Hq]. by exists EmptyString, q.
    + intros [p [q Hq]]. exists q. destruct p; [done|discriminate].
  - rewrite orb_true_iff, prefix_spec, IH. split.
    + intros [[q Hq]|[p [q Hq]]]; [by exists EmptyString, q|].
      exists (String c p), q. by rewrite Hq.
    + intros [[|c' p] [q Hq]]; [left; by exists q|].
      right. injection Hq as <- Hq. by exists p, q.
Qed.

#[export] Hint Rewrite string_app_assoc count_char_app py_split_zero : pylog_rw.

End PyStr.
