(* ===== verification/PyInt.v ===== *)
(** * Python's [int(s)] and [str(n)] on integers

    [int(sys.argv[1])] (src/serve_webpage.py:50) reads the port from the
    command line; [str(n)] prints an integer inside the f-strings of the
    server (src/serve_webpage.py:25-42) and of the HTML report
    (src/web_anomaly_display.py:203-207).  Module [PyInt]: [py_int]
    (surrounding whitespace, an optional sign, decimal digits with
    single underscores between them, or [ValueError]) and [py_str] (the
    digits of [Z.to_int], after a minus sign when negative), with the
    roundtrip [py_int (py_str n) = Ok n], proved through Horner's rule
    and the digit lemmas of the Standard Library's [DecimalPos]. *)

From stdpp Require Import base list.
From Stdlib Require Import String Ascii ZArith Lia DecimalString DecimalPos DecimalN.
From S2P Require Import Prelude PyStr.
Import PyStr.

Module PyInt.

(** After the first digit: more digits, each optionally preceded by one
    underscore. *)
Fixpoint read_digits (s : string) (acc : Z) : option Z :=
  match s with
  | EmptyString => Some acc
  | String c s' =>
      if is_digit c then read_digits s' (acc * 10 + digit_value c)%Z
      else if Ascii.eqb c "_" then
        match s' with
        | String d s'' => if is_digit d then read_digits s'' (acc * 10 + digit_value d)%Z else None
        | EmptyString => None
        end
      else None
  end.

(** An unsigned decimal literal: a digit first. *)
Definition read_unsigned (s : string) : option Z :=
  match s with
  | String c s' => if is_digit c then read_digits s' (digit_value c) else None
  | EmptyString => None
  end.

Definition of_option {A} (o : option A) : result A :=
  match o with Some a => Ok a | None => raise ValueError end.

(** [int(s)] for a [str] in base 10: surrounding whitespace ignored, an
    optional sign directly before the digits; anything else raises
    [ValueError]. *)
Definition py_int (s : string) : result Z :=
  match py_strip s with
  | String c r =>
      if Ascii.eqb c "-" then of_option (option_map Z.opp (read_unsigned r))
      else if Ascii.eqb c "+" then of_option (read_unsigned r)
      else of_option (read_unsigned (String c r))
  | EmptyString => raise ValueError
  end.

(** [str(n)] for an [int]: the decimal digits without leading zeros,
    after a minus sign when negative. *)
Definition py_str (z : Z) : string := NilZero.string_of_int (Z.to_int z).

(** ** Lemmas *)

(** Replace [digit_value c] by its value for a literal character [c]. *)
Ltac eval_digit_value :=
  repeat match goal with |- context [digit_value ?c] =>
    let v := eval vm_compute in (digit_value c) in change (digit_value c) with v in * end.

(** The value of a little-endian digit sequence read from the left:
    Horner's rule, the way [read_digits] accumulates. *)
Fixpoint horner (d : Decimal.uint) (acc : Z) : Z :=
  match d with
  | Decimal.Nil => acc
  | Decimal.D0 d => horner d (acc * 10)
  | Decimal.D1 d => horner d (acc * 10 + 1)
  | Decimal.D2 d => horner d (acc * 10 + 2)
  | Decimal.D3 d => horner d (acc * 10 + 3)
  | Decimal.D4 d => horner d (acc * 10 + 4)
  | Decimal.D5 d => horner d (acc * 10 + 5)
  | Decimal.D6 d => horner d (acc * 10 + 6)
  | Decimal.D7 d => horner d (acc * 10 + 7)
  | Decimal.D8 d => horner d (acc * 10 + 8)
  | Decimal.D9 d => horner d (acc * 10 + 9)
  end%Z.

Lemma read_digits_uint d acc :
  read_digits (NilEmpty.string_of_uint d) acc = Some (horner d acc).
Proof.
  revert acc; induction d; intros acc; simpl; [done|..];
    rewrite IHd; do 2 f_equal;
    eval_digit_value; lia.
Qed.

Lemma horner_spec d acc :
  horner d acc = (acc * 10 ^ Z.of_N (DecimalPos.Unsigned.usize d) + Z.of_N (DecimalPos.Unsigned.of_lu (Decimal.rev d)))%Z.
Proof.
  revert acc; induction d; intros acc; cbn [horner DecimalPos.Unsigned.usize];
    [cbn; lia|..]; unfold Decimal.rev; cbn [Decimal.revapp];
    rewrite DecimalPos.Unsigned.of_lu_revapp, IHd; cbn [DecimalPos.Unsigned.of_lu];
    rewrite N2Z.inj_succ, Z.pow_succ_r, N2Z.inj_add, N2Z.inj_mul, N2Z.inj_pow by lia;
    unfold Decimal.rev; lia.
Qed.

Lemma horner_of_uint d : horner d 0 = Z.of_N (Pos.of_uint d).
Proof. by rewrite horner_spec, DecimalPos.Unsigned.of_uint_alt. Qed.

(** The digits of a positive number start with a digit that is read as
    the first one of an unsigned literal. *)
Lemma read_unsigned_pos p :
  read_unsigned (NilEmpty.string_of_uint (Pos.to_uint p)) = Some (Zpos p).
Proof.
  assert (Hp : horner (Pos.to_uint p) 0 = Zpos p)
    by (rewrite horner_of_uint, DecimalPos.Unsigned.of_to; reflexivity).
  destruct (Pos.to_uint p) eqn:E;
    [by destruct (DecimalPos.Unsigned.to_uint_nonnil p)|..];
    cbn [NilEmpty.string_of_uint read_unsigned]; simpl is_digit; cbv iota;
    rewrite read_digits_uint, <- Hp; cbn [horner]; eval_digit_value; do 2 f_equal; lia.
Qed.

Lemma string_of_uint_pos p :
  NilZero.string_of_uint (Pos.to_uint p) = NilEmpty.string_of_uint (Pos.to_uint p).
Proof. pose proof (DecimalPos.Unsigned.to_uint_nonnil p). by destruct (Pos.to_uint p). Qed.

Lemma uint_no_space d :
  str_forallb (fun c => negb (py_isspace c)) (NilEmpty.string_of_uint d) = true.
Proof. induction d; simpl; auto. Qed.

(** [int(str(n)) == n]: the printed number reads back. *)
Lemma py_int_py_str z : py_int (py_str z) = Ok z.
Proof.
  unfold py_int, py_str. destruct z as [|p|p]; [reflexivity|..];
    cbn [Z.to_int NilZero.string_of_int]; rewrite string_of_uint_pos, py_strip_no_space
    by (simpl; apply uint_no_space);
    pose proof (read_unsigned_pos p) as H; pose proof (DecimalPos.Unsigned.to_uint_nonnil p) as Hn;
    destruct (Pos.to_uint p); try done; cbn [NilEmpty.string_of_uint] in *; simpl; rewrite ?H; simpl in H; rewrite ?H; reflexivity.
Qed.

End PyInt.
