(* ===== verification/Parser.v ===== *)
(** * Log parsers

    The program reads [error_logs.txt] and turns each line into a row
    [[timestamp, level, message]] of strings, in two different ways:
    - [SplitParser]: [log.strip().split(" ", 3)], lines with fewer than
      four fields skipped (src/web_anomaly_display.py:14-22, repeated in
      src/web_app.py:60-68, function [get_ai_analysis]);
    - [RegexParser]: [re.match(r"(\d{4}-\d{2}-\d{2} \d{2}:\d{2}:\d{2})
      (\w+) (.+)", line.strip())], non-matching lines skipped
      (src/web_app.py:15-21, function [get_basic_analysis]).
    [read_lines] models the text-mode [file.readlines()] / line
    iteration that feeds both. *)

From stdpp Require Import base list strings.
From Stdlib Require Import String Ascii Lia.
From S2P Require Import Prelude PyStr.
Import PyStr.

Definition LF : ascii := "010".
Definition CR : ascii := "013".
Definition SP : ascii := " ".

(** A parsed row of the data frame, before [pd.to_datetime]. *)
Record raw_entry := RawEntry {
  raw_timestamp : string;
  raw_level : string;
  raw_message : string
}.

#[export] Instance raw_entry_eq_dec : EqDecision raw_entry.
Proof. solve_decision. Defined.

Module Lines.

(** Text mode with universal newlines: "\r\n" and "\r" read as "\n". *)
Fixpoint translate_newlines (s : string) : string :=
  match s with
  | EmptyString => EmptyString
  | String c s' =>
      if Ascii.eqb c CR then
        match s' with
        | String d s'' =>
            if Ascii.eqb d LF then String LF (translate_newlines s'')
            else String LF (translate_newlines s')
        | EmptyString => String LF EmptyString
        end
      else String c (translate_newlines s')
  end.

(** Cut after every "\n", keeping it; a last line without "\n" is kept. *)
Fixpoint lines_keepends (s : string) : list string :=
  match s with
  | EmptyString => []
  | String c s' =>
      if Ascii.eqb c LF then String c EmptyString :: lines_keepends s'
      else cons_first c (lines_keepends s')
  end.

(** [open(path, "r").readlines()] on the file's text. *)
Definition read_lines (content : string) : list string :=
  lines_keepends (translate_newlines content).

(** A line of [readlines]: a body free of "\n", with or without one
    final "\n". *)
Definition line_shape (l : string) : Prop :=
  exists body, count_char LF body = 0 /\
    (l = body \/ l = (body ++ String LF EmptyString)%string).

Lemma lines_keepends_shape s : Forall line_shape (lines_keepends s).
Proof.
  induction s as [|c s IH]; simpl; [constructor|].
  destruct (Ascii.eqb c LF) eqn:E.
  - apply Ascii.eqb_eq in E as ->. constructor; [|exact IH].
    exists EmptyString. split; [done | by right].
  - destruct (lines_keepends s) as [|f fs]; simpl.
    + constructor; [|constructor]. exists (String c EmptyString).
      simpl. rewrite E. split; [done | by left].
    + inversion IH as [|? ? Hf Hfs]; subst. constructor; [|exact Hfs].
      destruct Hf as (body & Hb & [->| ->]); exists (String c body);
        simpl; rewrite E; split; auto.
Qed.

(** After [strip()], a line read by [readlines] holds no newline. *)
Lemma read_lines_strip_no_newline content l :
  In l (read_lines content) -> count_char LF (py_strip l) = 0.
Proof.
  intros Hin. pose proof (lines_keepends_shape (translate_newlines content)) as H.
  rewrite List.Forall_forall in H. destruct (H l Hin) as (body & Hb & [->| ->]).
  - pose proof (count_char_py_strip_le LF body). lia.
  - rewrite py_strip_app_space by reflexivity.
    pose proof (count_char_py_strip_le LF body). lia.
Qed.

End Lines.

Module SplitParser.

(** One iteration of the loop body: [parts = log.strip().split(" ", 3)];
    [if len(parts) < 4: continue]; the row is
    [[parts[0] + " " + parts[1], parts[2], parts[3]]]. *)
Definition parse_line (log : string) : option raw_entry :=
  match py_split SP 3 (py_strip log) with
  | p0 :: p1 :: p2 :: p3 :: _ =>
      Some (RawEntry (p0 ++ String SP p1) p2 p3)
  | _ => None
  end.

(** [for log in logs: ...; data.append([timestamp, level, message])]. *)
Fixpoint parse_logs (logs : list string) : list raw_entry :=
  match logs with
  | [] => []
  | log :: rest =>
      match parse_line log with
      | None => parse_logs rest
      | Some e => e :: parse_logs rest
      end
  end.

Lemma parse_logs_app l1 l2 :
  parse_logs (l1 ++ l2) = parse_logs l1 ++ parse_logs l2.
Proof.
  induction l1 as [|x l1 IH]; simpl; [done|]. by destruct (parse_line x); rewrite IH.
Qed.

Lemma parse_logs_In logs e :
  In e (parse_logs logs) <-> exists log, In log logs /\ parse_line log = Some e.
Proof.
  induction logs as [|x l IH]; simpl.
  - split; [done | by intros (? & [] & _)].
  - destruct (parse_line x) as [e'|] eqn:Hx; simpl; rewrite IH; split.
    + intros [<-|(log & Hl & He)]; eauto.
    + intros (log & [<-|Hl] & He); [left; congruence | eauto].
    + intros (log & Hl & He); eauto.
    + intros (log & [<-|Hl] & He); [congruence | eauto].
Qed.

(** The first cut of a split: a separator-free field, then the rest. *)
Lemma py_split_first_cut sep n s f fs :
  py_split sep (S n) s = f :: fs -> fs <> [] ->
  count_char sep f = 0 /\ exists rest, s = (f ++ String sep rest)%string /\
                                      fs = py_split sep n rest.
Proof.
  revert f fs. induction s as [|c s IH]; simpl; intros f fs Hs Hne.
  - by injection Hs as <- <-.
  - destruct (Ascii.eqb c sep) eqn:E.
    + injection Hs as <- <-. apply Ascii.eqb_eq in E as ->. eauto.
    + pose proof (py_split_nonempty sep (S n) s) as Hn.
      destruct (py_split sep (S n) s) as [|g gs] eqn:Hg; [done|].
      injection Hs as <- <-. destruct (IH g gs eq_refl Hne) as (Hc & rest & -> & ->).
      simpl. rewrite E. split; [lia | eauto].
Qed.

(** What [parse_line] returns: the stripped line is
    [p0 ++ " " ++ p1 ++ " " ++ level ++ " " ++ message], the first three
    fields free of spaces, and the timestamp is [p0 ++ " " ++ p1]. *)
Lemma parse_line_Some log e :
  parse_line log = Some e ->
  exists p0 p1,
    raw_timestamp e = (p0 ++ String SP p1)%string /\
    count_char SP p0 = 0 /\ count_char SP p1 = 0 /\ count_char SP (raw_level e) = 0 /\
    py_strip log = (p0 ++ String SP (p1 ++ String SP (raw_level e ++
                      String SP (raw_message e))))%string.
Proof.
  unfold parse_line. destruct (py_split SP 3 (py_strip log)) as
    [|p0 [|p1 [|p2 [|p3 ps]]]] eqn:Hs; try discriminate.
  intros [= <-]. simpl.
  destruct (py_split_first_cut _ _ _ _ _ Hs) as (H0 & r0 & E0 & Hs0); [done|].
  symmetry in Hs0.
  destruct (py_split_first_cut _ _ _ _ _ Hs0) as (H1 & r1 & E1 & Hs1); [done|].
  symmetry in Hs1.
  destruct (py_split_first_cut _ _ _ _ _ Hs1) as (H2 & r2 & E2 & Hs2); [done|].
  rewrite py_split_zero in Hs2. injection Hs2 as -> ->.
  exists p0, p1. subst. repeat split; done.
Qed.

(** The split parser does not lose text: timestamp, level and message
    joined by single spaces give back the stripped line. *)
Lemma parse_line_roundtrip log e :
  parse_line log = Some e ->
  (raw_timestamp e ++ String SP (raw_level e ++ String SP (raw_message e)))%string
  = py_strip log.
Proof.
  intros (p0 & p1 & -> & _ & _ & _ & ->)%parse_line_Some.
  by rewrite string_app_assoc.
Qed.

Lemma parse_line_None_iff log :
  parse_line log = None <-> count_char SP (py_strip log) < 3.
Proof.
  unfold parse_line. pose proof (py_split_length SP 3 (py_strip log)) as Hlen.
  destruct (py_split SP 3 (py_strip log)) as [|p0 [|p1 [|p2 [|p3 ps]]]];
    cbn [List.length] in Hlen; split; intros H; try done; lia.
Qed.

(** The loop keeps at most one row per line. *)
Theorem parse_logs_length_le logs :
  List.length (parse_logs logs) <= List.length logs.
Proof.
  induction logs as [|x l IH]; simpl; [lia|]. destruct (parse_line x); simpl; lia.
Qed.

(** C17: A line is skipped exactly when its stripped text has fewer than
    three spaces (the split then has fewer than four fields); the rows
    kept are those of the other lines, in file order. *)
Theorem parse_logs_skip logs :
  parse_logs logs =
  List.flat_map (fun log => match parse_line log with Some e => [e] | None => [] end) logs
  /\ forall log, parse_line log = None <-> count_char SP (py_strip log) < 3.
Proof.
  split; [|apply parse_line_None_iff].
  induction logs as [|x l IH]; simpl; [done|]. by destruct (parse_line x); rewrite IH.
Qed.

(** C18: The message keeps no trailing whitespace: [strip()] removed every
    trailing space, tab or carriage return of the line, not only its
    line terminator. *)
Theorem parse_line_message_trimmed log e c :
  parse_line log = Some e -> last_char (raw_message e) = Some c ->
  py_isspace c = false.
Proof.
  intros He Hc. apply parse_line_roundtrip in He.
  destruct (py_strip_ends log c) as [Hlast _]. apply Hlast. rewrite <- He.
  rewrite last_char_app_cons.
  change (String SP (raw_level e ++ String SP (raw_message e)))
    with ((String SP (raw_level e)) ++ String SP (raw_message e))%string.
  rewrite last_char_app_cons.
  destruct (raw_message e) as [|m ms]; [discriminate | exact Hc].
Qed.

Definition tabbed_line : string :=
  ("2024-01-01 10:00:00 WARNING disk 91%" ++ String " " (String "009" (String CR (String LF EmptyString))))%string.

Lemma parse_line_roundtrip_witness :
  parse_line tabbed_line = Some (RawEntry "2024-01-01 10:00:00" "WARNING" "disk 91%") /\
  ("2024-01-01 10:00:00" ++ String SP ("WARNING" ++ String SP "disk 91%"))%string = py_strip tabbed_line.
Proof.
  assert (H : parse_line tabbed_line = Some (RawEntry "2024-01-01 10:00:00" "WARNING" "disk 91%"))
    by (vm_compute; reflexivity).
  split; [exact H|]. exact (parse_line_roundtrip _ _ H).
Defined.

(** The trailing space, tab and carriage return of the line are not part
    of the message: its length is 8, not 11. *)
Lemma parse_line_message_trimmed_witness :
  parse_line tabbed_line = Some (RawEntry "2024-01-01 10:00:00" "WARNING" "disk 91%") /\
  last_char "disk 91%" = Some "%"%char /\ py_isspace "%" = false /\
  String.length "disk 91%" = 8.
Proof.
  assert (H : parse_line tabbed_line = Some (RawEntry "2024-01-01 10:00:00" "WARNING" "disk 91%"))
    by (vm_compute; reflexivity).
  split; [exact H|]. split; [reflexivity|]. split; [|reflexivity].
  exact (parse_line_message_trimmed _ _ _ H eq_refl).
Defined.

End SplitParser.

Module RegexParser.

(** [\w] on ASCII characters ([\d] is [is_digit]). *)
Definition is_word (c : ascii) : bool :=
  let n := nat_of_ascii c in
  is_digit c || ((65 <=? n) && (n <=? 90)) || ((97 <=? n) && (n <=? 122))
  || (n =? 95).

(** One position of a fixed-width part of the pattern. *)
Inductive atom := Digit | Lit (c : ascii).

Definition atom_matches (a : atom) (c : ascii) : bool :=
  match a with
  | Digit => is_digit c
  | Lit d => Ascii.eqb c d
  end.

(** [\d{4}-\d{2}-\d{2}] and [\d{2}:\d{2}:\d{2}]: the two halves of the
    first group, which a literal space separates. *)
Definition date_pattern : list atom :=
  [Digit; Digit; Digit; Digit; Lit "-"; Digit; Digit; Lit "-"; Digit; Digit].
Definition time_pattern : list atom :=
  [Digit; Digit; Lit ":"; Digit; Digit; Lit ":"; Digit; Digit].

(** Match a fixed sequence of atoms at the start: the matched text and
    the rest. *)
Fixpoint match_atoms (p : list atom) (s : string) : option (string * string) :=
  match p, s with
  | [], _ => Some (EmptyString, s)
  | a :: p', String c s' =>
      if atom_matches a c then
        match match_atoms p' s' with
        | Some (m, r) => Some (String c m, r)
        | None => None
        end
      else None
  | _ :: _, EmptyString => None
  end.

(** The longest prefix whose characters pass [p] (a greedy [x*]). *)
Fixpoint span (p : ascii -> bool) (s : string) : string * string :=
  match s with
  | EmptyString => (EmptyString, EmptyString)
  | String c s' =>
      if p c then let (a, b) := span p s' in (String c a, b)
      else (EmptyString, s)
  end.

Definition not_newline (c : ascii) : bool := negb (Ascii.eqb c LF).

(** [re.match(pattern, line.strip())] and its three groups.  The first
    group is fixed-width, so it matches in one way.  [(\w+)] is greedy
    and must be followed by a space: a shorter word run is followed by a
    word character, so the longest run is the only candidate, and it
    needs one character at least.  [(.+)] takes every character up to
    the first newline and needs one at least. *)
Definition match_line (line : string) : option raw_entry :=
  match match_atoms date_pattern (py_strip line) with
  | Some (date, String c0 r0) =>
      if Ascii.eqb c0 SP then
        match match_atoms time_pattern r0 with
        | Some (time, String c1 r1) =>
            if Ascii.eqb c1 SP then
              match span is_word r1 with
              | (String w ws, String c2 r2) =>
                  if Ascii.eqb c2 SP then
                    match span not_newline r2 with
                    | (String m ms, _) =>
                        Some (RawEntry (date ++ String SP time) (String w ws) (String m ms))
                    | _ => None
                    end
                  else None
              | _ => None
              end
            else None
        | _ => None
        end
      else None
  | _ => None
  end.

(** A text that a fixed sequence of atoms matches whole. *)
Fixpoint atoms_shape (p : list atom) (m : string) : bool :=
  match p, m with
  | [], EmptyString => true
  | a :: p', String c m' => atom_matches a c && atoms_shape p' m'
  | _, _ => false
  end.

(** [for line in file: match = re.match(...); if match: log_entries.append(...)]. *)
Fixpoint parse_logs (lines : list string) : list raw_entry :=
  match lines with
  | [] => []
  | line :: rest =>
      match match_line line with
      | Some e => e :: parse_logs rest
      | None => parse_logs rest
      end
  end.

Lemma match_atoms_Some p s m r :
  match_atoms p s = Some (m, r) ->
  s = (m ++ r)%string /\
  (forallb (fun a => negb (atom_matches a SP)) p = true -> count_char SP m = 0).
Proof.
  revert s m. induction p as [|a p IH]; intros s m; simpl.
  - by intros [= <- <-].
  - destruct s as [|c s]; [discriminate|].
    destruct (atom_matches a c) eqn:Ha; [|discriminate].
    destruct (match_atoms p s) as [[m' r']|] eqn:Hp; [|discriminate].
    intros [= <- <-]. destruct (IH _ _ Hp) as [-> Hc]. split; [done|].
    intros [Hna Hall]%andb_prop. simpl. rewrite (Hc Hall).
    destruct (Ascii.eqb c SP) eqn:E; [|done].
    apply Ascii.eqb_eq in E as ->. by rewrite Ha in Hna.
Qed.

Lemma match_atoms_shape p s m r : match_atoms p s = Some (m, r) -> atoms_shape p m = true.
Proof.
  revert s m r. induction p as [|a p IH]; intros s m r; simpl; [by intros [= <- _]|].
  destruct s as [|c s]; [discriminate|]. destruct (atom_matches a c) eqn:Ha; [|discriminate].
  destruct (match_atoms p s) as [[m' r']|] eqn:Hp; [|discriminate].
  intros [= <- _]. simpl. rewrite Ha. exact (IH _ _ _ Hp).
Qed.

(** The timestamp of a row of the regular expression: a date and a time
    of the pattern's shape, joined by a space. *)
Lemma match_line_timestamp line e :
  match_line line = Some e ->
  exists date time, raw_timestamp e = (date ++ String SP time)%string /\
    atoms_shape date_pattern date = true /\ atoms_shape time_pattern time = true.
Proof.
  unfold match_line.
  destruct (match_atoms date_pattern (py_strip line)) as [[date [|c0 r0]]|] eqn:Hd; try discriminate.
  destruct (Ascii.eqb c0 SP); [|discriminate].
  destruct (match_atoms time_pattern r0) as [[time [|c1 r1]]|] eqn:Ht; try discriminate.
  destruct (Ascii.eqb c1 SP); [|discriminate].
  destruct (span is_word r1) as [[|w ws] [|c2 r2]]; try discriminate.
  destruct (Ascii.eqb c2 SP); [|discriminate].
  destruct (span not_newline r2) as [[|m ms] rest]; [discriminate|].
  intros [= <-]. exists date, time. simpl. split; [done|].
  split; [exact (match_atoms_shape _ _ _ _ Hd) | exact (match_atoms_shape _ _ _ _ Ht)].
Qed.

Lemma span_forallb (p : ascii -> bool) s a b : span p s = (a, b) -> str_forallb p a = true.
Proof.
  revert a b. induction s as [|c s IH]; intros a b; simpl; [by intros [= <- _]|].
  destruct (p c) eqn:Hc; [|by intros [= <- _]].
  destruct (span p s) as [a' b'] eqn:Hs. intros [= <- _]. simpl. rewrite Hc. exact (IH _ _ eq_refl).
Qed.

(** The level and the message of a row of the regular expression: a
    non-empty run of word characters, and a non-empty text without a
    newline. *)
Lemma match_line_fields line e :
  match_line line = Some e ->
  raw_level e <> EmptyString /\ str_forallb is_word (raw_level e) = true /\
  raw_message e <> EmptyString /\ str_forallb not_newline (raw_message e) = true.
Proof.
  unfold match_line.
  destruct (match_atoms date_pattern (py_strip line)) as [[date [|c0 r0]]|]; try discriminate.
  destruct (Ascii.eqb c0 SP); [|discriminate].
  destruct (match_atoms time_pattern r0) as [[time [|c1 r1]]|]; try discriminate.
  destruct (Ascii.eqb c1 SP); [|discriminate].
  destruct (span is_word r1) as [[|w ws] [|c2 r2]] eqn:Hw; try discriminate.
  destruct (Ascii.eqb c2 SP); [|discriminate].
  destruct (span not_newline r2) as [[|m ms] rest] eqn:Hm; [discriminate|].
  intros [= <-]. simpl.
  split; [discriminate|]. split; [exact (span_forallb _ _ _ _ Hw)|].
  split; [discriminate | exact (span_forallb _ _ _ _ Hm)].
Qed.

Lemma regex_parse_logs_In lines e :
  In e (parse_logs lines) -> exists line, In line lines /\ match_line line = Some e.
Proof.
  induction lines as [|l ls IH]; simpl; [done|].
  destruct (match_line l) as [e'|] eqn:Hl; [intros [<-|Hin]|intros Hin]; eauto;
    destruct (IH Hin) as (line & ? & ?); eauto.
Qed.

Lemma span_Some (p : ascii -> bool) s a b :
  span p s = (a, b) ->
  s = (a ++ b)%string /\ (p SP = false -> count_char SP a = 0).
Proof.
  revert a b. induction s as [|c s IH]; intros a b; simpl.
  - by intros [= <- <-].
  - destruct (p c) eqn:Hc.
    + destruct (span p s) as [a' b'] eqn:Hs. intros [= <- <-].
      destruct (IH _ _ eq_refl) as [-> Hcount]. split; [done|].
      intros Hsp. simpl. rewrite Hcount by done.
      destruct (Ascii.eqb c SP) eqn:E; [|done].
      apply Ascii.eqb_eq in E as ->. congruence.
    + by intros [= <- <-].
Qed.

Lemma span_not_newline_all s :
  count_char LF s = 0 -> span not_newline s = (s, EmptyString).
Proof.
  induction s as [|c s IH]; simpl; [done|]. unfold not_newline at 1.
  destruct (Ascii.eqb c LF); simpl; [lia|]. intros H. by rewrite IH.
Qed.

(** On a line without an embedded newline, the row the regular
    expression extracts is the row the split parser extracts. *)
Theorem match_line_refines_split line e :
  count_char LF (py_strip line) = 0 ->
  match_line line = Some e -> SplitParser.parse_line line = Some e.
Proof.
  intros Hnl. unfold match_line, SplitParser.parse_line.
  destruct (match_atoms date_pattern (py_strip line)) as [[date [|c0 r0]]|] eqn:Hd;
    try discriminate.
  destruct (Ascii.eqb c0 SP) eqn:E0; [apply Ascii.eqb_eq in E0 as ->|discriminate].
  destruct (match_atoms time_pattern r0) as [[time [|c1 r1]]|] eqn:Ht; try discriminate.
  destruct (Ascii.eqb c1 SP) eqn:E1; [apply Ascii.eqb_eq in E1 as ->|discriminate].
  destruct (span is_word r1) as [[|w ws] [|c2 r2]] eqn:Hw; try discriminate.
  destruct (Ascii.eqb c2 SP) eqn:E2; [apply Ascii.eqb_eq in E2 as ->|discriminate].
  destruct (span not_newline r2) as [[|m ms] rest] eqn:Hm; [discriminate|].
  intros [= <-].
  destruct (match_atoms_Some _ _ _ _ Hd) as [Es Cd].
  destruct (match_atoms_Some _ _ _ _ Ht) as [Er0 Ct].
  destruct (span_Some _ _ _ _ Hw) as [Er1 Cw].
  rewrite Es, Er0, Er1 in Hnl |- *.
  repeat progress (simpl in Hnl; rewrite ?count_char_app in Hnl).
  rewrite span_not_newline_all in Hm by lia. injection Hm as <- <-.
  rewrite !py_split_app_sep by (apply Cd || apply Ct || apply Cw; reflexivity).
  by rewrite py_split_zero.
Qed.

(** C16: Over a file, the basic analysis reads a subsequence of the rows the
    AI analysis reads. *)
Theorem parse_logs_sublist content :
  sublist (parse_logs (Lines.read_lines content))
          (SplitParser.parse_logs (Lines.read_lines content)).
Proof.
  pose proof (Lines.read_lines_strip_no_newline content) as Hnl.
  induction (Lines.read_lines content) as [|l ls IH]; simpl; [constructor|].
  assert (IH' : sublist (parse_logs ls) (SplitParser.parse_logs ls))
    by (apply IH; intros x Hx; apply Hnl; by right).
  destruct (match_line l) as [e|] eqn:Hm.
  - rewrite (match_line_refines_split l e) by (done || (apply Hnl; by left)).
    by constructor.
  - destruct (SplitParser.parse_line l); [by constructor | exact IH'].
Qed.

(** ** Concrete runs *)

Definition sample_line : string := ("2024-01-01 10:00:00 ERROR db timeout" ++ String LF EmptyString)%string.
Definition sample_entry : raw_entry := RawEntry "2024-01-01 10:00:00" "ERROR" "db timeout".

Lemma match_line_refines_split_witness :
  count_char LF (py_strip sample_line) = 0 /\ match_line sample_line = Some sample_entry /\
  SplitParser.parse_line sample_line = Some sample_entry.
Proof.
  assert (H1 : count_char LF (py_strip sample_line) = 0) by (vm_compute; reflexivity).
  assert (H2 : match_line sample_line = Some sample_entry) by (vm_compute; reflexivity).
  split; [exact H1|]. split; [exact H2|]. exact (match_line_refines_split _ _ H1 H2).
Defined.

(** The specification's scenario: a malformed line, then a valid one,
    give one row, with both parsers. *)
Example parse_malformed_then_valid :
  SplitParser.parse_logs (Lines.read_lines ("garbage" ++ String LF sample_line)) = [sample_entry] /\
  parse_logs (Lines.read_lines ("garbage" ++ String LF sample_line)) = [sample_entry].
Proof. vm_compute. split; reflexivity. Qed.

(** Fields are cut at single spaces: a double space makes an empty
    field, and the rest shifts (the level becomes the time of day); the
    regular expression rejects such a line. *)
Example split_double_space :
  SplitParser.parse_line "2024-01-01  10:00:00 ERROR x" =
    Some (RawEntry "2024-01-01 " "10:00:00" "ERROR x") /\
  match_line "2024-01-01  10:00:00 ERROR x" = None.
Proof. vm_compute. split; reflexivity. Qed.

End RegexParser.
