(* ===== verification/RegexSpec.v ===== *)
(** * The regular expression of the basic analysis, by backtracking

    src/web_app.py:18 calls
    [re.match(r"(\d{4}-\d{2}-\d{2} \d{2}:\d{2}:\d{2}) (\w+) (.+)", line.strip())].
    [Parser.RegexParser.match_line] reads the line in one pass.  This
    file gives the reference: a backtracking matcher [bt] with Python's
    semantics for the constructs the pattern uses (one character of a
    class, a greedy [+] over a class that gives back characters one at a
    time on failure, capturing groups, a match anchored at the start
    and not at the end), the pattern [log_pattern] written in it, and
    the theorem that the one-pass matcher computes the same groups on
    every line. *)

From stdpp Require Import base list strings.
From Stdlib Require Import String Ascii Lia.
From S2P Require Import Prelude PyStr Parser.
Import PyStr RegexParser.

Module RegexSpec.

(** The constructs of the pattern: one character of a class, a greedy
    [+] over a class, the opening and the closing of a group. *)
Inductive tok :=
| TChar (p : ascii -> bool)
| TPlus (p : ascii -> bool)
| TOpen
| TClose.

(** The ways a greedy [c+] can take a prefix of [s]: the prefix and the
    rest, longest first. *)
Fixpoint splits (p : ascii -> bool) (s : string) : list (string * string) :=
  match s with
  | EmptyString => []
  | String c s' =>
      if p c then map (fun '(x, r) => (String c x, r)) (splits p s') ++ [(String c EmptyString, s')]
      else []
  end.

(** The first alternative that succeeds. *)
Fixpoint first_some {A B} (f : A -> option B) (l : list A) : option B :=
  match l with
  | [] => None
  | x :: l' => match f x with Some b => Some b | None => first_some f l' end
  end.

(** The text consumed goes to every open group. *)
Definition feed (x : string) (opens : list string) : list string :=
  List.map (fun a => (a ++ x)%string) opens.

(** Backtracking: [opens] are the texts of the open groups (innermost
    first), [caps] the closed groups (last closed first).  The end of
    the pattern is a match, whatever text remains. *)
Fixpoint bt (pat : list tok) (s : string) (opens caps : list string) : option (list string) :=
  match pat with
  | [] => Some (rev caps)
  | TOpen :: pat' => bt pat' s (EmptyString :: opens) caps
  | TClose :: pat' =>
      match opens with
      | o :: os => bt pat' s os (o :: caps)
      | [] => None
      end
  | TChar p :: pat' =>
      match s with
      | String c s' => if p c then bt pat' s' (feed (String c EmptyString) opens) caps else None
      | EmptyString => None
      end
  | TPlus p :: pat' => first_some (fun '(x, r) => bt pat' r (feed x opens) caps) (splits p s)
  end.

(** [re.match(pattern, s).groups()], or [None]. *)
Definition re_match (pat : list tok) (s : string) : option (list string) := bt pat s [] [].

Definition is_sp (c : ascii) : bool := Ascii.eqb c SP.
Definition atom_tok (a : atom) : tok := TChar (atom_matches a).

(** [(\d{4}-\d{2}-\d{2} \d{2}:\d{2}:\d{2}) (\w+) (.+)]. *)
Definition log_pattern : list tok :=
  [TOpen] ++ List.map atom_tok date_pattern ++ [TChar is_sp] ++ List.map atom_tok time_pattern ++
  [TClose; TChar is_sp; TOpen; TPlus is_word; TClose; TChar is_sp; TOpen; TPlus not_newline; TClose].

(** [timestamp, level, message = match.groups()]. *)
Definition groups_entry (g : list string) : option raw_entry :=
  match g with
  | [a; b; c] => Some (RawEntry a b c)
  | _ => None
  end.

Definition match_line_ref (line : string) : option raw_entry :=
  match re_match log_pattern (py_strip line) with
  | Some g => groups_entry g
  | None => None
  end.

(** ** Lemmas *)

Lemma feed_feed x y opens : feed y (feed x opens) = feed (x ++ y) opens.
Proof.
  unfold feed. rewrite List.map_map. apply List.map_ext. intros a. by rewrite string_app_assoc.
Qed.

Lemma feed_nil opens : feed EmptyString opens = opens.
Proof.
  unfold feed. rewrite <- (List.map_id opens) at 2. apply List.map_ext. apply string_app_nil_r.
Qed.

(** A run of fixed characters is matched as [match_atoms] matches it. *)
Lemma bt_atoms atoms rest s opens caps :
  bt (List.map atom_tok atoms ++ rest) s opens caps =
  match match_atoms atoms s with
  | Some (m, r) => bt rest r (feed m opens) caps
  | None => None
  end.
Proof.
  revert s opens; induction atoms as [|a atoms IH]; intros s opens; simpl.
  - by rewrite feed_nil.
  - destruct s as [|c s]; [done|]. destruct (atom_matches a c); [|done].
    rewrite IH. destruct (match_atoms atoms s) as [[m r]|]; [|done].
    by rewrite feed_feed.
Qed.

(** The longest split comes first and is the one [span] finds; every
    other one leaves a character of the class in front of the rest. *)
Lemma splits_span p s a b :
  span p s = (a, b) -> a <> EmptyString ->
  exists l, splits p s = (a, b) :: l /\
            Forall (fun '(x, r) => exists c r', r = String c r' /\ p c = true) l.
Proof.
  revert a b. induction s as [|c s IH]; intros a b; simpl.
  - intros [= <- <-]. done.
  - destruct (p c) eqn:Hc; [|intros [= <- <-]; done].
    destruct (span p s) as [a' b'] eqn:Hs. intros [= <- <-] _.
    destruct a' as [|c' a''].
    + assert (splits p s = []) as ->.
      { destruct s as [|c0 s0]; [done|]. simpl in Hs |- *.
        destruct (p c0) eqn:Hc0; [|done]. by destruct (span p s0). }
      destruct (span_Some _ _ _ _ Hs) as [Hsb _]. change (("" ++ b')%string) with b' in Hsb. subst b'.
      simpl. by exists [].
    + destruct (IH _ _ eq_refl ltac:(discriminate)) as (l & -> & Hl). simpl.
      eexists. split; [reflexivity|]. apply Forall_app. split.
      * apply Forall_forall. intros [x r] Hx. apply list_elem_of_In in Hx.
        apply in_map_iff in Hx as ([x' r'] & [= <- <-] & Hx).
        apply Forall_forall with (x := (x', r')) in Hl; [done|]. by apply list_elem_of_In.
      * constructor; [|done].
        destruct s as [|c0 s0]; [done|]. simpl in Hs. destruct (p c0) eqn:Hc0.
        -- by exists c0, s0.
        -- done.
Qed.

Lemma splits_span_nil p s b : span p s = (EmptyString, b) -> splits p s = [].
Proof.
  destruct s as [|c s]; [done|]. simpl. destruct (p c); [|done]. by destruct (span p s).
Qed.

Lemma first_some_rest_none {A B} (f : A -> option B) x l :
  Forall (fun y => f y = None) l -> first_some f (x :: l) = f x.
Proof.
  intros Hl. simpl. destruct (f x) as [b|]; [done|].
  induction Hl as [|y l Hy _ IH]; simpl; [done|]. by rewrite Hy.
Qed.

(** A greedy [c+] followed by a test that fails on a character of the
    class: only the longest prefix can succeed. *)
Lemma first_some_splits {B} (f : string * string -> option B) p s a b :
  span p s = (a, b) -> a <> EmptyString ->
  (forall x c r', p c = true -> f (x, String c r') = None) ->
  first_some f (splits p s) = f (a, b).
Proof.
  intros Hs Ha Hf. destruct (splits_span _ _ _ _ Hs Ha) as (l & -> & Hl).
  apply first_some_rest_none. eapply Forall_impl; [exact Hl|].
  intros [x r] (c & r' & -> & Hc). by apply Hf.
Qed.

(** C15: The one-pass matcher of [get_basic_analysis] computes the
    groups of the backtracking [re.match] on every line: same rows, same
    lines rejected. *)
Theorem match_line_equiv line : match_line line = match_line_ref line.
Proof.
  unfold match_line, match_line_ref, re_match, log_pattern.
  cbn [app bt]. rewrite bt_atoms.
  destruct (match_atoms date_pattern (py_strip line)) as [[date [|c0 r0]]|]; [done| |done].
  cbn [bt]. unfold is_sp at 1. destruct (Ascii.eqb_spec c0 SP) as [->|]; [|done].
  rewrite bt_atoms. destruct (match_atoms time_pattern r0) as [[time [|c1 r1]]|]; [done| |done].
  cbn [bt feed List.map]. unfold is_sp at 1. destruct (Ascii.eqb_spec c1 SP) as [->|]; [|done].
  cbn [bt feed List.map]. destruct (span is_word r1) as [w rest] eqn:Hw. destruct w as [|w0 ws].
  { by rewrite (splits_span_nil _ _ _ Hw). }
  rewrite (first_some_splits _ _ _ _ _ Hw ltac:(discriminate)); cycle 1.
  { intros x c r' Hc. cbn. unfold is_sp. destruct (Ascii.eqb_spec c SP) as [->|]; [discriminate|done]. }
  cbn [bt feed List.map]. destruct rest as [|c2 r2]; [done|]. unfold is_sp at 1.
  destruct (Ascii.eqb c2 SP); [|done].
  destruct (span not_newline r2) as [[|m0 ms] rest2] eqn:Hm.
  - by rewrite (splits_span_nil _ _ _ Hm).
  - destruct (splits_span _ _ _ _ Hm ltac:(discriminate)) as (l & -> & _).
    simpl. by rewrite string_app_assoc.
Qed.

End RegexSpec.
