(* ===== verification/Calendar.v ===== *)
(** * The proleptic Gregorian calendar of Python's [datetime]

    pandas and Python convert between a date and its ordinal (day 1 is
    0001-01-01) with [_ymd2ord] and [_ord2ymd] of the [datetime] module;
    the program relies on them through [pd.to_datetime]
    (src/web_app.py:25) and [strftime] (src/web_app.py:38).  This file
    holds the calendar ([ymd2ord], [ord2ymd] and the tables) and the
    proof that [ord2ymd] and [ymd2ord] are inverse: every day number is
    the ordinal of the valid date [ord2ymd] gives, for every integer, and
    every valid date is given back by [ord2ymd].

    The year arithmetic is proved with [lia] from the quotients and
    remainders of [_ord2ymd]; the day-of-year part ([month_day]) is
    checked on its 730 inputs (365 days, leap year or not), and the
    offsets of the 12 x 31 month-day pairs likewise. *)

From stdpp Require Import base list.
From Stdlib Require Import ZArith Lia.
From S2P Require Import Prelude.

Module Calendar.
Open Scope Z_scope.

Definition is_leap (y : Z) : bool :=
  (y mod 4 =? 0) && (negb (y mod 100 =? 0) || (y mod 400 =? 0)).

(** [_DAYS_IN_MONTH] and [_DAYS_BEFORE_MONTH], index 0 unused. *)
Definition DAYS_IN_MONTH : list Z :=
  [-1; 31; 28; 31; 30; 31; 30; 31; 31; 30; 31; 30; 31].
Definition DAYS_BEFORE_MONTH : list Z :=
  [-1; 0; 31; 59; 90; 120; 151; 181; 212; 243; 273; 304; 334].

Definition table (t : list Z) (i : Z) : Z := nth (Z.to_nat i) t (-1).

Definition days_in_month (y m : Z) : Z :=
  if (m =? 2) && is_leap y then 29 else table DAYS_IN_MONTH m.

Definition days_before_year (y : Z) : Z :=
  let y' := y - 1 in y' * 365 + y' / 4 - y' / 100 + y' / 400.

Definition days_before_month (y m : Z) : Z :=
  table DAYS_BEFORE_MONTH m + (if (m >? 2) && is_leap y then 1 else 0).

(** [_ymd2ord]: day 1 is 0001-01-01. *)
Definition ymd2ord (y m d : Z) : Z := days_before_year y + days_before_month y m + d.

Definition DI400Y : Z := 146097.
Definition DI100Y : Z := 36524.
Definition DI4Y : Z := 1461.

(** The month and day of the [n]-th day (from 0) of a year, the end of
    [_ord2ymd]: the month estimate [(n + 50) >> 5] is at most one too
    large. *)
Definition month_day (n : Z) (leapyear : bool) : Z * Z :=
  let month := Z.shiftr (n + 50) 5 in
  let preceding := table DAYS_BEFORE_MONTH month
                   + (if (month >? 2) && leapyear then 1 else 0) in
  let '(month, preceding) :=
    if preceding >? n then
      (month - 1, preceding - (table DAYS_IN_MONTH (month - 1)
                               + (if (month - 1 =? 2) && leapyear then 1 else 0)))
    else (month, preceding) in
  (month, n - preceding + 1).

(** [_ord2ymd]. *)
Definition ord2ymd (n : Z) : Z * Z * Z :=
  let n := n - 1 in
  let n400 := n / DI400Y in let n := n mod DI400Y in
  let year := n400 * 400 + 1 in
  let n100 := n / DI100Y in let n := n mod DI100Y in
  let n4 := n / DI4Y in let n := n mod DI4Y in
  let n1 := n / 365 in let n := n mod 365 in
  let year := year + n100 * 100 + n4 * 4 + n1 in
  if (n1 =? 4) || (n100 =? 4) then (year - 1, 12, 31)
  else
    let leapyear := (n1 =? 3) && (negb (n4 =? 24) || (n100 =? 3)) in
    let '(month, day) := month_day n leapyear in
    (year, month, day).

Definition valid_date (y m d : Z) : bool :=
  (1 <=? m) && (m <=? 12) && (1 <=? d) && (d <=? days_in_month y m).

(** ** Lemmas *)

(** [f] holds on the [k] integers from [lo]. *)
Fixpoint all_from (k : nat) (lo : Z) (f : Z -> bool) : bool :=
  match k with
  | O => true
  | S k' => f lo && all_from k' (lo + 1) f
  end.

Lemma all_from_spec k lo f n :
  all_from k lo f = true -> lo <= n < lo + Z.of_nat k -> f n = true.
Proof.
  revert lo; induction k as [|k IH]; intros lo; simpl; [lia|].
  intros [Hf Hr]%andb_prop Hn. destruct (Z.eq_dec n lo) as [->|]; [done|].
  apply (IH (lo + 1)); [done | lia].
Qed.

Lemma is_leap_spec y :
  is_leap y = true <-> y mod 4 = 0 /\ (y mod 100 <> 0 \/ y mod 400 = 0).
Proof.
  unfold is_leap. rewrite andb_true_iff, orb_true_iff, negb_true_iff, !Z.eqb_eq, Z.eqb_neq.
  done.
Qed.

(** What [month_day] must give: a valid month and day whose offset in
    the year is [n], as a boolean over the year type. *)
Definition month_day_ok (leap : bool) (n : Z) : bool :=
  let '(m, d) := month_day n leap in
  (1 <=? m) && (m <=? 12) && (1 <=? d) &&
  (d <=? (if (m =? 2) && leap then 29 else table DAYS_IN_MONTH m)) &&
  (table DAYS_BEFORE_MONTH m + (if (m >? 2) && leap then 1 else 0) + d =? n + 1).

Lemma month_day_all leap : all_from 365 0 (month_day_ok leap) = true.
Proof. destruct leap; vm_compute; reflexivity. Qed.

(** The day-of-year part of [_ord2ymd] is right for every day of a
    year (the last day of a leap year is handled before it). *)
Lemma month_day_spec y n :
  0 <= n < 365 ->
  let '(m, d) := month_day n (is_leap y) in
  valid_date y m d = true /\ days_before_month y m + d = n + 1.
Proof.
  intros Hn. pose proof (all_from_spec _ _ _ n (month_day_all (is_leap y)) ltac:(lia)) as H.
  unfold month_day_ok in H. destruct (month_day n (is_leap y)) as [m d].
  unfold valid_date, days_in_month, days_before_month.
  repeat rewrite andb_true_iff in *. rewrite !Z.leb_le, Z.eqb_eq in H.
  rewrite !Z.leb_le. intuition.
Qed.

(** The days before year [400 a + 100 b + 4 c + e + 1], the year
    [_ord2ymd] computes from its quotients. *)
Lemma days_before_year_cycles a b c e :
  0 <= b <= 3 -> 0 <= c <= 24 -> 0 <= e <= 3 ->
  days_before_year (400 * a + 100 * b + 4 * c + e + 1) =
  146097 * a + 36524 * b + 1461 * c + 365 * e.
Proof. intros. unfold days_before_year. lia. Qed.

(** The leap-year test of [_ord2ymd] agrees with [_is_leap]. *)
Lemma is_leap_cycles a b c e :
  0 <= b <= 3 -> 0 <= c <= 24 -> 0 <= e <= 3 ->
  is_leap (400 * a + 100 * b + 4 * c + e + 1) = (e =? 3) && (negb (c =? 24) || (b =? 3)).
Proof.
  intros Hb Hc He. apply eq_iff_eq_true. rewrite is_leap_spec, andb_true_iff, orb_true_iff,
    negb_true_iff, !Z.eqb_eq, Z.eqb_neq.
  split; intros [L1 L2]; split; lia.
Qed.

(** December 31 of a leap year. *)
Lemma dec31_spec y :
  is_leap y = true -> valid_date y 12 31 = true /\ ymd2ord y 12 31 = days_before_year y + 366.
Proof.
  intros Hl. unfold valid_date, ymd2ord, days_before_month, days_in_month.
  rewrite Hl. simpl.
  change (table DAYS_IN_MONTH 12) with 31. change (table DAYS_BEFORE_MONTH 12) with 334.
  split; [done | lia].
Qed.

Ltac divmod_facts x k :=
  pose proof (Z.div_mod x k ltac:(done)); pose proof (Z.mod_pos_bound x k ltac:(done)).

(** [_ord2ymd] gives a valid date whose ordinal is the day number, for
    every integer. *)
Lemma ord2ymd_spec n :
  let '(y, m, d) := ord2ymd n in valid_date y m d = true /\ ymd2ord y m d = n.
Proof.
  unfold ord2ymd. cbv zeta.
  divmod_facts (n - 1) DI400Y. set (a := (n - 1) / DI400Y) in *. set (r1 := (n - 1) mod DI400Y) in *.
  divmod_facts r1 DI100Y. set (b := r1 / DI100Y) in *. set (r2 := r1 mod DI100Y) in *.
  divmod_facts r2 DI4Y. set (c := r2 / DI4Y) in *. set (r3 := r2 mod DI4Y) in *.
  divmod_facts r3 365. set (e := r3 / 365) in *. set (r4 := r3 mod 365) in *.
  clearbody a r1 b r2 c r3 e r4. unfold DI400Y, DI100Y, DI4Y in *.
  destruct (Z.eqb_spec e 4) as [He|He], (Z.eqb_spec b 4) as [Hb|Hb]; simpl.
  1-3: assert (Hl : is_leap (a * 400 + 1 + b * 100 + c * 4 + e - 1) = true)
         by (apply is_leap_spec; lia);
       destruct (dec31_spec _ Hl) as [Hv Ho]; split; [exact Hv|];
       rewrite Ho; unfold days_before_year; lia.
  replace (a * 400 + 1 + b * 100 + c * 4 + e) with (400 * a + 100 * b + 4 * c + e + 1) by lia.
  rewrite <- (is_leap_cycles a b c e) by lia.
  pose proof (month_day_spec (400 * a + 100 * b + 4 * c + e + 1) r4 H6) as Hmd.
  destruct (month_day r4 _) as [m d]. destruct Hmd as [Hv Hd]. split; [exact Hv|].
  unfold ymd2ord. rewrite days_before_year_cycles by lia. lia.
Qed.

Lemma days_before_year_succ y :
  days_before_year (y + 1) = days_before_year y + 365 + (if is_leap y then 1 else 0).
Proof.
  unfold days_before_year. destruct (is_leap y) eqn:Hl.
  - apply is_leap_spec in Hl. lia.
  - assert (~ (y mod 4 = 0 /\ (y mod 100 <> 0 \/ y mod 400 = 0))) as Hn
      by (rewrite <- is_leap_spec; congruence). lia.
Qed.

Lemma days_before_year_mono y y' :
  y < y' -> days_before_year (y + 1) <= days_before_year y'.
Proof.
  intros Hy. replace y' with (y + 1 + Z.of_nat (Z.to_nat (y' - y - 1))) by lia.
  induction (Z.to_nat (y' - y - 1)) as [|k IH]; [simpl; rewrite Z.add_0_r; lia|].
  rewrite Nat2Z.inj_succ, <- Z.add_1_r, Z.add_assoc, (days_before_year_succ (y + 1 + Z.of_nat k)).
  destruct (is_leap _); lia.
Qed.

(** Where a valid month and day fall in a year: [month_day] gives them
    back from their offset, and only December 31 of a leap year is past
    day 364.  Checked on every month and day. *)
Definition date_offset_ok (leap : bool) (m d : Z) : bool :=
  let dim := if (m =? 2) && leap then 29 else table DAYS_IN_MONTH m in
  let k := table DAYS_BEFORE_MONTH m + (if (m >? 2) && leap then 1 else 0) + d - 1 in
  negb ((1 <=? d) && (d <=? dim)) ||
  (if k <? 365 then bool_decide (month_day k leap = (m, d))
   else leap && (m =? 12) && (d =? 31) && (k =? 365)).

Lemma date_offset_all leap :
  all_from 12 1 (fun m => all_from 31 1 (date_offset_ok leap m)) = true.
Proof. destruct leap; vm_compute; reflexivity. Qed.

Lemma date_offset_spec y m d :
  valid_date y m d = true ->
  let k := days_before_month y m + d - 1 in
  0 <= k /\
  (k < 365 /\ month_day k (is_leap y) = (m, d) \/
   is_leap y = true /\ m = 12 /\ d = 31 /\ k = 365).
Proof.
  intros Hv. unfold valid_date, days_in_month in Hv. rewrite !andb_true_iff, !Z.leb_le in Hv.
  assert (Hdim : table DAYS_IN_MONTH m <= 31 /\ 0 <= table DAYS_BEFORE_MONTH m)
    by (assert (Hm : m = 1 \/ m = 2 \/ m = 3 \/ m = 4 \/ m = 5 \/ m = 6 \/ m = 7 \/ m = 8 \/
                     m = 9 \/ m = 10 \/ m = 11 \/ m = 12) by lia;
        destruct_or! Hm; subst m; vm_compute; split; discriminate).
  pose proof (all_from_spec _ _ _ m (date_offset_all (is_leap y)) ltac:(lia)) as H1.
  pose proof (all_from_spec _ _ _ d H1 ltac:(destruct ((m =? 2) && is_leap y); lia)) as H.
  unfold date_offset_ok, days_before_month in *.
  apply orb_true_iff in H as [H|H].
  { exfalso. apply negb_true_iff, not_true_iff_false in H. apply H.
    rewrite andb_true_iff, !Z.leb_le. lia. }
  split; [destruct ((m >? 2) && is_leap y); lia|].
  destruct (Z.ltb_spec (table DAYS_BEFORE_MONTH m + (if (m >? 2) && is_leap y then 1 else 0) + d - 1) 365).
  - left. split; [done|]. by apply bool_decide_eq_true in H.
  - right. rewrite !andb_true_iff, !Z.eqb_eq in H. tauto.
Qed.

(** A valid date lies within its year. *)
Lemma ymd2ord_bounds y m d :
  valid_date y m d = true -> days_before_year y < ymd2ord y m d <= days_before_year (y + 1).
Proof.
  intros Hv. pose proof (date_offset_spec y m d Hv) as [H0 H].
  unfold ymd2ord. rewrite days_before_year_succ. destruct (is_leap y); lia.
Qed.

(** Two valid dates with the same ordinal are the same date. *)
Lemma ymd2ord_inj y m d y' m' d' :
  valid_date y m d = true -> valid_date y' m' d' = true ->
  ymd2ord y m d = ymd2ord y' m' d' -> (y, m, d) = (y', m', d').
Proof.
  intros Hv Hv' Heq.
  assert (y = y') as <-.
  { pose proof (ymd2ord_bounds _ _ _ Hv). pose proof (ymd2ord_bounds _ _ _ Hv').
    destruct (Z.lt_trichotomy y y') as [Hlt|[|Hlt]]; [|done|];
      apply days_before_year_mono in Hlt; lia. }
  unfold ymd2ord in Heq.
  pose proof (date_offset_spec y m d Hv) as [_ [[Hk H]|(_ & -> & -> & Hk)]];
  pose proof (date_offset_spec y m' d' Hv') as [_ [[Hk' H']|(_ & -> & -> & Hk')]];
    first [done | exfalso; lia |
      replace (days_before_month y m' + d' - 1) with (days_before_month y m + d - 1) in H' by lia;
      congruence].
Qed.

(** [_ord2ymd] gives back every valid date. *)
Lemma ord2ymd_ymd2ord y m d :
  valid_date y m d = true -> ord2ymd (ymd2ord y m d) = (y, m, d).
Proof.
  intros Hv. pose proof (ord2ymd_spec (ymd2ord y m d)) as H.
  destruct (ord2ymd (ymd2ord y m d)) as [[y' m'] d']. destruct H as [Hv' Heq].
  symmetry. by apply ymd2ord_inj.
Qed.

Lemma valid_date_bounds y m d : valid_date y m d = true -> 1 <= m <= 12 /\ 1 <= d <= 31.
Proof.
  intros Hv. pose proof Hv as Hv'. unfold valid_date, days_in_month in Hv.
  rewrite !andb_true_iff, !Z.leb_le in Hv.
  assert (Hm : m = 1 \/ m = 2 \/ m = 3 \/ m = 4 \/ m = 5 \/ m = 6 \/ m = 7 \/ m = 8 \/
               m = 9 \/ m = 10 \/ m = 11 \/ m = 12) by lia.
  destruct Hv as [[[Hm1 Hm2] Hd1] Hd]. split; [lia|]. split; [lia|].
  destruct_or! Hm; subst m; destruct (is_leap y); simpl in Hd;
    unfold table in Hd; simpl in Hd; lia.
Qed.

(** [_ord2ymd] and [_ymd2ord] are inverse bijections between day
    numbers and valid dates. *)
Theorem ord2ymd_inverse :
  (forall n, let '(y, m, d) := ord2ymd n in valid_date y m d = true /\ ymd2ord y m d = n) /\
  (forall y m d, valid_date y m d = true -> ord2ymd (ymd2ord y m d) = (y, m, d)).
Proof. split; [exact ord2ymd_spec | exact ord2ymd_ymd2ord]. Qed.

End Calendar.
