(* ===== verification/Timestamp.v ===== *)
(** * Timestamps: [pd.to_datetime], [Series.dt.floor], [strftime]

    pandas keeps an instant as a signed 64-bit count of nanoseconds since
    1970-01-01 00:00:00 ([datetime64[ns]]); the value [-2^63] is NaT, so an
    instant lies in [[-2^63 + 1, 2^63 - 1]] (1677-09-21 00:12:43.145224193
    to 2262-04-11 23:47:16.854775807).  The program calls
    - [pd.to_datetime] on the timestamp column (src/web_anomaly_display.py:25,
      src/web_app.py:25 and :71), modelled by [to_datetime];
    - [.dt.floor("30s")] on the ERROR timestamps (src/web_app.py:28),
      modelled by [floor];
    - [strftime('%Y-%m-%d %H:%M:%S')] to print a bucket or a row
      (src/web_app.py:38, src/web_anomaly_display.py:242), modelled by
      [strftime].
    The calendar ([ymd2ord], [ord2ymd]) is in [Calendar].  The lemmas
    show that every parsed instant is a whole second of the range, what
    [floor] returns and when it overflows, and that [strftime] and
    [to_datetime_one] are inverse: [read_num] reads back what [pad]
    prints, so [parse_fields] inverts [format_datetime]; with the
    calendar bijection, a whole second of the range prints to a string
    that parses back to it (the years 1677-2262 have four digits), and
    every accepted string prints back as itself. *)

From stdpp Require Import base list.
From Stdlib Require Import String Ascii ZArith Lia.
From S2P Require Import Prelude PyStr Calendar.
Import PyStr Calendar.

Module Datetime.
Open Scope Z_scope.

Definition NS_PER_S : Z := 10 ^ 9.
Definition ts_min : Z := - 2 ^ 63 + 1.
Definition ts_max : Z := 2 ^ 63 - 1.

(** The ordinal of 1970-01-01. *)
Definition EPOCH_ORD : Z := 719163.

Definition valid_time (h mi s : Z) : bool :=
  (0 <=? h) && (h <=? 23) && (0 <=? mi) && (mi <=? 59) && (0 <=? s) && (s <=? 59).

(** Seconds since the epoch of a calendar date and time. *)
Definition epoch_seconds (y m d h mi s : Z) : Z :=
  (ymd2ord y m d - EPOCH_ORD) * 86400 + h * 3600 + mi * 60 + s.

(** *** Parsing "YYYY-MM-DD HH:MM:SS" *)


(** Exactly [n] decimal digits, accumulated onto [acc]. *)
Fixpoint read_num (n : nat) (s : string) (acc : Z) : option (Z * string) :=
  match n with
  | O => Some (acc, s)
  | S n' =>
      match s with
      | String c s' => if is_digit c then read_num n' s' (acc * 10 + digit_value c) else None
      | EmptyString => None
      end
  end.

Definition expect (c : ascii) (s : string) : option string :=
  match s with
  | String d s' => if Ascii.eqb c d then Some s' else None
  | EmptyString => None
  end.

Definition parse_fields (s : string) : option (Z * Z * Z * Z * Z * Z) :=
  '(y, s) ← read_num 4 s 0; s ← expect "-" s;
  '(mo, s) ← read_num 2 s 0; s ← expect "-" s;
  '(d, s) ← read_num 2 s 0; s ← expect " " s;
  '(h, s) ← read_num 2 s 0; s ← expect ":" s;
  '(mi, s) ← read_num 2 s 0; s ← expect ":" s;
  '(se, s) ← read_num 2 s 0;
  match s with
  | EmptyString => Some (y, mo, d, h, mi, se)
  | _ => None
  end.

(** [pd.to_datetime] on one string of the column: a date that does not
    exist raises, and so does an instant outside the nanosecond range. *)
Definition to_datetime_one (s : string) : result Z :=
  match parse_fields s with
  | None => raise DateParseError
  | Some (y, mo, d, h, mi, se) =>
      if valid_date y mo d && valid_time h mi se then
        let ns := epoch_seconds y mo d h mi se * NS_PER_S in
        if (ts_min <=? ns) && (ns <=? ts_max) then Ok ns else raise OutOfBoundsDatetime
      else raise DateParseError
  end.

(** [df["timestamp"] = pd.to_datetime(df["timestamp"])]: the whole column
    converts, or the call raises. *)
Definition to_datetime (col : list string) : result (list Z) :=
  map_result to_datetime_one col.

(** *** Flooring *)

(** The frequency ["30s"] in nanoseconds. *)
Definition FREQ_30S : Z := 30 * NS_PER_S.

(** [Timestamp.floor(freq)]: [value - value % unit] with Python's
    (floored) remainder, computed under an overflow check. *)
Definition floor (freq t : Z) : result Z :=
  let r := t - t mod freq in
  if in_int64 r then Ok r else raise OverflowError.

(** *** Printing *)

Definition digit_char (v : Z) : ascii := ascii_of_nat (Z.to_nat (48 + v mod 10)).

(** The last [n] decimal digits of [v], zero-padded. *)
Fixpoint pad (n : nat) (v : Z) : string :=
  match n with
  | O => EmptyString
  | S n' => (pad n' (v / 10) ++ String (digit_char v) EmptyString)%string
  end.

(** The format ['%Y-%m-%d %H:%M:%S'] on the fields of a date and time. *)
Definition format_datetime (y m d h mi se : Z) : string :=
  (pad 4 y ++ "-" ++ pad 2 m ++ "-" ++ pad 2 d ++ " " ++
   pad 2 h ++ ":" ++ pad 2 mi ++ ":" ++ pad 2 se)%string.

(** [ts.strftime('%Y-%m-%d %H:%M:%S')]; the fields are those of the whole
    second at or before the instant. *)
Definition strftime (t : Z) : string :=
  let secs := t / NS_PER_S in
  let '(y, m, d) := ord2ymd (secs / 86400 + EPOCH_ORD) in
  let sod := secs mod 86400 in
  format_datetime y m d (sod / 3600) (sod mod 3600 / 60) (sod mod 60).

(** ** Lemmas *)

(** Every instant [pd.to_datetime] returns fits [int64] without being
    NaT, and is a whole second. *)
Theorem to_datetime_one_range s t :
  to_datetime_one s = Ok t ->
  ts_min <= t <= ts_max /\ t mod NS_PER_S = 0.
Proof.
  unfold to_datetime_one.
  destruct (parse_fields s) as [[[[[[y mo] d] h] mi] se]|]; [|discriminate].
  destruct (valid_date y mo d && valid_time h mi se); [|discriminate].
  destruct ((ts_min <=? _) && (_ <=? ts_max)) eqn:Hr; [|discriminate].
  intros [= <-]. apply andb_prop in Hr as [H1 H2]. apply Z.leb_le in H1, H2.
  split; [lia | apply Z.mod_mul; unfold NS_PER_S; lia].
Qed.

Lemma to_datetime_Ok col ts :
  to_datetime col = Ok ts -> Forall2 (fun s t => to_datetime_one s = Ok t) col ts.
Proof. apply map_result_Ok. Qed.

Lemma floor_value freq t r : floor freq t = Ok r -> r = t - t mod freq.
Proof. unfold floor. destruct (in_int64 _); [by intros [= <-] | discriminate]. Qed.

(** C21: [floor] returns the multiple of [freq] at or below the instant. *)
Theorem floor_spec freq t r :
  0 < freq -> floor freq t = Ok r ->
  r <= t < r + freq /\ r mod freq = 0 /\ r = freq * (t / freq).
Proof.
  intros Hf ->%floor_value. pose proof (Z.mod_pos_bound t freq Hf).
  pose proof (Z.div_mod t freq ltac:(lia)).
  split; [lia|]. split; [|lia].
  replace (t - t mod freq) with (freq * (t / freq)) by lia.
  rewrite Z.mul_comm. apply Z.mod_mul. lia.
Qed.

(** C22: The floor overflows exactly when the bucket start falls below
    [-2^63]; it cannot overflow for an instant at least one period above
    the lower bound. *)
Theorem floor_overflow_iff freq t :
  0 < freq -> t <= int64_max ->
  (floor freq t = raise OverflowError <-> t - t mod freq < int64_min) /\
  (int64_min + freq <= t -> exists r, floor freq t = Ok r).
Proof.
  intros Hf Ht. pose proof (Z.mod_pos_bound t freq Hf).
  unfold floor, in_int64.
  destruct (Z.leb_spec int64_min (t - t mod freq)),
           (Z.leb_spec (t - t mod freq) int64_max); simpl;
    unfold int64_min, int64_max in *; repeat split; intros; try discriminate;
    try done; try eauto; lia.
Qed.

(** ** Digits: [read_num] reads what [pad] prints *)

Lemma digit_char_spec v :
  is_digit (digit_char v) = true /\ digit_value (digit_char v) = v mod 10.
Proof.
  unfold digit_char. pose proof (Z.mod_pos_bound v 10 ltac:(lia)) as Hb.
  assert (Hx : v mod 10 = 0 \/ v mod 10 = 1 \/ v mod 10 = 2 \/ v mod 10 = 3 \/ v mod 10 = 4 \/
               v mod 10 = 5 \/ v mod 10 = 6 \/ v mod 10 = 7 \/ v mod 10 = 8 \/ v mod 10 = 9)
    by lia.
  destruct_or! Hx; rewrite Hx; vm_compute; split; reflexivity.
Qed.

Lemma digit_value_spec c :
  is_digit c = true -> 0 <= digit_value c <= 9 /\ digit_char (digit_value c) = c.
Proof.
  intros Hc. unfold is_digit in Hc. rewrite andb_true_iff, !Nat.leb_le in Hc.
  split; [unfold digit_value; lia|].
  rewrite <- (ascii_nat_embedding c). unfold digit_value, digit_char.
  rewrite nat_ascii_embedding by lia.
  assert (Hx : (nat_of_ascii c = 48 \/ nat_of_ascii c = 49 \/ nat_of_ascii c = 50 \/
               nat_of_ascii c = 51 \/ nat_of_ascii c = 52 \/ nat_of_ascii c = 53 \/
               nat_of_ascii c = 54 \/ nat_of_ascii c = 55 \/ nat_of_ascii c = 56 \/
               nat_of_ascii c = 57)%nat) by lia.
  destruct_or! Hx; rewrite Hx; vm_compute; reflexivity.
Qed.

Lemma read_num_add n k s acc :
  read_num (n + k) s acc =
  match read_num n s acc with Some (a, s') => read_num k s' a | None => None end.
Proof.
  revert s acc; induction n as [|n IH]; intros s acc; [done|].
  destruct s as [|c s]; [done|]. simpl. destruct (is_digit c); [apply IH | done].
Qed.

Lemma pad_S n v : pad (S n) v = (pad n (v / 10) ++ String (digit_char v) EmptyString)%string.
Proof. reflexivity. Qed.

Lemma mod_mul_10 v P : 0 < P -> v mod (10 * P) = 10 * ((v / 10) mod P) + v mod 10.
Proof.
  intros HP. symmetry. apply Z.mod_unique with (q := v / 10 / P).
  - pose proof (Z.mod_pos_bound v 10 ltac:(lia)). pose proof (Z.mod_pos_bound (v / 10) P HP). lia.
  - pose proof (Z.div_mod v 10 ltac:(lia)). pose proof (Z.div_mod (v / 10) P ltac:(lia)). lia.
Qed.

Lemma read_num_pad n v s acc :
  read_num n (pad n v ++ s) acc = Some (acc * 10 ^ Z.of_nat n + v mod 10 ^ Z.of_nat n, s).
Proof.
  revert v s acc; induction n as [|n IH]; intros v s acc.
  - simpl. rewrite Z.mod_1_r. f_equal. f_equal. lia.
  - rewrite pad_S, string_app_assoc. replace (S n) with (n + 1)%nat by lia.
    rewrite read_num_add, IH. simpl. destruct (digit_char_spec v) as [-> ->].
    do 2 f_equal. rewrite Nat2Z.inj_add, Z.pow_add_r by lia.
    rewrite (Z.mul_comm (10 ^ Z.of_nat n) (10 ^ Z.of_nat 1)).
    simpl (10 ^ Z.of_nat 1). rewrite mod_mul_10 by lia. lia.
Qed.

Lemma read_num_pad_end n v acc :
  read_num n (pad n v) acc = Some (acc * 10 ^ Z.of_nat n + v mod 10 ^ Z.of_nat n, EmptyString).
Proof. rewrite <- (string_app_nil_r (pad n v)). apply read_num_pad. Qed.

Lemma read_num_inv n s acc v r :
  read_num n s acc = Some (v, r) ->
  exists w, 0 <= w < 10 ^ Z.of_nat n /\ v = acc * 10 ^ Z.of_nat n + w /\ s = (pad n w ++ r)%string.
Proof.
  revert s acc v r; induction n as [|n IH]; intros s acc v r.
  - intros [= <- <-]. exists 0. simpl. split; [lia|]. split; [lia|done].
  - replace (S n) with (n + 1)%nat by lia. rewrite read_num_add.
    destruct (read_num n s acc) as [[a s']|] eqn:Hn; [|done].
    destruct (IH _ _ _ _ Hn) as (w & Hw & -> & ->).
    destruct s' as [|c s'']; [done|]. simpl. destruct (is_digit c) eqn:Hc; [|done].
    intros [= <- <-]. destruct (digit_value_spec c Hc) as [Hd Hch].
    exists (w * 10 + digit_value c). rewrite Nat2Z.inj_add, Z.pow_add_r by lia. simpl (10 ^ Z.of_nat 1).
    split; [nia|]. split; [lia|].
    replace (n + 1)%nat with (S n) by lia. rewrite pad_S, string_app_assoc.
    rewrite Z.div_add_l, Z.div_small, Z.add_0_r by lia.
    f_equal. simpl. f_equal. rewrite <- Hch at 1. unfold digit_char.
    rewrite (Z.add_comm (w * 10)), Z.mod_add by lia. reflexivity.
Qed.

(** ** The format ['%Y-%m-%d %H:%M:%S'] and its parser *)

Lemma parse_fields_format y m d h mi se :
  parse_fields (format_datetime y m d h mi se) =
  Some (y mod 10 ^ 4, m mod 100, d mod 100, h mod 100, mi mod 100, se mod 100).
Proof.
  unfold parse_fields, format_datetime.
  repeat (rewrite read_num_pad; cbn -[read_num pad Z.pow Z.modulo]).
  rewrite read_num_pad_end. cbn -[Z.pow Z.modulo]. rewrite !Z.mul_0_l, !Z.add_0_l. reflexivity.
Qed.

Ltac parse_fields_inv H :=
  repeat match type of H with
  | context [read_num ?n ?s ?a] =>
      let E := fresh "E" in
      destruct (read_num n s a) as [[? ?]|] eqn:E; [|discriminate H];
      apply read_num_inv in E as (? & ? & ? & ?); subst; cbn -[read_num pad] in H
  | context [expect ?c ?s] =>
      let x := fresh "x" in let t := fresh "t" in
      destruct s as [|x t]; [discriminate H|]; cbn [expect] in H;
      destruct (Ascii.eqb_spec c x); [subst x|discriminate H]; cbn -[read_num pad] in H
  end.

Lemma parse_fields_inv s y m d h mi se :
  parse_fields s = Some (y, m, d, h, mi, se) ->
  s = format_datetime y m d h mi se /\
  0 <= y < 10 ^ 4 /\ 0 <= m < 100 /\ 0 <= d < 100 /\ 0 <= h < 100 /\ 0 <= mi < 100 /\
  0 <= se < 100.
Proof.
  unfold parse_fields. intros H. cbn -[read_num pad] in H.
  parse_fields_inv H. destruct s; [|discriminate H].
  injection H as <- <- <- <- <- <-. rewrite string_app_nil_r.
  change (10 ^ Z.of_nat 4) with 10000 in *. change (10 ^ Z.of_nat 2) with 100 in *.
  change (10 ^ 4) with 10000. rewrite !Z.mul_0_l, !Z.add_0_l. split; [reflexivity | lia].
Qed.

Lemma valid_time_iff h mi se :
  valid_time h mi se = true <-> 0 <= h <= 23 /\ 0 <= mi <= 59 /\ 0 <= se <= 59.
Proof. unfold valid_time. rewrite !andb_true_iff, !Z.leb_le. tauto. Qed.

(** The years of the [datetime64[ns]] range have four digits. *)
Lemma year_of_range t y m d :
  ts_min <= t <= ts_max -> ord2ymd (t / NS_PER_S / 86400 + EPOCH_ORD) = (y, m, d) ->
  0 <= y < 10 ^ 4.
Proof.
  intros Ht Hy. pose proof (ord2ymd_spec (t / NS_PER_S / 86400 + EPOCH_ORD)) as Hs.
  rewrite Hy in Hs. destruct Hs as [Hv Ho]. pose proof (ymd2ord_bounds _ _ _ Hv) as Hb.
  unfold ts_min, ts_max, NS_PER_S, EPOCH_ORD in *.
  assert (Hday : 612411 <= t / 10 ^ 9 / 86400 + 719163 <= 825914) by lia.
  split.
  - destruct (Z.lt_ge_cases y 1) as [Hlt|]; [|lia].
    apply (days_before_year_mono y 1) in Hlt. change (days_before_year 1) with 0 in Hlt. lia.
  - destruct (Z.lt_ge_cases y (10 ^ 4)) as [|Hge]; [lia|].
    assert (Hlt : 9999 < y) by lia. apply (days_before_year_mono 9999 y) in Hlt.
    change (days_before_year (9999 + 1)) with 3652059 in Hlt. lia.
Qed.

(** C19: Printing a whole second of the [datetime64[ns]] range with
    [strftime] and reading it back with [pd.to_datetime] gives the same
    instant. *)
Theorem to_datetime_strftime t :
  ts_min <= t <= ts_max -> t mod NS_PER_S = 0 -> to_datetime_one (strftime t) = Ok t.
Proof.
  intros Ht Hs. unfold strftime.
  destruct (ord2ymd (t / NS_PER_S / 86400 + EPOCH_ORD)) as [[y m] d] eqn:Hy.
  pose proof (year_of_range _ _ _ _ Ht Hy) as Hyr.
  pose proof (ord2ymd_spec (t / NS_PER_S / 86400 + EPOCH_ORD)) as Hsp. rewrite Hy in Hsp.
  destruct Hsp as [Hv Ho]. pose proof (valid_date_bounds _ _ _ Hv) as Hmd.
  unfold to_datetime_one. rewrite parse_fields_format. change (10 ^ 4) with 10000 in *.
  set (sod := t / NS_PER_S mod 86400).
  assert (Hsod : 0 <= sod < 86400) by (apply Z.mod_pos_bound; lia).
  rewrite !(Z.mod_small _ 100), (Z.mod_small y 10000) by
    (try split; try apply Z.div_pos; try apply Z.mod_pos_bound; try apply Z.div_lt_upper_bound; lia).
  rewrite Hv. assert (Htime : valid_time (sod / 3600) (sod mod 3600 / 60) (sod mod 60) = true)
    by (apply valid_time_iff; lia).
  rewrite Htime. simpl.
  assert (Hsec : epoch_seconds y m d (sod / 3600) (sod mod 3600 / 60) (sod mod 60) * NS_PER_S = t).
  { unfold epoch_seconds. rewrite Ho. subst sod. unfold NS_PER_S in *. lia. }
  rewrite Hsec. unfold ts_min, ts_max in *.
  destruct (Z.leb_spec (- 2 ^ 63 + 1) t), (Z.leb_spec t (2 ^ 63 - 1)); simpl; [done|lia..].
Qed.

(** C20: Every string [pd.to_datetime] accepts is printed back by
    [strftime] as itself: the format has one spelling per instant. *)
Theorem strftime_to_datetime s t :
  to_datetime_one s = Ok t -> strftime t = s.
Proof.
  unfold to_datetime_one.
  destruct (parse_fields s) as [[[[[[y m] d] h] mi] se]|] eqn:Hp; [|discriminate].
  destruct (valid_date y m d) eqn:Hv; [|discriminate].
  destruct (valid_time h mi se) eqn:Htm; [|discriminate]. simpl.
  destruct (_ && _); [|discriminate]. intros Ht. apply Ok_inj in Ht. subst t.
  apply parse_fields_inv in Hp as (-> & Hb). apply valid_time_iff in Htm.
  unfold strftime, epoch_seconds, NS_PER_S.
  rewrite Z.div_mul by lia.
  set (sod := h * 3600 + mi * 60 + se).
  replace (((ymd2ord y m d - EPOCH_ORD) * 86400 + h * 3600 + mi * 60 + se) / 86400 + EPOCH_ORD)
    with (ymd2ord y m d) by (subst sod; lia).
  rewrite (ord2ymd_ymd2ord _ _ _ Hv).
  replace (((ymd2ord y m d - EPOCH_ORD) * 86400 + h * 3600 + mi * 60 + se) mod 86400)
    with sod by (subst sod; lia).
  f_equal; subst sod; lia.
Qed.

(** ** Concrete runs *)

Lemma to_datetime_one_range_witness :
  to_datetime_one "2024-01-01 10:00:15" = Ok 1704103215000000000 /\
  ts_min <= 1704103215000000000 <= ts_max /\ 1704103215000000000 mod NS_PER_S = 0.
Proof.
  assert (H : to_datetime_one "2024-01-01 10:00:15" = Ok 1704103215000000000)
    by (vm_compute; reflexivity).
  split; [exact H|]. exact (to_datetime_one_range _ _ H).
Defined.

Lemma floor_spec_witness :
  floor FREQ_30S 1704103215000000000 = Ok 1704103200000000000 /\
  1704103200000000000 <= 1704103215000000000 < 1704103200000000000 + FREQ_30S /\
  1704103200000000000 mod FREQ_30S = 0 /\
  1704103200000000000 = FREQ_30S * (1704103215000000000 / FREQ_30S).
Proof.
  assert (H : floor FREQ_30S 1704103215000000000 = Ok 1704103200000000000)
    by (vm_compute; reflexivity).
  split; [exact H|].
  apply (floor_spec FREQ_30S 1704103215000000000 1704103200000000000
           ltac:(vm_compute; reflexivity) H).
Defined.

(** 1677-09-21 00:12:44 is a valid instant, but the start of its
    30-second bucket is not: flooring it overflows. *)
Lemma floor_overflow_iff_witness :
  to_datetime_one "1677-09-21 00:12:44" = Ok (-9223372036000000000) /\
  floor FREQ_30S (-9223372036000000000) = raise OverflowError.
Proof.
  split; [vm_compute; reflexivity|].
  apply (proj2 (proj1 (floor_overflow_iff FREQ_30S (-9223372036000000000)
           ltac:(vm_compute; reflexivity) ltac:(vm_compute; discriminate)))).
  vm_compute. reflexivity.
Defined.

(** Dates that do not exist and instants outside the nanosecond range
    raise. *)
Example to_datetime_errors :
  to_datetime_one "2023-02-29 00:00:00" = raise DateParseError /\
  to_datetime_one "2024-01-01 24:00:00" = raise DateParseError /\
  to_datetime_one "2024-01-01T10:00:00" = raise DateParseError /\
  to_datetime_one "2262-04-11 23:47:17" = raise OutOfBoundsDatetime /\
  to_datetime_one "1677-09-21 00:12:43" = raise OutOfBoundsDatetime.
Proof. vm_compute. repeat split. Qed.

(** The last whole second of the range, 2262-04-11 23:47:16. *)
Definition last_second : Z := 9223372036000000000.

Lemma to_datetime_strftime_witness :
  ts_min <= last_second <= ts_max /\ last_second mod NS_PER_S = 0 /\
  strftime last_second = "2262-04-11 23:47:16"%string /\
  to_datetime_one (strftime last_second) = Ok last_second.
Proof.
  assert (H1 : ts_min <= last_second <= ts_max) by (unfold ts_min, ts_max, last_second; lia).
  assert (H2 : last_second mod NS_PER_S = 0) by reflexivity.
  split; [exact H1|]. split; [exact H2|]. split; [vm_compute; reflexivity|].
  exact (to_datetime_strftime _ H1 H2).
Defined.

Lemma strftime_to_datetime_witness :
  to_datetime_one "2024-02-29 23:59:59" = Ok 1709251199000000000 /\
  strftime 1709251199000000000 = "2024-02-29 23:59:59"%string.
Proof.
  assert (H : to_datetime_one "2024-02-29 23:59:59" = Ok 1709251199000000000)
    by (vm_compute; reflexivity).
  split; [exact H|]. exact (strftime_to_datetime _ _ H).
Defined.

End Datetime.
