(* ===== verification/Frame.v ===== *)
(** * The data frame of log rows

    [df = pd.DataFrame(data, columns=["timestamp", "level", "message"])]
    followed by [df["timestamp"] = pd.to_datetime(df["timestamp"])]
    (src/web_anomaly_display.py:24-25, src/web_app.py:24-25 and 70-71):
    the parsed string rows with their timestamp column converted to
    nanoseconds.  A frame is the list of its rows, in file order. *)

From stdpp Require Import base list strings.
From Stdlib Require Import String ZArith Lia.
From S2P Require Import Prelude PyStr Parser Calendar Timestamp.

Module Frame.

Record row := Row {
  ts : Z;
  level : string;
  message : string
}.

#[export] Instance row_eq_dec : EqDecision row.
Proof. solve_decision. Defined.

Definition build_frame (entries : list raw_entry) : result (list row) :=
  let* stamps := Datetime.to_datetime (List.map raw_timestamp entries) in
  Ok (zip_with (fun e t => Row t (raw_level e) (raw_message e)) entries stamps).

(** The frame has one row per parsed entry, with the entry's level and
    message and its converted timestamp. *)
Lemma build_frame_Ok entries df :
  build_frame entries = Ok df ->
  Forall2 (fun e r => Datetime.to_datetime_one (raw_timestamp e) = Ok (ts r) /\
                      level r = raw_level e /\ message r = raw_message e) entries df.
Proof.
  unfold build_frame. intros H. bind_inv.
  apply Datetime.to_datetime_Ok in Ha. revert a Ha.
  induction entries as [|e es IH]; intros stamps Hs; simpl in *.
  - inversion Hs; constructor.
  - inversion Hs as [|? t ? ts' Ht Hts]; subst. simpl. constructor; [done|].
    by apply IH.
Qed.

Lemma build_frame_length entries df :
  build_frame entries = Ok df -> List.length df = List.length entries.
Proof. intros H%build_frame_Ok. symmetry. eapply Forall2_length; eauto. Qed.

(** The frame builds exactly when every timestamp converts. *)
Lemma build_frame_Err entries e :
  build_frame entries = Err e ->
  exists en, In en entries /\ Datetime.to_datetime_one (raw_timestamp en) = Err e.
Proof.
  unfold build_frame, Datetime.to_datetime.
  destruct (map_result _ _) as [stamps|e'] eqn:Hm; simpl; [discriminate|].
  intros [= ->]. apply map_result_Err_inv in Hm as (s & Hs & He).
  apply List.in_map_iff in Hs as (en & <- & Hen). eauto.
Qed.

(** ** The type of the rows of the basic analysis *)

(** What the columns of a row of the basic analysis hold: an [int64]
    timestamp within the [Timestamp] range and on a whole second, a
    level that is a non-empty run of word characters ([\w+]), a message
    that is not empty and holds no newline. *)
Definition row_wf (r : row) : bool :=
  (Datetime.ts_min <=? ts r)%Z && (ts r <=? Datetime.ts_max)%Z &&
  (ts r mod Datetime.NS_PER_S =? 0)%Z &&
  negb (String.eqb (level r) EmptyString) && PyStr.str_forallb RegexParser.is_word (level r) &&
  negb (String.eqb (message r) EmptyString) &&
  PyStr.str_forallb RegexParser.not_newline (message r).

(** C12: Every row of the frame of the basic analysis ([pd.DataFrame] of
    the rows the regular expression keeps, [pd.to_datetime] of the
    timestamp column, whose format pandas infers exactly as modelled) is
    well typed: an [int64] nanosecond count between [Timestamp.min] and
    [Timestamp.max] on a whole second, a non-empty [\w+] level, a
    non-empty message without a newline. *)
Theorem frame_wf content df :
  build_frame (RegexParser.parse_logs (Lines.read_lines content)) = Ok df ->
  Forall (fun r => row_wf r = true) df.
Proof.
  intros H%build_frame_Ok.
  assert (Hent : forall e, In e (RegexParser.parse_logs (Lines.read_lines content)) ->
    raw_level e <> EmptyString /\ PyStr.str_forallb RegexParser.is_word (raw_level e) = true /\
    raw_message e <> EmptyString /\
    PyStr.str_forallb RegexParser.not_newline (raw_message e) = true).
  { intros e (line & _ & He)%RegexParser.regex_parse_logs_In.
    exact (RegexParser.match_line_fields _ _ He). }
  induction H as [|e r es rs (Ht & Hl & Hm) _ IH]; constructor; [|apply IH; intros; apply Hent; by right].
  destruct (Datetime.to_datetime_one_range _ _ Ht) as [[H1 H2] H3].
  destruct (Hent e (or_introl eq_refl)) as (Hl0 & Hw & Hm0 & Hn).
  unfold row_wf. rewrite Hl, Hm, Hw, Hn, H3.
  apply Z.leb_le in H1, H2. rewrite H1, H2. simpl.
  destruct (String.eqb_spec (raw_level e) EmptyString); [done|].
  destruct (String.eqb_spec (raw_message e) EmptyString); done.
Qed.

(** ** The timestamps of the basic analysis *)

Lemma atoms_shape_cons a p m :
  RegexParser.atoms_shape (a :: p) m = true ->
  exists c m', m = String c m' /\ RegexParser.atom_matches a c = true /\
               RegexParser.atoms_shape p m' = true.
Proof. destruct m as [|c m']; simpl; [discriminate|]. intros [? ?]%andb_prop. eauto. Qed.

Lemma atoms_shape_nil m : RegexParser.atoms_shape [] m = true -> m = EmptyString.
Proof. by destruct m. Qed.

(** Peel the characters of the texts of a fixed-width shape. *)
Ltac peel_shapes :=
  repeat match goal with
  | H : RegexParser.atoms_shape (_ :: _) _ = true |- _ =>
      apply atoms_shape_cons in H as (? & ? & -> & ? & H)
  | H : RegexParser.atoms_shape [] _ = true |- _ => apply atoms_shape_nil in H as ->
  | H : RegexParser.atom_matches RegexParser.Digit _ = true |- _ => simpl in H
  | H : RegexParser.atom_matches (RegexParser.Lit _) _ = true |- _ =>
      simpl in H; apply Ascii.eqb_eq in H as ->
  end.

(** A date and a time of the pattern's shapes read as six fields. *)
Lemma parse_fields_shape date time :
  RegexParser.atoms_shape RegexParser.date_pattern date = true ->
  RegexParser.atoms_shape RegexParser.time_pattern time = true ->
  exists y mo d h mi se, Datetime.parse_fields (date ++ String SP time) = Some (y, mo, d, h, mi, se).
Proof.
  intros Hd Ht. unfold RegexParser.date_pattern, RegexParser.time_pattern in *. peel_shapes.
  unfold Datetime.parse_fields. simpl.
  repeat match goal with H : PyStr.is_digit _ = true |- _ => rewrite H; clear H; simpl end.
  eauto 10.
Qed.

(** Every row of the basic analysis has the format
    "YYYY-MM-DD HH:MM:SS" that pandas infers from the first of them: the
    model reads it as six fields, and [pd.to_datetime] raises
    [DateParseError] on it exactly when its date or time does not
    exist. *)
Lemma basic_timestamps_format content e :
  In e (RegexParser.parse_logs (Lines.read_lines content)) ->
  exists y mo d h mi se,
    Datetime.parse_fields (raw_timestamp e) = Some (y, mo, d, h, mi, se) /\
    (Datetime.to_datetime_one (raw_timestamp e) = Err DateParseError <->
     Calendar.valid_date y mo d && Datetime.valid_time h mi se = false).
Proof.
  intros (line & _ & Hl)%RegexParser.regex_parse_logs_In.
  destruct (RegexParser.match_line_timestamp _ _ Hl) as (date & time & -> & Hd & Ht).
  destruct (parse_fields_shape _ _ Hd Ht) as (y & mo & d & h & mi & se & Hp).
  exists y, mo, d, h, mi, se. split; [exact Hp|].
  unfold Datetime.to_datetime_one. rewrite Hp.
  destruct (Calendar.valid_date y mo d && Datetime.valid_time h mi se); [|done].
  by destruct (_ && _).
Qed.

(** C13: The frame of the basic analysis fails only on a row of the
    right format: [pd.to_datetime] raises on it [DateParseError] because
    its date or time does not exist, or [OutOfBoundsDatetime] because
    the instant is outside the [datetime64[ns]] range; the format itself
    never fails, since the regular expression only keeps the shape
    pandas infers. *)
Theorem basic_frame_errors content err :
  build_frame (RegexParser.parse_logs (Lines.read_lines content)) = Err err ->
  exists e y mo d h mi se,
    In e (RegexParser.parse_logs (Lines.read_lines content)) /\
    Datetime.to_datetime_one (raw_timestamp e) = Err err /\
    Datetime.parse_fields (raw_timestamp e) = Some (y, mo, d, h, mi, se) /\
    ((err = DateParseError /\ Calendar.valid_date y mo d && Datetime.valid_time h mi se = false) \/
     (err = OutOfBoundsDatetime /\ Calendar.valid_date y mo d && Datetime.valid_time h mi se = true)).
Proof.
  intros (e & Hin & He)%build_frame_Err.
  destruct (basic_timestamps_format _ _ Hin) as (y & mo & d & h & mi & se & Hp & Hiff).
  exists e, y, mo, d, h, mi, se. split; [done|]. split; [done|]. split; [done|].
  revert He. unfold Datetime.to_datetime_one. rewrite Hp.
  destruct (Calendar.valid_date y mo d && Datetime.valid_time h mi se); [|intros [= <-]; by left].
  destruct (_ && _); [discriminate | intros [= <-]; by right].
Qed.

(** Two lines of the regular expression's shape. *)
Definition two_lines : string :=
  ("2024-01-01 10:00:00 ERROR db down" ++ String LF ("2024-01-01 10:00:30 WARN x" ++ String LF EmptyString))%string.

Lemma frame_wf_witness :
  build_frame (RegexParser.parse_logs (Lines.read_lines two_lines)) =
    Ok [Row 1704103200000000000 "ERROR" "db down"; Row 1704103230000000000 "WARN" "x"] /\
  Forall (fun r => row_wf r = true)
    [Row 1704103200000000000 "ERROR" "db down"; Row 1704103230000000000 "WARN" "x"].
Proof.
  assert (H : build_frame (RegexParser.parse_logs (Lines.read_lines two_lines)) =
    Ok [Row 1704103200000000000 "ERROR" "db down"; Row 1704103230000000000 "WARN" "x"])
    by (vm_compute; reflexivity).
  split; [exact H | exact (frame_wf _ _ H)].
Defined.

(** A line of the right shape whose date does not exist. *)
Definition bad_date_line : string := ("2024-02-30 10:00:00 ERROR x" ++ String LF EmptyString)%string.

Lemma basic_frame_errors_witness :
  build_frame (RegexParser.parse_logs (Lines.read_lines bad_date_line)) = Err DateParseError /\
  exists e y mo d h mi se,
    In e (RegexParser.parse_logs (Lines.read_lines bad_date_line)) /\
    Datetime.to_datetime_one (raw_timestamp e) = Err DateParseError /\
    Datetime.parse_fields (raw_timestamp e) = Some (y, mo, d, h, mi, se) /\
    ((DateParseError = DateParseError /\
      Calendar.valid_date y mo d && Datetime.valid_time h mi se = false) \/
     (DateParseError = OutOfBoundsDatetime /\
      Calendar.valid_date y mo d && Datetime.valid_time h mi se = true)).
Proof.
  assert (H : build_frame (RegexParser.parse_logs (Lines.read_lines bad_date_line)) = Err DateParseError)
    by (vm_compute; reflexivity).
  split; [exact H | exact (basic_frame_errors _ _ H)].
Defined.

End Frame.
