(* ===== verification/SpikeDetector.v ===== *)
(** * The error-spike detector of the basic analysis

    src/web_app.py:27-41 ([get_basic_analysis]):
    [error_counts = Counter(df[df["level"] == "ERROR"]["timestamp"].dt.floor("30s"))],
    then, for each [(time, count)] of [error_counts.items()] with
    [count > threshold] ([threshold = 3]), a record
    [{'time': time.strftime(...), 'count': count,
      'message': f'{count} ERROR logs in 30 seconds'}].
    [Counter] is an insertion-ordered dictionary: modelled by [Counter],
    an association list whose keys keep the order of first occurrence. *)

From stdpp Require Import base list strings.
From Stdlib Require Import String ZArith Lia Sorted DecimalString.
From S2P Require Import Prelude Timestamp Frame.

Module Counter.
Section Counter.
Context {K : Type} {EqK : EqDecision K}.

(** [mapping[elem] = mapping.get(elem, 0) + 1]: an existing key keeps its
    place, a new key goes last. *)
Fixpoint counter_add (k : K) (c : list (K * nat)) : list (K * nat) :=
  match c with
  | [] => [(k, 1)]
  | (k', n) :: c' => if decide (k = k') then (k', S n) :: c' else (k', n) :: counter_add k c'
  end.

(** [Counter(iterable)]. *)
Definition counter (l : list K) : list (K * nat) :=
  fold_left (fun c k => counter_add k c) l [].

(** [c.get(k, 0)]. *)
Fixpoint counter_get (c : list (K * nat)) (k : K) : nat :=
  match c with
  | [] => 0
  | (k', n) :: c' => if decide (k = k') then n else counter_get c' k
  end.

(** The number of occurrences of [k] in [l]. *)
Definition occurrences (l : list K) (k : K) : nat := countb (fun x => bool_decide (x = k)) l.

Lemma counter_add_get c k k' :
  counter_get (counter_add k c) k' = (counter_get c k' + if decide (k' = k) then 1 else 0)%nat.
Proof.
  induction c as [|[k0 n] c IH]; simpl.
  - repeat case_decide; subst; done || lia.
  - repeat case_decide; subst; simpl; rewrite ?IH; repeat case_decide; subst;
      done || lia.
Qed.

Lemma counter_add_keys c k :
  List.map fst (counter_add k c) =
  List.map fst c ++ (if decide (k ∈ List.map fst c) then [] else [k]).
Proof.
  induction c as [|[k0 n] c IH]; simpl; [done|].
  destruct (decide (k = k0)) as [->|Hk]; simpl.
  - rewrite decide_True; [by rewrite app_nil_r | by left].
  - rewrite IH. f_equal. f_equal. apply decide_ext. rewrite elem_of_cons. tauto.
Qed.

Lemma counter_add_pos c k :
  Forall (fun p => 0 < p.2)%nat c -> Forall (fun p => 0 < p.2)%nat (counter_add k c).
Proof.
  induction c as [|[k0 n] c IH]; simpl; intros Hc; [repeat constructor|].
  inversion Hc as [|? ? Hn Hc']; subst.
  case_decide; constructor; simpl in *; auto with lia.
Qed.

Lemma counter_add_sum c k :
  sum_list (List.map snd (counter_add k c)) = S (sum_list (List.map snd c)).
Proof.
  induction c as [|[k0 n] c IH]; simpl; [done|]. case_decide; simpl; [lia|]. rewrite IH. lia.
Qed.

Lemma counter_fold_get l c k :
  counter_get (fold_left (fun c k => counter_add k c) l c) k =
  (counter_get c k + occurrences l k)%nat.
Proof.
  revert c. induction l as [|x l IH]; intros c; simpl; [unfold occurrences; rewrite countb_nil; lia|].
  rewrite IH, counter_add_get. unfold occurrences. rewrite countb_cons.
  case_decide as Hkx; [rewrite bool_decide_true by done | rewrite bool_decide_false by congruence];
    lia.
Qed.

(** The count kept for a key is its number of occurrences. *)
Lemma counter_get_occurrences l k : counter_get (counter l) k = occurrences l k.
Proof. unfold counter. rewrite counter_fold_get. done. Qed.

Lemma counter_keys_In l k : k ∈ List.map fst (counter l) <-> k ∈ l.
Proof.
  unfold counter. cut (forall c, k ∈ List.map fst (fold_left (fun c k => counter_add k c) l c)
                                  <-> k ∈ List.map fst c \/ k ∈ l).
  { intros ->. rewrite elem_of_nil. tauto. }
  induction l as [|x l IH]; intros c; simpl.
  - rewrite elem_of_nil. tauto.
  - rewrite IH, counter_add_keys, elem_of_app, elem_of_cons.
    case_decide as Hx; rewrite ?elem_of_nil, ?list_elem_of_singleton;
      intuition (subst; auto).
Qed.

(** The keys keep the order of first occurrence: a new element adds its
    key at the end, an old one changes no position. *)
Lemma counter_keys_snoc l x :
  List.map fst (counter (l ++ [x])) =
  List.map fst (counter l) ++ (if decide (x ∈ l) then [] else [x]).
Proof.
  unfold counter at 1. rewrite fold_left_app. simpl. rewrite counter_add_keys.
  f_equal. apply decide_ext. apply counter_keys_In.
Qed.

Lemma counter_keys_NoDup l : NoDup (List.map fst (counter l)).
Proof.
  induction l as [|x l IH] using rev_ind; [constructor|].
  rewrite counter_keys_snoc. case_decide as Hx; [by rewrite app_nil_r|].
  apply NoDup_app. split; [done|]. split; [|apply NoDup_singleton].
  intros k Hk ->%list_elem_of_singleton. by apply Hx, counter_keys_In.
Qed.

Lemma counter_pos l : Forall (fun p => 0 < p.2)%nat (counter l).
Proof.
  unfold counter. cut (forall c, Forall (fun p => 0 < p.2)%nat c ->
    Forall (fun p => 0 < p.2)%nat (fold_left (fun c k => counter_add k c) l c)).
  { intros H'. apply H'. constructor. }
  induction l as [|x l IH]; intros c Hc; simpl; [done|]. by apply IH, counter_add_pos.
Qed.

Lemma counter_get_In c k n :
  NoDup (List.map fst c) -> In (k, n) c -> counter_get c k = n.
Proof.
  induction c as [|[k0 m] c IH]; simpl; [done|]. intros Hnd [[= Hk Hm]|Hin].
  - subst. by rewrite decide_True.
  - inversion Hnd as [|? ? Hk0 Hnd']; subst. case_decide; [|by apply IH].
    subst. exfalso. apply Hk0. apply list_elem_of_In, List.in_map_iff. eexists; split; [|exact Hin]; done.
Qed.

(** A pair of the counter is a key of the list with its number of
    occurrences; every key of the list has one. *)
Theorem counter_In l k n :
  In (k, n) (counter l) <-> n = occurrences l k /\ (0 < n)%nat.
Proof.
  split.
  - intros Hin. rewrite <- counter_get_occurrences.
    split; [symmetry; apply counter_get_In; [apply counter_keys_NoDup | done]|].
    pose proof (counter_pos l) as Hp. rewrite List.Forall_forall in Hp. exact (Hp _ Hin).
  - intros [-> Hn]. assert (Hk : k ∈ l).
    { apply countb_pos in Hn as (x & Hx & ->%bool_decide_eq_true).
      by apply list_elem_of_In. }
    apply counter_keys_In, list_elem_of_In, List.in_map_iff in Hk as ([k' n'] & <- & Hin).
    simpl. rewrite <- counter_get_occurrences.
    rewrite (counter_get_In _ _ n') by (apply counter_keys_NoDup || done). done.
Qed.

(** The counts add up to the length of the list. *)
Lemma counter_sum l : sum_list (List.map snd (counter l)) = List.length l.
Proof.
  unfold counter. rewrite <- (Nat.add_0_r (List.length l)).
  change 0%nat with (sum_list (List.map snd (@nil (K * nat)))).
  generalize (@nil (K * nat)). induction l as [|x l IH]; intros c; simpl; [done|].
  rewrite IH, counter_add_sum. lia.
Qed.

End Counter.
End Counter.

Module Spikes.
Import Counter Frame.

(** One element of the [anomalies] list of the basic analysis. *)
Record spike := Spike {
  time : string;
  count : nat;
  spike_message : string
}.

#[export] Instance spike_eq_dec : EqDecision spike.
Proof. solve_decision. Defined.

(** [threshold = 3]. *)
Definition threshold : nat := 3.

Definition is_error (r : row) : bool := String.eqb (level r) "ERROR".

(** [df[df["level"] == "ERROR"]["timestamp"]]. *)
Definition error_timestamps (df : list row) : list Z :=
  List.map ts (List.filter is_error df).

(** [Counter(df[...]["timestamp"].dt.floor("30s"))]. *)
Definition error_counts (df : list row) : result (list (Z * nat)) :=
  let* buckets := map_result (Datetime.floor Datetime.FREQ_30S) (error_timestamps df) in
  Ok (counter buckets).

(** [f'{count} ERROR logs in 30 seconds']. *)
Definition count_message (count : nat) : string :=
  (NilEmpty.string_of_uint (Nat.to_uint count) ++ " ERROR logs in 30 seconds")%string.

(** [for time, count in error_counts.items(): if count > threshold:
    anomalies.append({...})]. *)
Fixpoint detect_spikes (threshold : nat) (counts : list (Z * nat)) : list spike :=
  match counts with
  | [] => []
  | (time, count) :: rest =>
      if threshold <? count then
        Spike (Datetime.strftime time) count (count_message count) :: detect_spikes threshold rest
      else detect_spikes threshold rest
  end.

(** The [anomalies] of [get_basic_analysis]. *)
Definition spike_anomalies (df : list row) : result (list spike) :=
  let* counts := error_counts df in Ok (detect_spikes threshold counts).

(** The start of the 30-second bucket of an instant. *)
Definition bucket (t : Z) : Z := t - t mod Datetime.FREQ_30S.

(** The number of ERROR rows whose timestamp lies in bucket [b]. *)
Definition errors_in_bucket (df : list row) (b : Z) : nat :=
  countb (fun r => is_error r && bool_decide (bucket (ts r) = b)) df.

(** ** Lemmas *)

Lemma floors_Ok (l l' : list Z) :
  map_result (Datetime.floor Datetime.FREQ_30S) l = Ok l' -> l' = List.map bucket l.
Proof.
  intros H%map_result_Ok. induction H as [|t r l l' Ht _ IH]; [done|].
  apply Datetime.floor_value in Ht. simpl. by rewrite Ht, IH.
Qed.

Lemma error_counts_Ok df counts :
  error_counts df = Ok counts -> counts = counter (List.map bucket (error_timestamps df)).
Proof. unfold error_counts. intros H. bind_inv. by rewrite (floors_Ok _ _ Ha). Qed.

Lemma occurrences_buckets df b :
  occurrences (List.map bucket (error_timestamps df)) b = errors_in_bucket df b.
Proof.
  unfold occurrences, errors_in_bucket, error_timestamps. by autorewrite with pylog_rw.
Qed.

Lemma detect_spikes_In th counts sp :
  In sp (detect_spikes th counts) <->
  exists b n, In (b, n) counts /\ th < n /\
              sp = Spike (Datetime.strftime b) n (count_message n).
Proof.
  induction counts as [|[b n] counts IH]; simpl.
  - split; [done | by intros (? & ? & [] & _)].
  - destruct (Nat.ltb_spec th n); simpl; rewrite IH; split.
    + intros [<-|(b' & n' & ? & ? & ->)]; eauto 7.
    + intros (b' & n' & [[= <- <-]|?] & ? & ->); eauto 7.
    + intros (b' & n' & ? & ? & ->); eauto 7.
    + intros (b' & n' & [[= <- <-]|?] & ? & ->); [lia | eauto 7].
Qed.

(** C1: The basic analysis reports exactly the buckets with more than
    [threshold] ERROR rows: each reported spike is a bucket with its
    exact ERROR count, above the threshold (a tie is not reported), and
    every bucket above the threshold is reported. *)
Theorem detect_spikes_exact df counts :
  error_counts df = Ok counts ->
  (forall sp, In sp (detect_spikes threshold counts) ->
     exists b, sp = Spike (Datetime.strftime b) (count sp) (count_message (count sp)) /\
               count sp = errors_in_bucket df b /\ threshold < count sp) /\
  (forall b, threshold < errors_in_bucket df b ->
     In (Spike (Datetime.strftime b) (errors_in_bucket df b)
               (count_message (errors_in_bucket df b))) (detect_spikes threshold counts)).
Proof.
  intros ->%error_counts_Ok. split.
  - intros sp (b & n & Hin & Hn & ->)%detect_spikes_In.
    apply counter_In in Hin as [-> _]. exists b. simpl.
    rewrite occurrences_buckets in Hn |- *. repeat split; done.
  - intros b Hb. apply detect_spikes_In. exists b, (errors_in_bucket df b).
    split; [|done]. apply counter_In. rewrite occurrences_buckets. unfold threshold in Hb. lia.
Qed.

(** C10: The counts of the buckets add up to the number of ERROR rows. *)
Theorem error_counts_sum df counts :
  error_counts df = Ok counts ->
  sum_list (List.map snd counts) = countb is_error df.
Proof.
  intros ->%error_counts_Ok. rewrite counter_sum, List.length_map.
  unfold error_timestamps, countb. by rewrite List.length_map.
Qed.

Lemma bucket_mono (t t' : Z) : (t <= t')%Z -> (bucket t <= bucket t')%Z.
Proof.
  intros H. unfold bucket, Datetime.FREQ_30S, Datetime.NS_PER_S.
  rewrite !Zmod_eq_full by lia.
  assert (t / (30 * 10 ^ 9) <= t' / (30 * 10 ^ 9))%Z by (apply Z.div_le_mono; lia). lia.
Qed.

Lemma counter_keys_sorted (l : list Z) :
  StronglySorted Z.le l -> StronglySorted Z.lt (List.map fst (counter l)).
Proof.
  induction l as [|x l IH] using rev_ind; [constructor|].
  intros [Hs Hx]%StronglySorted_snoc. rewrite counter_keys_snoc.
  case_decide as Hin; [rewrite app_nil_r; auto|].
  apply StronglySorted_snoc. split; [auto|].
  apply List.Forall_forall. intros k Hk.
  assert (k ∈ l) as Hkl by (apply counter_keys_In, list_elem_of_In, Hk).
  rewrite List.Forall_forall in Hx. apply list_elem_of_In in Hkl as Hkl'.
  specialize (Hx k Hkl'). destruct (Z.eq_dec k x); [subst; contradiction | lia].
Qed.

(** C14: The buckets come in the order of their first ERROR row; when the
    ERROR rows are in time order, the buckets are in strictly increasing
    order. *)
Theorem error_counts_sorted df counts :
  error_counts df = Ok counts ->
  StronglySorted Z.le (error_timestamps df) ->
  StronglySorted Z.lt (List.map fst counts).
Proof.
  intros ->%error_counts_Ok Hs. apply counter_keys_sorted.
  eapply StronglySorted_map_mono; [apply bucket_mono | exact Hs].
Qed.

(** ** Concrete runs *)

(** 2024-01-01 10:00:00 in nanoseconds. *)
Definition t_10h : Z := 1704103200000000000.

(** Four ERROR rows in the bucket of 10:00:00, one INFO row. *)
Definition sample_frame : list row :=
  [Row t_10h "ERROR" "db timeout"; Row (t_10h + 5000000000) "ERROR" "db timeout";
   Row (t_10h + 7000000000) "INFO" "ok";
   Row (t_10h + 10000000000) "ERROR" "db timeout"; Row (t_10h + 15000000000) "ERROR" "db timeout"].

(** Four ERROR rows at 10:01:00 before four at 10:00:00. *)
Definition unsorted_frame : list row :=
  [Row (t_10h + 60000000000) "ERROR" "a"; Row (t_10h + 61000000000) "ERROR" "a";
   Row (t_10h + 62000000000) "ERROR" "a"; Row (t_10h + 63000000000) "ERROR" "a";
   Row t_10h "ERROR" "b"; Row (t_10h + 1000000000) "ERROR" "b";
   Row (t_10h + 2000000000) "ERROR" "b"; Row (t_10h + 3000000000) "ERROR" "b"].

Lemma detect_spikes_exact_witness :
  exists counts, error_counts sample_frame = Ok counts /\
    In (Spike (Datetime.strftime t_10h) (errors_in_bucket sample_frame t_10h)
              (count_message (errors_in_bucket sample_frame t_10h)))
       (detect_spikes threshold counts).
Proof.
  assert (H : error_counts sample_frame = Ok [(t_10h, 4%nat)]) by (vm_compute; reflexivity).
  eexists. split; [exact H|].
  apply (proj2 (detect_spikes_exact sample_frame _ H) t_10h). vm_compute. lia.
Defined.

Lemma error_counts_sum_witness :
  exists counts, error_counts sample_frame = Ok counts /\
    sum_list (List.map snd counts) = countb is_error sample_frame.
Proof.
  assert (H : error_counts sample_frame = Ok [(t_10h, 4%nat)]) by (vm_compute; reflexivity).
  eexists. split; [exact H|]. exact (error_counts_sum sample_frame _ H).
Defined.

Lemma error_counts_sorted_witness :
  exists counts, error_counts sample_frame = Ok counts /\
    StronglySorted Z.le (error_timestamps sample_frame) /\
    StronglySorted Z.lt (List.map fst counts).
Proof.
  assert (H : error_counts sample_frame = Ok [(t_10h, 4%nat)]) by (vm_compute; reflexivity).
  assert (Hs : StronglySorted Z.le (error_timestamps sample_frame)).
  { vm_compute. repeat constructor; vm_compute; congruence. }
  eexists. split; [exact H|]. split; [exact Hs|]. exact (error_counts_sorted sample_frame _ H Hs).
Defined.

(** The specification's scenario: four ERROR rows 5 seconds apart give
    one spike at 10:00:00 with count 4. *)
Example spike_scenario :
  spike_anomalies sample_frame =
  Ok [Spike "2024-01-01 10:00:00" 4 "4 ERROR logs in 30 seconds"].
Proof. vm_compute. reflexivity. Qed.

(** The spikes come in the order of the first ERROR row of each bucket,
    not in increasing time: here 10:01:00 before 10:00:00. *)
Example spikes_first_occurrence_order :
  spike_anomalies unsorted_frame =
  Ok [Spike "2024-01-01 10:01:00" 4 "4 ERROR logs in 30 seconds";
      Spike "2024-01-01 10:00:00" 4 "4 ERROR logs in 30 seconds"].
Proof. vm_compute. reflexivity. Qed.

End Spikes.
