(* ===== verification/Features.v ===== *)
(** * Feature extraction of the AI analysis

    [level_mapping = {"INFO": 1, "WARNING": 2, "ERROR": 3, "CRITICAL": 4}],
    [df["level_score"] = df["level"].map(level_mapping)] and
    [df["message_length"] = df["message"].apply(len)]
    (src/web_anomaly_display.py:28-30, src/web_app.py:74-78).
    [Series.map] with a dict gives NaN for a level that is not a key:
    modelled by [None]. *)

From stdpp Require Import base list strings.
From Stdlib Require Import String ZArith Lia.
From S2P Require Import Prelude Frame.

Module Features.
Import Frame.

Definition level_mapping (lvl : string) : option Z :=
  if String.eqb lvl "INFO" then Some 1%Z
  else if String.eqb lvl "WARNING" then Some 2%Z
  else if String.eqb lvl "ERROR" then Some 3%Z
  else if String.eqb lvl "CRITICAL" then Some 4%Z
  else None.

(** [len(message)]: characters of the (already stripped) message. *)
Definition message_length (msg : string) : Z := Z.of_nat (String.length msg).

(** One row of [df[["level_score", "message_length"]]]. *)
Definition feature (r : row) : option Z * Z :=
  (level_mapping (level r), message_length (message r)).

Definition features (df : list row) : list (option Z * Z) := List.map feature df.

(** The four levels the mapping knows, by severity. *)
Inductive known_level := INFO | WARNING | ERROR | CRITICAL.

Definition level_name (l : known_level) : string :=
  match l with
  | INFO => "INFO" | WARNING => "WARNING" | ERROR => "ERROR" | CRITICAL => "CRITICAL"
  end.

Definition severity (l : known_level) : Z :=
  match l with INFO => 1 | WARNING => 2 | ERROR => 3 | CRITICAL => 4 end.

(** ** Lemmas *)

(** The mapping gives each known level its severity and NaN to every
    other string; its values are 1 to 4. *)
Lemma level_mapping_spec lvl :
  match level_mapping lvl with
  | Some s => exists l, lvl = level_name l /\ s = severity l /\ (1 <= s <= 4)%Z
  | None => forall l, lvl <> level_name l
  end.
Proof.
  unfold level_mapping.
  destruct (String.eqb_spec lvl "INFO"); [subst; exists INFO; split; [done | simpl; lia]|].
  destruct (String.eqb_spec lvl "WARNING"); [subst; exists WARNING; split; [done | simpl; lia]|].
  destruct (String.eqb_spec lvl "ERROR"); [subst; exists ERROR; split; [done | simpl; lia]|].
  destruct (String.eqb_spec lvl "CRITICAL"); [subst; exists CRITICAL; split; [done | simpl; lia]|].
  intros []; simpl; congruence.
Qed.

Lemma level_mapping_known l : level_mapping (level_name l) = Some (severity l).
Proof. by destruct l. Qed.

Lemma features_length df : List.length (features df) = List.length df.
Proof. apply List.length_map. Qed.

Lemma message_length_nonneg msg : (0 <= message_length msg)%Z.
Proof. unfold message_length. lia. Qed.

End Features.
