(* ===== verification/Outlier.v ===== *)
(** * The outlier detector of the AI analysis

    [model = IsolationForest(contamination=0.1, random_state=42)] and
    [df["anomaly"] = model.fit_predict(df[["level_score", "message_length"]])]
    (src/web_anomaly_display.py:33-34, src/web_app.py:81-82).
    The forest itself (random trees, path lengths) is a library
    capability, taken as the class [OutlierModel]: fitting on the feature
    matrix gives a score per row, lower meaning more abnormal, and the
    seed makes it a function of the matrix.  What the program's result
    depends on is modelled from scikit-learn and numpy:
    - [check_array]: an empty matrix or a NaN raises [ValueError];
    - [fit]: [offset_ = np.percentile(scores, 100 * contamination)], the
      [linear] percentile of numpy ([percentile]);
    - [predict]: a row is an outlier ([-1]) when
      [score - offset_ < 0], an inlier ([1]) otherwise.
    Scores and percentiles are exact rationals ([Q]) here; numpy works
    in binary floating point. *)

From stdpp Require Import base list sorting.
From Stdlib Require Import ZArith QArith Qround Lqa Lia Sorted.
From S2P Require Import Prelude.

Module Outlier.

(** The fitted scorer: [IsolationForest(random_state=42).fit(X)] followed
    by [score_samples] on a row. *)
Class OutlierModel := {
  fit_scores : list (Z * Z) -> Z * Z -> Q
}.

#[export] Instance Qle_rel_dec : RelDecision Qle :=
  fun x y => match Qlt_le_dec y x with
             | left H => right (Qlt_not_le y x H)
             | right H => left H
             end.

Definition Qltb (x y : Q) : bool := negb (Qle_bool y x).

(** The scores in increasing order (numpy partitions; the order
    statistics are those of the sorted array). *)
Definition sort_scores (s : list Q) : list Q := merge_sort Qle s.

(** numpy's [_lerp(a, b, t)]. *)
Definition lerp (a b t : Q) : Q := a + t * (b - a).

(** [np.percentile(a, p)] with the default [linear] method: the virtual
    index [(n - 1) * p / 100], its floor and the next index, both the
    last index when the virtual index reaches it, and the interpolation
    between the two order statistics. *)
Definition percentile (a : list Q) (p : Q) : Q :=
  let sorted := sort_scores a in
  let n := Z.of_nat (List.length a) in
  let h := (inject_Z (n - 1) * (p / 100))%Q in
  let lo := Qfloor h in
  let above := Qle_bool (inject_Z (n - 1)) h in
  let prev := (if above then n - 1 else lo)%Z in
  let next := (if above then n - 1 else lo + 1)%Z in
  lerp (nth (Z.to_nat prev) sorted 0) (nth (Z.to_nat next) sorted 0) (h - inject_Z lo).

(** [contamination=0.1]. *)
Definition CONTAMINATION : Q := 1 # 10.

(** One row through [check_array]: NaN raises. *)
Definition check_row (x : option Z * Z) : result (Z * Z) :=
  match x with
  | (Some v, l) => Ok (v, l)
  | (None, _) => raise ValueError
  end.

(** [check_array]: at least one sample, no NaN. *)
Definition check_array (X : list (option Z * Z)) : result (list (Z * Z)) :=
  match X with
  | [] => raise ValueError
  | _ => map_result check_row X
  end.

(** [fit_predict(X)]: fit, set [offset_], label every row. *)
Definition fit_predict `{OutlierModel} (X : list (option Z * Z)) : result (list Z) :=
  let* Xv := check_array X in
  let scores := List.map (fit_scores Xv) Xv in
  let offset := percentile scores (100 * CONTAMINATION) in
  Ok (List.map (fun s => if Qltb (s - offset) 0 then (-1)%Z else 1%Z) scores).

(** The number of rows labelled [-1]. *)
Definition outlier_count (labels : list Z) : nat := countb (fun l => Z.eqb l (-1)) labels.

(** ** Order statistics *)

Lemma Qltb_spec x y : Qltb x y = true <-> x < y.
Proof.
  unfold Qltb. rewrite negb_true_iff. split.
  - intros H. apply Qnot_le_lt. intros Hle. apply Qle_bool_iff in Hle. congruence.
  - intros H. destruct (Qle_bool y x) eqn:E; [|done]. apply Qle_bool_iff in E. lra.
Qed.

#[export] Instance Qle_total : Total Qle.
Proof. intros x y. destruct (Qlt_le_dec x y); [left; lra | right; lra]. Qed.

#[export] Instance Qle_trans' : Transitive Qle.
Proof. intros x y z ? ?. lra. Qed.

Lemma sort_scores_perm a : sort_scores a ≡ₚ a.
Proof. apply merge_sort_Permutation. Qed.

Lemma sort_scores_sorted a : StronglySorted Qle (sort_scores a).
Proof. apply StronglySorted_merge_sort; apply _. Qed.

Lemma sort_scores_length a : List.length (sort_scores a) = List.length a.
Proof. apply Permutation_length, sort_scores_perm. Qed.

(** The number of scores below [v]. *)
Definition count_below (v : Q) (l : list Q) : nat := countb (fun x => Qltb x v) l.

(** A test on scores that holds of every score below one it holds of:
    [x < v] and [x <= v]. *)
Definition down_closed (p : Q -> bool) : Prop :=
  forall x y, x <= y -> p y = true -> p x = true.

(** In a sorted list, a down-closed test that fails on the [i]-th score
    holds of at most [i] scores. *)
Lemma countb_sorted_upper (S : list Q) p i :
  down_closed p -> StronglySorted Qle S -> (i < List.length S)%nat -> p (nth i S 0) = false ->
  (countb p S <= i)%nat.
Proof.
  intros Hp. revert i. induction S as [|x S IH]; intros i Hs Hi Hv; simpl in *; [lia|].
  inversion Hs as [|? ? Hs' Hx]; subst. rewrite countb_cons. rewrite List.Forall_forall in Hx.
  destruct i as [|i].
  - assert (countb p S = 0)%nat as ->.
    { apply countb_zero. intros y Hy. destruct (p y) eqn:E; [|done].
      by rewrite (Hp x y (Hx y Hy) E) in Hv. }
    rewrite Hv. lia.
  - specialize (IH i Hs' ltac:(lia) Hv). destruct (p x); lia.
Qed.

(** ... and a down-closed test that holds of the [i]-th score holds of
    at least [i + 1] scores. *)
Lemma countb_sorted_lower (S : list Q) p i :
  down_closed p -> StronglySorted Qle S -> (i < List.length S)%nat -> p (nth i S 0) = true ->
  (i + 1 <= countb p S)%nat.
Proof.
  intros Hp. revert i. induction S as [|x S IH]; intros i Hs Hi Hv; simpl in *; [lia|].
  inversion Hs as [|? ? Hs' Hx]; subst. rewrite countb_cons. rewrite List.Forall_forall in Hx.
  assert (p x = true) as ->.
  { destruct i as [|i]; [done|]. apply (Hp x (nth i S 0)); [apply Hx, nth_In; lia | done]. }
  destruct i as [|i]; [lia|]. specialize (IH i Hs' ltac:(lia) Hv). lia.
Qed.

Lemma Qltb_down v : down_closed (fun x => Qltb x v).
Proof. intros x y Hxy Hy. apply Qltb_spec in Hy. apply Qltb_spec. lra. Qed.

Lemma Qle_bool_down v : down_closed (fun x => Qle_bool x v).
Proof. intros x y Hxy Hy. apply Qle_bool_iff in Hy. apply Qle_bool_iff. lra. Qed.

(** In a sorted list, at most [i] scores lie below a value that does
    not exceed the [i]-th. *)
Lemma count_below_upper (S : list Q) i v :
  StronglySorted Qle S -> (i < List.length S)%nat -> v <= nth i S 0 ->
  (count_below v S <= i)%nat.
Proof.
  intros Hs Hi Hv. apply (countb_sorted_upper S _ i (Qltb_down v) Hs Hi).
  destruct (Qltb _ v) eqn:E; [apply Qltb_spec in E; lra | done].
Qed.

(** In a sorted list, at least [i + 1] scores lie below a value above
    the [i]-th. *)
Lemma count_below_lower (S : list Q) i v :
  StronglySorted Qle S -> (i < List.length S)%nat -> nth i S 0 < v ->
  (i + 1 <= count_below v S)%nat.
Proof.
  intros Hs Hi Hv. apply (countb_sorted_lower S _ i (Qltb_down v) Hs Hi). by apply Qltb_spec.
Qed.

Lemma sorted_nth_le (S : list Q) i j :
  StronglySorted Qle S -> (i <= j)%nat -> (j < List.length S)%nat -> nth i S 0 <= nth j S 0.
Proof.
  revert i j. induction S as [|x S IH]; intros i j Hs Hij Hj; simpl in *; [lia|].
  inversion Hs as [|? ? Hs' Hx]; subst. rewrite List.Forall_forall in Hx.
  destruct i as [|i], j as [|j]; [lra | apply Hx, nth_In; lia | lia |].
  apply IH; [done | lia | lia].
Qed.

Lemma sorted_nth_lt (S : list Q) i j :
  StronglySorted Qlt S -> (i < j)%nat -> (j < List.length S)%nat -> nth i S 0 < nth j S 0.
Proof.
  revert i j. induction S as [|x S IH]; intros i j Hs Hij Hj; simpl in *; [lia|].
  inversion Hs as [|? ? Hs' Hx]; subst. rewrite List.Forall_forall in Hx.
  destruct i as [|i], j as [|j]; [lia | apply Hx, nth_In; lia | lia |].
  apply IH; [done | lia | lia].
Qed.

Lemma ForallOrdPairs_perm (R : Q -> Q -> Prop) (l l' : list Q) :
  (forall x y, R x y -> R y x) -> l ≡ₚ l' -> ForallOrdPairs R l -> ForallOrdPairs R l'.
Proof.
  intros Hsym Hp. induction Hp as [|x l l' Hp IH|x y l|l l' l'' _ IH1 _ IH2]; intros H.
  - constructor.
  - inversion H as [|? ? Hx Hl]; subst. constructor; [|auto].
    eapply Permutation_Forall; eauto.
  - inversion H as [|? ? Hy Hl]; subst. inversion Hl as [|? ? Hx Hl']; subst.
    inversion Hy as [|? ? Hyx Hy']; subst.
    constructor; [constructor; auto|]. constructor; auto.
  - auto.
Qed.

(** Sorted scores that are pairwise distinct are strictly increasing. *)
Lemma sorted_distinct_strict (S : list Q) :
  StronglySorted Qle S -> ForallOrdPairs (fun x y => ~ x == y) S -> StronglySorted Qlt S.
Proof.
  induction S as [|x S IH]; intros Hs Hd; [constructor|].
  inversion Hs as [|? ? Hs' Hx]; subst. inversion Hd as [|? ? Hdx Hd']; subst.
  constructor; [auto|]. rewrite List.Forall_forall in Hx, Hdx |- *.
  intros y Hy. specialize (Hx y Hy). specialize (Hdx y Hy).
  destruct (Qle_lt_or_eq _ _ Hx); [done | contradiction].
Qed.

(** ** The percentile at [contamination = 0.1] *)

Lemma div_1000 m : (m * 100 / 1000 = m / 10)%Z.
Proof.
  change 1000%Z with (100 * 10)%Z. rewrite <- Z.div_div by lia.
  rewrite Z.div_mul by lia. reflexivity.
Qed.

(** The virtual index [m * 0.1], its floor [m / 10], its fraction
    [(m mod 10) / 10]; it reaches the last index [m] only for [m = 0]. *)
Lemma virtual_index (m : Z) : (0 <= m)%Z ->
  Qfloor (inject_Z m * (100 * CONTAMINATION / 100)) = (m / 10)%Z /\
  inject_Z m * (100 * CONTAMINATION / 100) - inject_Z (m / 10) == inject_Z (m mod 10) / 10 /\
  Qle_bool (inject_Z m) (inject_Z m * (100 * CONTAMINATION / 100)) = (m =? 0)%Z.
Proof.
  intros Hm. change (100 * CONTAMINATION / 100) with (100 # 1000). split; [|split].
  - unfold Qfloor, inject_Z, Qmult. simpl. apply div_1000.
  - unfold Qeq, Qminus, Qplus, Qopp, Qmult, Qdiv, Qinv, inject_Z. simpl.
    pose proof (Z.div_mod m 10). lia.
  - destruct (Qle_bool _ _) eqn:E; symmetry.
    + apply Qle_bool_iff in E. unfold Qle, Qmult, inject_Z in E. simpl in E. lia.
    + apply Z.eqb_neq. intros ->. discriminate.
Qed.

(** [offset_] for [n = k + 1] scores: the interpolation between the
    order statistics [k / 10] and [k / 10 + 1] with weight
    [(k mod 10) / 10]; for one score, that score. *)
Lemma percentile_shape a k :
  List.length a = S k ->
  exists g, percentile a (100 * CONTAMINATION) =
    lerp (nth (if k =? 0 then 0 else k / 10)%nat (sort_scores a) 0)
         (nth (if k =? 0 then 0 else k / 10 + 1)%nat (sort_scores a) 0) g /\
    g == inject_Z (Z.of_nat k mod 10) / 10.
Proof.
  intros Hlen. unfold percentile. rewrite Hlen.
  replace (Z.of_nat (S k) - 1)%Z with (Z.of_nat k) by lia.
  destruct (virtual_index (Z.of_nat k)) as (Hfl & Hg & Hab); [lia|].
  rewrite Hfl, Hab. eexists. split; [|exact Hg].
  destruct (Nat.eqb_spec k 0) as [->|Hk]; [reflexivity|].
  replace (Z.of_nat k =? 0)%Z with false by lia. cbv iota.
  replace (Z.of_nat k / 10)%Z with (Z.of_nat (k / 10)) by (rewrite Nat2Z.inj_div; done).
  replace (Z.of_nat (k / 10) + 1)%Z with (Z.of_nat (k / 10 + 1)) by lia.
  rewrite !Nat2Z.id. reflexivity.
Qed.

Lemma lerp_between a b g : a <= b -> 0 <= g -> g <= 1 -> a <= lerp a b g <= b.
Proof. unfold lerp. intros. split; nra. Qed.

Lemma lerp_same a g : lerp a a g == a.
Proof. unfold lerp. ring. Qed.

Lemma lerp_start a b g : g == 0 -> lerp a b g == a.
Proof. unfold lerp. intros ->. ring. Qed.

Lemma lerp_above a b g : a < b -> 0 < g -> a < lerp a b g.
Proof. unfold lerp. intros. nra. Qed.

Lemma lerp_below a b g : a < b -> g < 1 -> lerp a b g < b.
Proof. unfold lerp. intros. nra. Qed.

Lemma count_below_Qeq v w l : v == w -> count_below v l = count_below w l.
Proof.
  intros Hvw. apply countb_ext_in. intros x _.
  destruct (Qltb x v) eqn:E1, (Qltb x w) eqn:E2; try done;
    apply Qltb_spec in E1 || apply Qltb_spec in E2;
    [assert (x < w) by lra | assert (x < v) by lra];
    match goal with H : _ < _ |- _ => apply Qltb_spec in H; congruence end.
Qed.

Lemma frac_tenths (r : Z) : (0 <= r <= 9)%Z ->
  0 <= inject_Z r / 10 < 1 /\ (r = 0%Z -> inject_Z r / 10 == 0) /\
  ((0 < r)%Z -> 0 < inject_Z r / 10).
Proof.
  intros Hr. unfold Qle, Qlt, Qeq, Qdiv, Qmult, Qinv, inject_Z. simpl. lia.
Qed.

(** Where [offset_] lies among the sorted scores, by the remainder of
    [n - 1] modulo 10. *)
Lemma percentile_cases a k :
  List.length a = S k ->
  let sa := sort_scores a in
  let v := percentile a (100 * CONTAMINATION) in
  (k = 0%nat /\ v == nth 0 sa 0) \/
  (k <> 0%nat /\ k mod 10 = 0%nat /\ v == nth (k / 10) sa 0) \/
  (k mod 10 <> 0%nat /\ nth (k / 10) sa 0 <= v <= nth (k / 10 + 1) sa 0 /\
   (nth (k / 10) sa 0 < nth (k / 10 + 1) sa 0 -> nth (k / 10) sa 0 < v < nth (k / 10 + 1) sa 0)).
Proof.
  intros Hlen sa v. subst v. destruct (percentile_shape a k Hlen) as (g & -> & Hg).
  pose proof (sort_scores_sorted a) as Hs. pose proof (sort_scores_length a) as Hl.
  fold sa in Hs, Hl |- *.
  assert (Hr : (Z.of_nat k mod 10 = Z.of_nat (k mod 10))%Z) by (rewrite Nat2Z.inj_mod; done).
  destruct (frac_tenths (Z.of_nat k mod 10)) as (Hg01 & Hg0 & Hgpos); [pose proof (Z.mod_pos_bound (Z.of_nat k) 10); lia|].
  destruct (Nat.eqb_spec k 0) as [->|Hk]; [left; split; [done | apply lerp_same]|].
  right. destruct (Nat.eq_dec (k mod 10) 0) as [Hm|Hm].
  - left. split; [done|]. split; [done|]. apply lerp_start. rewrite Hg. apply Hg0. lia.
  - right. split; [done|]. assert (Hle : nth (k / 10) sa 0 <= nth (k / 10 + 1) sa 0).
    { apply sorted_nth_le; [done | lia |]. rewrite Hl.
      pose proof (Nat.div_mod k 10). lia. }
    split.
    + apply lerp_between; [done | rewrite Hg; lra ..].
    + intros Hlt. split; [apply lerp_above; [done|]; rewrite Hg; apply Hgpos; lia|].
      apply lerp_below; [done|]. rewrite Hg. lra.
Qed.

Lemma count_below_sorted v a : count_below v a = count_below v (sort_scores a).
Proof. unfold count_below. apply countb_perm. symmetry. apply sort_scores_perm. Qed.

(** With [contamination = 0.1], at most [ceil((n - 1) / 10)] of [n]
    scores fall below [offset_]. *)
Theorem percentile_count_le a :
  a <> [] ->
  (count_below (percentile a (100 * CONTAMINATION)) a <= (List.length a - 1 + 9) / 10)%nat.
Proof.
  intros Ha. destruct (List.length a) as [|k] eqn:Hlen; [by destruct a|].
  pose proof (sort_scores_sorted a) as Hs. pose proof (sort_scores_length a) as Hl.
  rewrite count_below_sorted, Nat.sub_succ, Nat.sub_0_r, ceil_tenths.
  pose proof (Nat.div_mod_eq k 10).
  destruct (percentile_cases a k Hlen) as [(-> & Hv)|[(Hk & Hm & Hv)|(Hm & [_ Hv] & _)]];
    [rewrite (count_below_Qeq _ _ _ Hv) ..|].
  - apply (count_below_upper _ 0); [done | rewrite Hl, Hlen; lia | lra].
  - rewrite Hm, Nat.add_0_r.
    apply (count_below_upper _ (k / 10)); [done | rewrite Hl, Hlen; lia | lra].
  - apply Nat.eqb_neq in Hm as Hm'. rewrite Hm'.
    apply (count_below_upper _ (k / 10 + 1)); [done | rewrite Hl, Hlen; lia | lra].
Qed.

(** When the scores are pairwise distinct, exactly [ceil((n - 1) / 10)]
    of them fall below [offset_]. *)
Theorem percentile_count_distinct a :
  a <> [] -> ForallOrdPairs (fun x y => ~ x == y) a ->
  count_below (percentile a (100 * CONTAMINATION)) a = ((List.length a - 1 + 9) / 10)%nat.
Proof.
  intros Ha Hd. apply Nat.le_antisymm; [by apply percentile_count_le|].
  destruct (List.length a) as [|k] eqn:Hlen; [by destruct a|].
  pose proof (sort_scores_sorted a) as Hs. pose proof (sort_scores_length a) as Hl.
  assert (Hst : StronglySorted Qlt (sort_scores a)).
  { apply sorted_distinct_strict; [done|]. eapply ForallOrdPairs_perm; [| |exact Hd].
    - intros x y H H'. apply H. by symmetry.
    - symmetry. apply sort_scores_perm. }
  rewrite count_below_sorted, Nat.sub_succ, Nat.sub_0_r, ceil_tenths.
  pose proof (Nat.div_mod_eq k 10).
  destruct (percentile_cases a k Hlen) as [(-> & Hv)|[(Hk & Hm & Hv)|(Hm & [Hv _] & Habove)]].
  - simpl. lia.
  - rewrite (count_below_Qeq _ _ _ Hv), Hm, Nat.add_0_r.
    replace (k / 10)%nat with (k / 10 - 1 + 1)%nat at 1 by lia.
    apply count_below_lower; [done | rewrite Hl, Hlen; lia |].
    apply sorted_nth_lt; [done | lia | rewrite Hl, Hlen; lia].
  - apply Nat.eqb_neq in Hm as Hm'. rewrite Hm'.
    apply count_below_lower; [done | rewrite Hl, Hlen; lia |].
    apply (fun H => proj1 (Habove H)), sorted_nth_lt; [done | lia | rewrite Hl, Hlen; lia].
Qed.

(** ** The labels by rank *)

(** The number of scores at most [v]: the rank of [v] among them. *)
Definition count_le (v : Q) (l : list Q) : nat := countb (fun x => Qle_bool x v) l.

(** The rank test of [n = k + 1] scores at [contamination = 0.1]: a score
    of rank [c] is below [offset_] when [c <= k / 10], or [c = k / 10 + 1]
    and the virtual index [k / 10] has a fractional part. *)
Definition rank_outlier (k c : nat) : bool :=
  (c <=? k / 10)%nat || (negb (k mod 10 =? 0)%nat && (c =? k / 10 + 1)%nat).

(** The labels of [fit_predict] computed from the ranks of the scores
    alone. *)
Definition predict_by_rank (scores : list Q) : list Z :=
  List.map (fun s => if rank_outlier (List.length scores - 1) (count_le s scores)
                     then (-1)%Z else 1%Z) scores.

Lemma count_le_sorted v a : count_le v a = count_le v (sort_scores a).
Proof. unfold count_le. apply countb_perm. symmetry. apply sort_scores_perm. Qed.

(** A value lies below the [i]-th of sorted scores exactly when at most
    [i] scores are at most it. *)
Lemma count_le_rank (S : list Q) i s :
  StronglySorted Qle S -> (i < List.length S)%nat ->
  s < nth i S 0 <-> (count_le s S <= i)%nat.
Proof.
  intros Hs Hi. unfold count_le. split.
  - intros Hlt. apply (countb_sorted_upper _ _ i (Qle_bool_down s) Hs Hi).
    destruct (Qle_bool _ s) eqn:E; [apply Qle_bool_iff in E; lra | done].
  - intros Hc. destruct (Qlt_le_dec s (nth i S 0)) as [|Hle]; [done|].
    apply Qle_bool_iff in Hle. pose proof (countb_sorted_lower _ _ i (Qle_bool_down s) Hs Hi Hle).
    lia.
Qed.

(** A score of rank [i + 1] is the [i]-th order statistic. *)
Lemma count_le_member (S : list Q) i s :
  StronglySorted Qle S -> (i + 1 < List.length S)%nat -> In s S ->
  count_le s S = (i + 1)%nat -> s == nth i S 0.
Proof.
  intros Hs Hi Hin Hc.
  assert (H1 : nth i S 0 <= s).
  { apply Qnot_lt_le. rewrite count_le_rank by (done || lia). lia. }
  assert (H2 : s < nth (i + 1) S 0) by (apply count_le_rank; (done || lia)).
  apply In_nth with (d := 0) in Hin as (j & Hj & <-).
  destruct (Nat.le_gt_cases j i) as [Hji|Hji].
  - pose proof (sorted_nth_le S j i Hs Hji ltac:(lia)). lra.
  - pose proof (sorted_nth_le S (i + 1) j Hs ltac:(lia) Hj). lra.
Qed.

Lemma Qltb_Qeq s v w : v == w -> Qltb s v = Qltb s w.
Proof.
  intros Hvw. apply Bool.eq_iff_eq_true. rewrite !Qltb_spec. split; intros; lra.
Qed.

(** Whether a score lies below [offset_] depends on its rank alone. *)
Lemma percentile_rank a s :
  In s a ->
  Qltb s (percentile a (100 * CONTAMINATION)) = rank_outlier (List.length a - 1) (count_le s a).
Proof.
  intros Hin. destruct (List.length a) as [|k] eqn:Hlen; [by destruct a|].
  rewrite Nat.sub_succ, Nat.sub_0_r, count_le_sorted.
  pose proof (sort_scores_sorted a) as Hs. pose proof (sort_scores_length a) as Hl.
  assert (Hin' : In s (sort_scores a)) by (eapply Permutation_in; [symmetry; apply sort_scores_perm | done]).
  pose proof (Nat.div_mod_eq k 10). unfold rank_outlier.
  apply Bool.eq_iff_eq_true. rewrite Qltb_spec, orb_true_iff, andb_true_iff, negb_true_iff,
    Nat.leb_le, Nat.eqb_eq, Nat.eqb_neq.
  destruct (percentile_cases a k Hlen) as [(-> & Hv)|[(Hk & Hm & Hv)|(Hm & [Hv1 Hv2] & Habove)]].
  - rewrite <- (count_le_rank _ 0) by (done || lia). split; [intros; left; lra | intros [|[Hne _]]; [lra | done]].
  - rewrite <- (count_le_rank _ (k / 10)) by (done || lia).
    split; [intros; left; lra | intros [|[Hne _]]; [lra | done]].
  - assert (Hi : (k / 10 + 1 < List.length (sort_scores a))%nat) by lia.
    pose proof (count_le_rank _ (k / 10) s Hs ltac:(lia)) as R0.
    pose proof (count_le_rank _ (k / 10 + 1) s Hs Hi) as R1.
    destruct (Qlt_le_dec (nth (k / 10) (sort_scores a) 0) (nth (k / 10 + 1) (sort_scores a) 0))
      as [Hlt|Hge].
    + specialize (Habove Hlt). split.
      * intros Hsv. destruct (Qlt_le_dec s (nth (k / 10) (sort_scores a) 0)); [left; tauto|].
        right. split; [done|]. enough (count_le s (sort_scores a) <= k / 10 + 1)%nat.
        { assert (~ (count_le s (sort_scores a) <= k / 10)%nat) by (rewrite <- R0; lra). lia. }
        apply R1. lra.
      * intros [Hc|[_ Hc]]; [apply R0 in Hc; lra|].
        pose proof (count_le_member _ _ _ Hs Hi Hin' Hc). lra.
    + assert (Hv : percentile a (100 * CONTAMINATION) == nth (k / 10) (sort_scores a) 0) by lra.
      split; [intros; left; apply R0; lra|]. intros [Hc|[_ Hc]]; [apply R0 in Hc; lra|].
      pose proof (count_le_member _ _ _ Hs Hi Hin' Hc).
      assert (s < nth (k / 10 + 1) (sort_scores a) 0) by (apply R1; lia). lra.
Qed.

(** ** [fit_predict] *)

Lemma check_array_Ok X Xv :
  check_array X = Ok Xv ->
  X <> [] /\ Forall2 (fun x v => x.1 = Some v.1 /\ x.2 = v.2) X Xv.
Proof.
  unfold check_array. destruct X as [|x X]; [discriminate|]. intros H.
  split; [done|]. apply map_result_Ok in H. eapply Forall2_impl; [exact H|].
  intros [[s|] l] [v l']; simpl; [by intros [= -> ->] | discriminate].
Qed.

Lemma check_array_length X Xv :
  check_array X = Ok Xv -> List.length Xv = List.length X.
Proof. intros [_ H]%check_array_Ok. symmetry. eapply Forall2_length; eauto. Qed.

Lemma Qltb_sub_0 s o : Qltb (s - o) 0 = Qltb s o.
Proof.
  destruct (Qltb (s - o) 0) eqn:E1, (Qltb s o) eqn:E2; try done;
    [apply Qltb_spec in E1 | apply Qltb_spec in E2];
    [assert (s < o) as H by lra | assert (s - o < 0) as H by lra];
    apply Qltb_spec in H; congruence.
Qed.

(** Thresholding at [offset_] is the rank test, row by row. *)
Lemma labels_by_rank (scores : list Q) :
  List.map (fun s => if Qltb (s - percentile scores (100 * CONTAMINATION)) 0 then (-1)%Z else 1%Z)
    scores = predict_by_rank scores.
Proof.
  unfold predict_by_rank. apply List.map_ext_in. intros s Hs. by rewrite Qltb_sub_0, percentile_rank.
Qed.

Section FitPredict.
Context `{OutlierModel}.

Lemma fit_predict_Ok X labels :
  fit_predict X = Ok labels ->
  exists Xv, check_array X = Ok Xv /\
    let scores := List.map (fit_scores Xv) Xv in
    labels = List.map (fun s => if Qltb (s - percentile scores (100 * CONTAMINATION)) 0
                                then (-1)%Z else 1%Z) scores.
Proof. unfold fit_predict. intros Hf. bind_inv. eauto. Qed.

Lemma outlier_count_scores (scores : list Q) o :
  outlier_count (List.map (fun s => if Qltb (s - o) 0 then (-1)%Z else 1%Z) scores) =
  count_below o scores.
Proof.
  unfold outlier_count, count_below. rewrite countb_map. apply countb_ext_in.
  intros s _. rewrite Qltb_sub_0. by destruct (Qltb s o).
Qed.

Lemma fit_predict_length X labels :
  fit_predict X = Ok labels -> List.length labels = List.length X.
Proof.
  intros (Xv & HXv & ->)%fit_predict_Ok. rewrite !List.length_map. by apply check_array_length.
Qed.

Lemma fit_predict_count_le X labels :
  fit_predict X = Ok labels -> (outlier_count labels <= (List.length X - 1 + 9) / 10)%nat.
Proof.
  intros (Xv & HXv & ->)%fit_predict_Ok.
  pose proof (check_array_length _ _ HXv) as Hl. destruct (check_array_Ok _ _ HXv) as [Hne _].
  rewrite outlier_count_scores, <- Hl, <- (List.length_map (fit_scores Xv) Xv).
  apply percentile_count_le. destruct Xv; [destruct X; simpl in *; congruence | done].
Qed.

(** C2: [fit_predict] labels every row [-1] or [1], and at most
    [ceil((n - 1) / 10)] rows [-1]: the contamination bounds the number
    of anomalies from above. *)
Theorem fit_predict_outlier_bound X labels :
  fit_predict X = Ok labels ->
  List.length labels = List.length X /\
  Forall (fun l => l = (-1)%Z \/ l = 1%Z) labels /\
  (outlier_count labels <= (List.length X - 1 + 9) / 10)%nat.
Proof.
  intros Hf. split; [by apply fit_predict_length|]. split; [|by apply fit_predict_count_le].
  destruct (fit_predict_Ok _ _ Hf) as (Xv & _ & ->).
  apply List.Forall_map, List.Forall_forall. intros s _. destruct (Qltb _ _); auto.
Qed.

(** C3: With pairwise distinct scores the bound is reached: exactly
    [ceil((n - 1) / 10)] rows are anomalies. *)
Theorem fit_predict_outlier_exact X Xv labels :
  check_array X = Ok Xv ->
  ForallOrdPairs (fun x y => ~ x == y) (List.map (fit_scores Xv) Xv) ->
  fit_predict X = Ok labels ->
  outlier_count labels = ((List.length X - 1 + 9) / 10)%nat.
Proof.
  intros HXv Hd (Xv' & HXv' & ->)%fit_predict_Ok. rewrite HXv in HXv'. injection HXv' as <-.
  pose proof (check_array_length _ _ HXv) as Hl. destruct (check_array_Ok _ _ HXv) as [Hne _].
  rewrite outlier_count_scores, <- Hl, <- (List.length_map (fit_scores Xv) Xv).
  apply percentile_count_distinct; [|done]. destruct Xv; [destruct X; simpl in *; congruence | done].
Qed.

Lemma check_array_Err X e :
  check_array X = Err e <-> e = ValueError /\ (X = [] \/ exists l, In (None, l) X).
Proof.
  split.
  - unfold check_array. destruct X as [|x X]; [intros [= <-]; auto|].
    intros (y & Hy & Hf)%map_result_Err_inv. destruct y as [[v|] l]; [discriminate|].
    injection Hf as <-. eauto.
  - intros [-> [->|(l & Hl)]]; [done|]. unfold check_array.
    destruct X as [|x X]; [done|].
    destruct (map_result_raises check_row _ _ ValueError Hl eq_refl) as [e' He'].
    rewrite He'. apply map_result_Err_inv in He' as (y & _ & Hy).
    destruct y as [[v|] l']; [discriminate | by injection Hy as <-].
Qed.

(** C5: [fit_predict] raises, and raises [ValueError], exactly on an empty
    matrix or a matrix with a NaN level score. *)
Theorem fit_predict_Err X e :
  fit_predict X = Err e <-> e = ValueError /\ (X = [] \/ exists l, In (None, l) X).
Proof.
  rewrite <- check_array_Err. unfold fit_predict.
  destruct (check_array X); simpl; split; congruence.
Qed.

Lemma sorted_const (l : list Q) s0 i :
  (forall x, In x l -> x = s0) -> (i < List.length l)%nat -> nth i (sort_scores l) 0 = s0.
Proof.
  intros Hl Hi. apply Hl. apply (Permutation_in _ (sort_scores_perm l)).
  apply nth_In. by rewrite sort_scores_length.
Qed.

(** The percentile of equal scores is that score. *)
Lemma percentile_const (l : list Q) s0 :
  l <> [] -> (forall x, In x l -> x = s0) -> percentile l (100 * CONTAMINATION) == s0.
Proof.
  intros Hne Hl. destruct (List.length l) as [|k] eqn:Hlen; [by destruct l|].
  pose proof (Nat.div_mod_eq k 10).
  destruct (percentile_cases l k Hlen) as [(-> & Hv)|[(Hk & Hm & Hv)|(Hm & [Hv1 Hv2] & _)]].
  - rewrite (sorted_const l s0) in Hv by (done || lia). lra.
  - rewrite (sorted_const l s0) in Hv by (done || lia). lra.
  - rewrite !(sorted_const l s0) in Hv1, Hv2 by (done || lia). lra.
Qed.

Lemma check_array_const X Xv r :
  check_array X = Ok Xv -> (forall x, In x X -> x = r) ->
  forall w, In w Xv -> r.1 = Some w.1 /\ r.2 = w.2.
Proof.
  intros [_ H2]%check_array_Ok Hr. induction H2 as [|x w X Xv [H1 H2'] _ IH]; [done|].
  intros w' [<-|Hw]; [|apply IH; auto; intros; apply Hr; by right].
  rewrite <- (Hr x) by (by left). done.
Qed.

(** C4: When every feature row is the same, every score is the same and no
    row is an anomaly, whatever the number of rows. *)
Theorem fit_predict_identical_rows X labels r :
  (forall x, In x X -> x = r) -> fit_predict X = Ok labels -> outlier_count labels = 0%nat.
Proof.
  intros Hr (Xv & HXv & ->)%fit_predict_Ok. rewrite outlier_count_scores.
  pose proof (check_array_const _ _ _ HXv Hr) as Hc.
  destruct (check_array_Ok _ _ HXv) as [Hne _].
  destruct Xv as [|v0 Xv'] eqn:EXv; [destruct X; [done|]; by apply check_array_length in HXv|].
  rewrite <- EXv in *.
  assert (Hs : forall x, In x (List.map (fit_scores Xv) Xv) -> x = fit_scores Xv v0).
  { intros x (v & <- & Hv)%List.in_map_iff. f_equal.
    destruct (Hc v Hv) as [Hv1 Hv2], (Hc v0) as [H01 H02]; [subst; by left|].
    destruct v, v0; simpl in *; congruence. }
  assert (Hne' : List.map (fit_scores Xv) Xv <> []) by (rewrite EXv; discriminate).
  rewrite (count_below_Qeq _ _ _ (percentile_const _ _ Hne' Hs)).
  apply countb_zero. intros x Hx. rewrite (Hs x Hx).
  destruct (Qltb _ _) eqn:E; [apply Qltb_spec in E; lra | done].
Qed.

(** C11: [fit_predict] is the rank test: the interpolated percentile
    [offset_] and the comparison [score - offset_ < 0] label a row [-1]
    exactly when its score has rank at most [(n - 1) / 10] among the [n]
    scores, or rank [(n - 1) / 10 + 1] when [(n - 1) mod 10 <> 0]; errors
    are those of [check_array]. *)
Theorem fit_predict_by_rank X :
  fit_predict X = (let* Xv := check_array X in Ok (predict_by_rank (List.map (fit_scores Xv) Xv))).
Proof. unfold fit_predict. destruct (check_array X); simpl; [by rewrite labels_by_rank | done]. Qed.

End FitPredict.

(** Two forests that order the rows of the matrix the same way give the
    same labels: [fit_predict] depends on the scores only through their
    order, so any strictly increasing transform of [score_samples] (such
    as scikit-learn's [-2 ** (-depth / c(n))] of the mean path length)
    labels the rows alike. *)
Theorem fit_predict_order_invariant (M1 M2 : OutlierModel) X :
  (forall Xv, check_array X = Ok Xv -> forall x y, In x Xv -> In y Xv ->
     (@fit_scores M1 Xv x <= @fit_scores M1 Xv y <-> @fit_scores M2 Xv x <= @fit_scores M2 Xv y)) ->
  @fit_predict M1 X = @fit_predict M2 X.
Proof.
  intros Hord. unfold fit_predict. destruct (check_array X) as [Xv|e] eqn:HX; [|done]. simpl.
  rewrite !labels_by_rank. f_equal. unfold predict_by_rank. rewrite !List.map_map, !List.length_map.
  apply List.map_ext_in. intros x Hx. unfold count_le. rewrite !countb_map.
  rewrite (countb_ext_in _ (fun y => Qle_bool (@fit_scores M2 Xv y) (@fit_scores M2 Xv x)) Xv);
    [done|].
  intros y Hy. apply Bool.eq_iff_eq_true. rewrite !Qle_bool_iff. by apply Hord.
Qed.

(** ** Concrete runs *)

(** A scorer for concrete runs: the longer the message, the lower the
    score. *)
Definition length_scorer : OutlierModel := {| fit_scores := fun _ x => inject_Z (- x.2) |}.

(** Twelve INFO rows with messages of length 0 to 11. *)
Definition sample_matrix : list (option Z * Z) :=
  List.map (fun i => (Some 1%Z, Z.of_nat i)) (seq 0 12).

Definition sample_rows : list (Z * Z) := List.map (fun i => (1%Z, Z.of_nat i)) (seq 0 12).

Lemma fit_predict_outlier_bound_witness :
  exists labels, @fit_predict length_scorer sample_matrix = Ok labels /\
    List.length labels = 12%nat /\ (outlier_count labels <= 2)%nat.
Proof.
  assert (H : @fit_predict length_scorer sample_matrix = Ok [1;1;1;1;1;1;1;1;1;1;-1;-1]%Z)
    by (vm_compute; reflexivity).
  eexists. split; [exact H|].
  destruct (@fit_predict_outlier_bound length_scorer _ _ H) as (Hl & _ & Hb).
  split; [exact Hl | exact Hb].
Defined.

Lemma fit_predict_outlier_exact_witness :
  exists labels, @fit_predict length_scorer sample_matrix = Ok labels /\
    outlier_count labels = 2%nat.
Proof.
  assert (H : @fit_predict length_scorer sample_matrix = Ok [1;1;1;1;1;1;1;1;1;1;-1;-1]%Z)
    by (vm_compute; reflexivity).
  assert (Hc : check_array sample_matrix = Ok sample_rows) by (vm_compute; reflexivity).
  assert (Hd : ForallOrdPairs (fun x y => ~ x == y)
                 (List.map (@fit_scores length_scorer sample_rows) sample_rows)).
  { vm_compute. repeat constructor; intros Heq; vm_compute in Heq; discriminate. }
  eexists. split; [exact H|]. exact (@fit_predict_outlier_exact length_scorer _ _ _ Hc Hd H).
Defined.

Lemma fit_predict_identical_rows_witness :
  @fit_predict length_scorer (repeat (Some 3%Z, 10%Z) 20) = Ok (repeat 1%Z 20) /\
  outlier_count (repeat 1%Z 20) = 0%nat.
Proof.
  assert (H : @fit_predict length_scorer (repeat (Some 3%Z, 10%Z) 20) = Ok (repeat 1%Z 20))
    by (vm_compute; reflexivity).
  split; [exact H|].
  apply (@fit_predict_identical_rows length_scorer (repeat (Some 3%Z, 10%Z) 20) _ (Some 3%Z, 10%Z));
    [|exact H].
  intros x Hx. by apply List.repeat_spec in Hx.
Defined.

(** A scorer that orders rows as [length_scorer] does, with other values. *)
Definition affine_scorer : OutlierModel := {| fit_scores := fun _ x => inject_Z (7 - 3 * x.2) |}.

Lemma fit_predict_order_invariant_witness :
  @fit_predict length_scorer sample_matrix = @fit_predict affine_scorer sample_matrix /\
  @fit_predict affine_scorer sample_matrix = Ok [1;1;1;1;1;1;1;1;1;1;-1;-1]%Z.
Proof.
  split; [|vm_compute; reflexivity].
  apply fit_predict_order_invariant. intros Xv _ x y _ _. cbn. unfold Qle. simpl. lia.
Defined.

Lemma fit_predict_by_rank_witness :
  @fit_predict length_scorer sample_matrix =
    Ok (predict_by_rank (List.map (@fit_scores length_scorer sample_rows) sample_rows)) /\
  predict_by_rank (List.map (@fit_scores length_scorer sample_rows) sample_rows) =
    [1;1;1;1;1;1;1;1;1;1;-1;-1]%Z.
Proof.
  split; [|vm_compute; reflexivity].
  rewrite (@fit_predict_by_rank length_scorer sample_matrix). vm_compute. reflexivity.
Defined.

(** scikit-learn raises on an empty matrix and on a NaN level score. *)
Example fit_predict_raises :
  @fit_predict length_scorer [] = raise ValueError /\
  @fit_predict length_scorer [(Some 1%Z, 4%Z); (None, 7%Z)] = raise ValueError.
Proof. vm_compute. split; reflexivity. Qed.

End Outlier.
