(* ===== verification/Analysis.v ===== *)
(** * The analyses and their HTTP endpoints

    - [get_basic_analysis] (src/web_app.py:11-51): regular-expression
      parser, 30-second ERROR spikes, level distribution, last ten rows;
    - [get_ai_analysis] (src/web_app.py:53-96): split parser, features,
      isolation forest, anomaly count and percentage, first twenty
      anomalies;
    - [api_basic_analysis], [api_ai_analysis] (src/web_app.py:103-119):
      the JSON result with status 200, or [{'error': str(e)}] with status
      500 when the analysis raises.
    The input is the text of [error_logs.txt]. *)

From stdpp Require Import base list strings gmap.
From Stdlib Require Import String ZArith QArith Qround Lqa Lia.
From S2P Require Import Prelude PyStr Parser Timestamp Frame SpikeDetector Features Outlier.

Module Analysis.
Import Frame Spikes Outlier.

(** [df['level'].value_counts().to_dict()]: the number of rows of each
    level (the order of the dictionary is not modelled). *)
Definition value_counts (levels : list string) : gmap string nat :=
  foldl (fun m l => <[l := S (default 0%nat (m !! l))]> m) ∅ levels.

(** [df.tail(n)] and [df.head(n)]. *)
Definition tail (n : nat) {A} (l : list A) : list A := drop (List.length l - n) l.
Definition head (n : nat) {A} (l : list A) : list A := take n l.

Record basic_result := BasicResult {
  anomalies : list spike;
  total_logs : nat;
  level_distribution : gmap string nat;
  recent_logs : list row
}.

Definition get_basic_analysis (content : string) : result basic_result :=
  let log_entries := RegexParser.parse_logs (Lines.read_lines content) in
  let* df := build_frame log_entries in
  let* spikes := spike_anomalies df in
  Ok (BasicResult spikes (List.length df) (value_counts (List.map level df)) (tail 10 df)).

(** A row of the AI analysis: the frame's row, its features and its
    label ([df["anomaly"]]). *)
Record scored_row := ScoredRow {
  srow : row;
  sfeature : option Z * Z;
  slabel : Z
}.

(** Python's [round(x, 2)] on the exact value: to the nearest hundredth,
    a tie to the even hundredth. *)
Definition round_half_even (q : Q) : Z :=
  let f := Qfloor q in
  let r := q - inject_Z f in
  if Qle_bool r (1 # 2) then
    if Qeq_bool r (1 # 2) then (if Z.even f then f else f + 1)%Z else f
  else (f + 1)%Z.

(** Rounding to [d] decimal places: [round(x, d)], and the [:.{d}f]
    format of an f-string. *)
Definition round_places (d : nat) (q : Q) : Q :=
  inject_Z (round_half_even (q * inject_Z (10 ^ Z.of_nat d))) / inject_Z (10 ^ Z.of_nat d).

Definition round2 (q : Q) : Q := round_places 2 q.

Record ai_result := AiResult {
  total_anomalies : nat;
  anomaly_percentage : Q;
  ai_anomalies : list scored_row
}.

(** The two endpoints: [jsonify(result)], or the error with status 500. *)
Inductive response (A : Type) :=
| Json200 (a : A)
| Error500 (e : py_error).
Arguments Json200 {A} a.
Arguments Error500 {A} e.

Definition respond {A} (r : result A) : response A :=
  match r with
  | Ok a => Json200 a
  | Err e => Error500 e
  end.

Definition api_basic_analysis (content : string) : response basic_result :=
  respond (get_basic_analysis content).

Section WithModel.
Context `{OutlierModel}.

Definition get_ai_analysis (content : string) : result ai_result :=
  let data := SplitParser.parse_logs (Lines.read_lines content) in
  let* df := build_frame data in
  let X := Features.features df in
  let* labels := fit_predict X in
  let scored := zip_with (fun r '(x, l) => ScoredRow r x l) df (zip X labels) in
  let anomalies := List.filter (fun s => Z.eqb (slabel s) (-1)) scored in
  if decide (List.length df = 0%nat) then raise ZeroDivisionError
  else Ok (AiResult (List.length anomalies)
                    (round2 (inject_Z (Z.of_nat (List.length anomalies)) /
                             inject_Z (Z.of_nat (List.length df)) * 100))
                    (head 20 anomalies)).

Definition api_ai_analysis (content : string) : response ai_result :=
  respond (get_ai_analysis content).

End WithModel.

(** ** Lemmas *)

Definition add_count (o : option nat) (n : nat) : option nat :=
  match o, n with
  | None, O => None
  | None, n => Some n
  | Some a, n => Some (a + n)%nat
  end.

Lemma value_counts_fold ls (m : gmap string nat) l :
  foldl (fun m l => <[l := S (default 0%nat (m !! l))]> m) m ls !! l =
  add_count (m !! l) (Counter.occurrences ls l).
Proof.
  revert m. induction ls as [|x ls IH]; intros m; simpl.
  - unfold Counter.occurrences. rewrite countb_nil.
    destruct (m !! l); simpl; [by rewrite Nat.add_0_r | done].
  - rewrite IH. unfold Counter.occurrences. rewrite countb_cons.
    destruct (decide (x = l)) as [->|Hne].
    + rewrite lookup_insert_eq, bool_decide_true by done. destruct (m !! l); simpl; f_equal; lia.
    + rewrite lookup_insert_ne, bool_decide_false by done. done.
Qed.

(** [value_counts] maps each level that occurs to its number of rows. *)
Lemma value_counts_lookup ls l :
  value_counts ls !! l =
  if Nat.eqb (Counter.occurrences ls l) 0 then None else Some (Counter.occurrences ls l).
Proof.
  unfold value_counts. rewrite value_counts_fold, lookup_empty.
  by destruct (Counter.occurrences ls l).
Qed.

Lemma build_frame_levels entries df :
  build_frame entries = Ok df -> List.map level df = List.map raw_level entries.
Proof.
  intros H%build_frame_Ok. induction H as [|e r es rs (_ & Hl & _) _ IH]; [done|].
  simpl. by rewrite Hl, IH.
Qed.

(** C7: The basic analysis counts one log per line the regular expression
    matches, and its level distribution gives each level its number of
    such lines. *)
Theorem basic_analysis_counts content r :
  get_basic_analysis content = Ok r ->
  let entries := RegexParser.parse_logs (Lines.read_lines content) in
  total_logs r = List.length entries /\
  forall l, level_distribution r !! l =
    let n := Counter.occurrences (List.map raw_level entries) l in
    if Nat.eqb n 0 then None else Some n.
Proof.
  unfold get_basic_analysis. intros H. bind_inv. simpl.
  rewrite (build_frame_length _ _ Ha). split; [done|].
  intros l. by rewrite value_counts_lookup, (build_frame_levels _ _ Ha).
Qed.

Lemma head_length {A} n (l : list A) : (List.length (head n l) <= n)%nat.
Proof. unfold head. rewrite length_take. lia. Qed.

Lemma head_Forall {A} (P : A -> Prop) n l : Forall P l -> Forall P (head n l).
Proof. unfold head. apply Forall_take. Qed.

Lemma round_half_even_cases x :
  round_half_even x = Qfloor x \/
  (round_half_even x = (Qfloor x + 1)%Z /\ inject_Z (Qfloor x) < x).
Proof.
  unfold round_half_even.
  destruct (Qle_bool _ _) eqn:E1; [destruct (Qeq_bool _ _) eqn:E2|].
  - apply Qeq_bool_iff in E2. destruct (Z.even _); [by left | right; split; [done | lra]].
  - by left.
  - right. split; [done|]. assert (~ x - inject_Z (Qfloor x) <= 1 # 2) as Hn.
    { intros Hle. apply Qle_bool_iff in Hle. congruence. }
    apply Qnot_le_lt in Hn. lra.
Qed.

(** Rounding keeps a value of [[0, N]] in [[0, N]]. *)
Lemma round_half_even_range x (N : Z) :
  0 <= x -> x <= inject_Z N -> (0 <= round_half_even x <= N)%Z.
Proof.
  intros H0 HN. pose proof (Qfloor_resp_le _ _ H0) as Hf0. pose proof (Qfloor_resp_le _ _ HN) as HfN.
  rewrite Qfloor_Z in HfN. change (Qfloor 0) with 0%Z in Hf0.
  destruct (round_half_even_cases x) as [->|[-> Hlt]]; [lia|].
  assert (inject_Z (Qfloor x) < inject_Z N) as HQ by lra. rewrite <- Zlt_Qlt in HQ. lia.
Qed.

Lemma round2_range q : 0 <= q -> q <= 100 -> 0 <= round2 q /\ round2 q <= 100.
Proof.
  intros H0 H1. unfold round2, round_places. change (inject_Z (10 ^ Z.of_nat 2)) with (100 # 1).
  destruct (round_half_even_range (q * 100) 10000) as [Hl Hu]; [lra | change (inject_Z 10000) with (10000 # 1); lra |].
  revert Hl Hu. generalize (round_half_even (q * 100)). intros z Hl Hu.
  unfold Qle, Qdiv, Qmult, Qinv, inject_Z. simpl. lia.
Qed.

(** The percentage of a part [a] of [n > 0] rows lies in [[0, 100]]. *)
Lemma percentage_range (a n : nat) :
  (0 < n)%nat -> (a <= n)%nat ->
  0 <= inject_Z (Z.of_nat a) / inject_Z (Z.of_nat n) * 100 <= 100.
Proof.
  intros Hn Ha. destruct (Z.of_nat n) as [|p|p] eqn:En; [lia| |lia].
  unfold Qle, Qdiv, Qmult, Qinv, inject_Z. simpl. split; nia.
Qed.

Section WithModel.
Context `{OutlierModel}.

(** C8: A file with no line the split parser keeps makes the AI analysis
    raise [ValueError] (scikit-learn refuses an empty matrix), and its
    endpoint answer 500. *)
Theorem ai_analysis_empty content :
  SplitParser.parse_logs (Lines.read_lines content) = [] ->
  get_ai_analysis content = raise ValueError /\
  api_ai_analysis content = Error500 ValueError.
Proof.
  intros He. unfold api_ai_analysis, get_ai_analysis. rewrite He. done.
Qed.

(** C9: A level other than INFO, WARNING, ERROR and CRITICAL on a kept line
    (with every timestamp valid) makes the AI analysis raise
    [ValueError]: the level score is NaN. *)
Theorem ai_analysis_unknown_level content e :
  let entries := SplitParser.parse_logs (Lines.read_lines content) in
  In e entries -> Features.level_mapping (raw_level e) = None ->
  (forall e', In e' entries -> exists t, Datetime.to_datetime_one (raw_timestamp e') = Ok t) ->
  get_ai_analysis content = raise ValueError.
Proof.
  intros entries He Hl Hts. unfold get_ai_analysis. fold entries.
  destruct (map_result_total Datetime.to_datetime_one (List.map raw_timestamp entries))
    as [stamps Hs].
  { intros s (e' & <- & He')%List.in_map_iff. by apply Hts. }
  unfold build_frame, Datetime.to_datetime. rewrite Hs. simpl.
  set (df := zip_with _ entries stamps).
  assert (Hdf : build_frame entries = Ok df) by (unfold build_frame, Datetime.to_datetime; by rewrite Hs).
  apply build_frame_Ok in Hdf.
  destruct (Forall2_In_l _ _ _ _ Hdf He) as (r & Hr & _ & Hlev & _).
  assert (Hfp : fit_predict (Features.features df) = raise ValueError).
  { unfold fit_predict. rewrite (proj2 (check_array_Err _ ValueError)); [done|]. split; [done|]. right. exists (Features.message_length (message r)).
    apply List.in_map_iff. exists r. split; [|exact Hr].
    unfold Features.feature. by rewrite Hlev, Hl. }
  by rewrite Hfp.
Qed.

Lemma scored_outliers (df : list row) (X : list (option Z * Z)) (labels : list Z) :
  List.length df = List.length X -> List.length X = List.length labels ->
  List.length (List.filter (fun s => Z.eqb (slabel s) (-1))
    (zip_with (fun r '(x, l) => ScoredRow r x l) df (zip X labels))) = outlier_count labels.
Proof.
  revert X labels. induction df as [|r df IH]; intros [|x X] [|l labels] H1 H2;
    simpl in *; try lia; [done|].
  unfold outlier_count in *. rewrite countb_cons.
  destruct (Z.eqb l (-1)); simpl; rewrite (IH X labels) by lia; done.
Qed.

(** C6: The AI analysis reports at most [ceil((n - 1) / 10)] anomalies for
    [n] kept lines, lists at most twenty of them, all labelled [-1], and
    a percentage between 0 and 100. *)
Theorem ai_analysis_bounds content r :
  get_ai_analysis content = Ok r ->
  let n := List.length (SplitParser.parse_logs (Lines.read_lines content)) in
  (total_anomalies r <= (n - 1 + 9) / 10)%nat /\
  (List.length (ai_anomalies r) <= 20)%nat /\
  Forall (fun s => slabel s = (-1)%Z) (ai_anomalies r) /\
  0 <= anomaly_percentage r <= 100.
Proof.
  unfold get_ai_analysis. intros Hr. bind_inv.
  destruct (decide _) as [_|Hn]; [discriminate|]. apply Ok_inj in Hr as <-. cbn [total_anomalies ai_anomalies anomaly_percentage].
  pose proof (build_frame_length _ _ Ha) as Hdf.
  pose proof (fit_predict_length _ _ Ha0) as Hlab. pose proof (fit_predict_count_le _ _ Ha0) as Hb.
  rewrite Features.features_length in Hlab, Hb.
  rewrite scored_outliers by (rewrite ?Features.features_length; lia).
  repeat split.
  - by rewrite <- Hdf.
  - apply head_length.
  - apply head_Forall, List.Forall_forall. intros s Hs.
    apply List.filter_In in Hs as [_ Hs]. by apply Z.eqb_eq.
  - apply round2_range; apply percentage_range; try lia;
      (etrans; [apply List.filter_length_le|]); rewrite length_zip_with, length_zip,
      Features.features_length; lia.
  - apply round2_range; apply percentage_range; try lia;
      (etrans; [apply List.filter_length_le|]); rewrite length_zip_with, length_zip,
      Features.features_length; lia.
Qed.

End WithModel.

(** ** Concrete runs *)

Definition nl : string := String Parser.LF EmptyString.

(** The specification's scenario file. *)
Definition scenario_log : string :=
  ("2024-01-01 10:00:00 ERROR db timeout" ++ nl ++ "2024-01-01 10:00:05 ERROR db timeout" ++ nl ++
   "2024-01-01 10:00:10 ERROR db timeout" ++ nl ++ "2024-01-01 10:00:15 ERROR db timeout" ++ nl)%string.

(** A file with a malformed line, a DEBUG line and three others. *)
Definition mixed_log : string :=
  ("garbage" ++ nl ++ "2024-01-01 10:00:00 INFO service started" ++ nl ++
   "2024-01-01 10:00:03 DEBUG cache warm" ++ nl ++
   "2024-01-01 10:00:04 WARNING disk usage at 91 percent of capacity" ++ nl ++
   "2024-01-01 10:00:09 ERROR db timeout" ++ nl)%string.

Lemma basic_analysis_counts_witness :
  exists r, get_basic_analysis mixed_log = Ok r /\ total_logs r = 4%nat /\
    level_distribution r !! "DEBUG" = Some 1%nat.
Proof.
  destruct (get_basic_analysis mixed_log) as [r|e] eqn:H; [|vm_compute in H; discriminate].
  exists r. split; [reflexivity|].
  destruct (basic_analysis_counts mixed_log r H) as (H1 & H3).
  split; [rewrite H1; vm_compute; reflexivity | rewrite H3; vm_compute; reflexivity].
Defined.

Lemma ai_analysis_empty_witness :
  SplitParser.parse_logs (Lines.read_lines ("garbage" ++ nl)) = [] /\
  @api_ai_analysis length_scorer ("garbage" ++ nl) = Error500 ValueError.
Proof.
  assert (H : SplitParser.parse_logs (Lines.read_lines ("garbage" ++ nl)) = [])
    by (vm_compute; reflexivity).
  split; [exact H|]. exact (proj2 (@ai_analysis_empty length_scorer _ H)).
Defined.

Lemma ai_analysis_unknown_level_witness :
  @get_ai_analysis length_scorer mixed_log = raise ValueError.
Proof.
  apply (@ai_analysis_unknown_level length_scorer mixed_log
           (RawEntry "2024-01-01 10:00:03" "DEBUG" "cache warm")).
  - vm_compute. right. left. reflexivity.
  - reflexivity.
  - intros e' He'. vm_compute in He'.
    repeat (destruct He' as [<-|He']; [eexists; vm_compute; reflexivity|]). destruct He'.
Defined.

Lemma ai_analysis_bounds_witness :
  exists r, @get_ai_analysis length_scorer scenario_log = Ok r /\
    (total_anomalies r <= 1)%nat /\ (List.length (ai_anomalies r) <= 20)%nat.
Proof.
  destruct (@get_ai_analysis length_scorer scenario_log) as [r|e] eqn:H;
    [|vm_compute in H; discriminate].
  exists r. split; [reflexivity|].
  destruct (@ai_analysis_bounds length_scorer scenario_log r H) as (H1 & H2 & _).
  split; [exact H1 | exact H2].
Defined.

(** The specification's scenarios: four ERROR lines in 15 seconds give
    one spike of count 4; an empty file gives no row and no spike. *)
Example basic_analysis_scenarios :
  (match get_basic_analysis scenario_log with
   | Ok r => Some (anomalies r, total_logs r)
   | Err _ => None
   end) = Some ([Spike "2024-01-01 10:00:00" 4 "4 ERROR logs in 30 seconds"], 4%nat) /\
  get_basic_analysis "" = Ok (BasicResult [] 0 ∅ []).
Proof. vm_compute. split; reflexivity. Qed.

End Analysis.
