(* ===== verification/Report.v ===== *)
(** * The HTML report of [generate_anomaly_webpage]

    src/web_anomaly_display.py:7-280: the split parser, the features and
    the isolation forest of the AI analysis, then
    [df["is_anomaly"]] ("Anomaly" for label [-1], "Normal" otherwise),
    the anomalies sorted by timestamp, and a page with four statistics
    (total logs, anomalies found, anomaly rate to one decimal, analysis
    time) followed by either a table with one row per anomaly or the
    "No Anomalies Detected" block.  The page is modelled by its blocks
    and the values they display; the CSS and markup are fixed text and
    the analysis time reads the clock, so neither is modelled.  The sort
    of the anomalies is the class [SortValues]: its theorems hold for
    every sort with the contract of [sort_values], numpy's included. *)

From stdpp Require Import base list strings sorting.
From Stdlib Require Import String Ascii ZArith QArith Lia Sorted.
From S2P Require Import Prelude PyStr Parser Timestamp Frame Features Outlier Analysis.

Module Report.
Import Frame Outlier.

(** [df["is_anomaly"] = df["anomaly"].apply(lambda x: "Anomaly" if x == -1 else "Normal")]. *)
Inductive verdict := Anomaly | Normal.

#[export] Instance verdict_eq_dec : EqDecision verdict.
Proof. solve_decision. Defined.

Definition is_anomaly (x : Z) : verdict := if Z.eqb x (-1) then Anomaly else Normal.

(** [str.lower()] on ASCII. *)
Definition lower_char (c : ascii) : ascii :=
  let n := nat_of_ascii c in
  if (65 <=? n) && (n <=? 90) then ascii_of_nat (n + 32) else c.

Fixpoint py_lower (s : string) : string :=
  match s with
  | EmptyString => EmptyString
  | String c s' => String (lower_char c) (py_lower s')
  end.

(** One row of the anomaly table: timestamp, level with its CSS class
    [level-<level.lower()>], message. *)
Record table_row := TableRow {
  tr_timestamp : string;
  tr_level : string;
  tr_level_class : string;
  tr_message : string
}.

Definition render_row (r : row) : table_row :=
  TableRow (Datetime.strftime (ts r)) (level r) ("level-" ++ py_lower (level r)) (message r).

(** The blocks of the page body. *)
Inductive block :=
| Stats (total_logs : nat) (anomalies_found : nat) (anomaly_rate : Q)
| AnomalyTable (rows : list table_row)
| NoAnomalies.

(** The order of [anomalies.sort_values("timestamp")]. *)
Definition ts_le (r1 r2 : row) : Prop := (ts r1 <= ts r2)%Z.

#[export] Instance ts_le_dec : RelDecision ts_le := fun r1 r2 => Z.le_dec (ts r1) (ts r2).

#[export] Instance ts_le_total : Total ts_le.
Proof. intros r1 r2. unfold ts_le. lia. Qed.

#[export] Instance ts_le_trans : Transitive ts_le.
Proof. intros r1 r2 r3. unfold ts_le. lia. Qed.

(** [anomalies.sort_values("timestamp")]: pandas sorts the column with
    numpy's default [kind="quicksort"], an introsort that is not stable,
    so rows with equal timestamps come in an order the program does not
    fix.  The sort is the interface of its contract: a permutation of
    the rows in non-decreasing timestamp order. *)
Class SortValues := {
  sort_values_timestamp : list row -> list row;
  sort_values_perm l : sort_values_timestamp l ≡ₚ l;
  sort_values_sorted l : StronglySorted ts_le (sort_values_timestamp l)
}.

(** Two sorts that keep the contract: stdpp's stable merge sort, used
    for concrete runs, and the merge sort of the reversed rows, which
    puts rows with equal timestamps in the opposite order. *)
#[export] Instance merge_sort_values : SortValues := {|
  sort_values_timestamp := merge_sort ts_le;
  sort_values_perm := merge_sort_Permutation ts_le;
  sort_values_sorted := StronglySorted_merge_sort ts_le
|}.

Definition rev_sort_values : SortValues := {|
  sort_values_timestamp l := merge_sort ts_le (rev l);
  sort_values_perm l := Permutation_trans (merge_sort_Permutation ts_le (rev l))
                          (Permutation_sym (Permutation_rev l));
  sort_values_sorted l := StronglySorted_merge_sort ts_le (rev l)
|}.

Section WithModel.
Context `{OutlierModel} `{SortValues}.

(** The page, or the exception that stops the script. *)
Definition generate_anomaly_webpage (content : string) : result (list block) :=
  let data := SplitParser.parse_logs (Lines.read_lines content) in
  let* df := build_frame data in
  let* labels := fit_predict (Features.features df) in
  let verdicts := List.map is_anomaly labels in
  let anomalies := List.map fst (List.filter (fun p => bool_decide (p.2 = Anomaly))
                                             (zip df verdicts)) in
  let anomalies := sort_values_timestamp anomalies in
  if decide (List.length df = 0%nat) then raise ZeroDivisionError
  else
    Ok [Stats (List.length df) (List.length anomalies)
              (Analysis.round_places 1 (inject_Z (Z.of_nat (List.length anomalies)) /
                                        inject_Z (Z.of_nat (List.length df)) * 100));
        if decide (0 < List.length anomalies)%nat
        then AnomalyTable (List.map render_row anomalies)
        else NoAnomalies].

End WithModel.

(** ** Lemmas *)

Lemma anomaly_rows_length (df : list row) (labels : list Z) :
  List.length df = List.length labels ->
  List.length (List.filter (fun p => bool_decide (p.2 = Anomaly)) (zip df (List.map is_anomaly labels)))
  = outlier_count labels.
Proof.
  revert labels. induction df as [|r df IH]; intros [|l labels] Hl; simpl in *; try lia; [done|].
  unfold outlier_count in *. rewrite countb_cons.
  assert (E : bool_decide (is_anomaly l = Anomaly) = Z.eqb l (-1)).
  { unfold is_anomaly. by destruct (Z.eqb l (-1)). }
  rewrite E. destruct (Z.eqb l (-1)); simpl; rewrite (IH labels) by lia; done.
Qed.

Lemma In_zip_fst {A B} (l1 : list A) (l2 : list B) p : In p (zip l1 l2) -> In p.1 l1.
Proof.
  revert l2; induction l1 as [|x l1 IH]; intros [|y l2]; simpl; try done.
  intros [<-|Hp]; [by left | right; exact (IH _ Hp)].
Qed.

(** The rows kept by a filter over [zip df verdicts] are rows of [df]. *)
Lemma In_anomaly_rows (df : list row) (vs : list verdict) x :
  In x (List.map fst (List.filter (fun p => bool_decide (p.2 = Anomaly)) (zip df vs))) -> In x df.
Proof.
  intros (p & <- & Hp)%in_map_iff. apply filter_In in Hp as [Hp _]. exact (In_zip_fst _ _ _ Hp).
Qed.

(** ... and keep the timestamps of [df] pairwise distinct. *)
Lemma NoDup_anomaly_rows (df : list row) (vs : list verdict) :
  List.NoDup (List.map ts df) ->
  List.NoDup (List.map ts (List.map fst (List.filter (fun p => bool_decide (p.2 = Anomaly))
                                                     (zip df vs)))).
Proof.
  revert vs. induction df as [|r df IH]; intros [|v vs] Hn; simpl; try constructor.
  inversion Hn as [|? ? Hr Hn']; subst.
  destruct (bool_decide (v = Anomaly)); simpl; [|by apply IH].
  constructor; [|by apply IH].
  intros (x & Hx & Hin)%in_map_iff. apply In_anomaly_rows in Hin. apply Hr, in_map_iff. eauto.
Qed.

(** Two lists sorted by timestamp that are permutations of each other
    are equal when the timestamps are pairwise distinct. *)
Lemma sorted_perm_unique (l1 l2 : list row) :
  StronglySorted ts_le l1 -> StronglySorted ts_le l2 -> l1 ≡ₚ l2 ->
  List.NoDup (List.map ts l1) -> l1 = l2.
Proof.
  revert l2. induction l1 as [|x l1 IH]; intros l2 H1 H2 Hp Hn.
  - symmetry. by apply Permutation_nil.
  - destruct l2 as [|y l2]; [by apply Permutation_sym, Permutation_nil_cons in Hp|].
    inversion H1 as [|? ? H1' Hx]; inversion H2 as [|? ? H2' Hy]; subst.
    inversion Hn as [|? ? Hnx Hn']; subst. rewrite List.Forall_forall in Hx, Hy.
    assert (x = y) as <-.
    { destruct (decide (x = y)) as [|Hne]; [done|].
      assert (Hxl : In x l2).
      { destruct (Permutation_in x Hp (or_introl eq_refl)); [congruence | done]. }
      assert (Hyl : In y l1).
      { destruct (Permutation_in y (Permutation_sym Hp) (or_introl eq_refl)); [congruence | done]. }
      pose proof (Hx y Hyl). pose proof (Hy x Hxl). unfold ts_le in *.
      exfalso. apply Hnx, in_map_iff. exists y. split; [lia | done]. }
    f_equal. apply IH; [done | done | by apply Permutation_cons_inv in Hp | done].
Qed.

Section WithModel.
Context `{OutlierModel} `{SortValues}.

(** C23: The page: the statistics block shows the number of rows and of
    anomalies; the anomalies are the rows labelled [-1], in timestamp
    order; the table appears exactly when there is at least one. *)
Theorem report_page content blocks :
  generate_anomaly_webpage content = Ok blocks ->
  exists df labels anomalies rate,
    build_frame (SplitParser.parse_logs (Lines.read_lines content)) = Ok df /\
    fit_predict (Features.features df) = Ok labels /\
    Sorted ts_le anomalies /\
    anomalies ≡ₚ List.map fst (List.filter (fun p => bool_decide (p.2 = Anomaly))
                                           (zip df (List.map is_anomaly labels))) /\
    List.length anomalies = outlier_count labels /\
    blocks = [Stats (List.length df) (List.length anomalies) rate;
              if decide (List.length anomalies = 0%nat) then NoAnomalies
              else AnomalyTable (List.map render_row anomalies)].
Proof.
  unfold generate_anomaly_webpage. intros Hg. bind_inv.
  destruct (decide _) as [_|Hn]; [discriminate|]. apply Ok_inj in Hg as <-.
  set (an := List.map fst _).
  pose proof (build_frame_length _ _ Ha) as Hdf.
  pose proof (fit_predict_length _ _ Ha0) as Hlab.
  rewrite Features.features_length in Hlab.
  assert (Hlen : List.length (sort_values_timestamp an) = outlier_count a0).
  { rewrite (Permutation_length (sort_values_perm an)).
    unfold an. rewrite List.length_map. apply anomaly_rows_length. lia. }
  exists a, a0, (sort_values_timestamp an). eexists. split; [exact Ha|]. split; [exact Ha0|].
  split; [apply StronglySorted_Sorted, sort_values_sorted|].
  split; [apply sort_values_perm|]. split; [exact Hlen|].
  do 2 f_equal. destruct (decide (0 < List.length (sort_values_timestamp an))%nat),
    (decide (List.length (sort_values_timestamp an) = 0%nat)); done || lia.
Qed.

End WithModel.

Section SortIndependence.
Context `{OutlierModel}.

(** The page does not depend on how the sort orders equal
    timestamps: for two sorts that keep the contract of [sort_values],
    the pages are the same when the rows have pairwise distinct
    timestamps. *)
Theorem report_sort_independent (S1 S2 : SortValues) content df :
  build_frame (SplitParser.parse_logs (Lines.read_lines content)) = Ok df ->
  List.NoDup (List.map ts df) ->
  @generate_anomaly_webpage _ S1 content = @generate_anomaly_webpage _ S2 content.
Proof.
  intros Hdf Hn. unfold generate_anomaly_webpage. rewrite Hdf. simpl.
  destruct (fit_predict (Features.features df)) as [labels|e]; [simpl|done].
  set (an := List.map fst _).
  assert (Hna : List.NoDup (List.map ts (@sort_values_timestamp S1 an))).
  { eapply Permutation_NoDup; [apply Permutation_map; symmetry; apply sort_values_perm|].
    by apply NoDup_anomaly_rows. }
  assert (E : @sort_values_timestamp S1 an = @sort_values_timestamp S2 an).
  { apply sorted_perm_unique; [apply sort_values_sorted .. | | done].
    by rewrite !sort_values_perm. }
  by rewrite E.
Qed.

End SortIndependence.

(** ** Concrete runs *)

(** On the specification's scenario, the four lines have the same level
    and message length: the report finds no anomaly. *)
Example report_scenario :
  @generate_anomaly_webpage length_scorer _ Analysis.scenario_log =
  Ok [Stats 4 0 (0 # 10); NoAnomalies].
Proof. vm_compute. reflexivity. Qed.

(** Eleven INFO lines whose messages have lengths 1 to 11. *)
Definition varied_log : string :=
  List.fold_right (fun i acc =>
    ("2024-01-01 10:00:" ++ Datetime.pad 2 (Z.of_nat i) ++ " INFO " ++
     String.concat "" (List.repeat "m" (S i)) ++ Analysis.nl ++ acc)%string)
    EmptyString (seq 0 11).

Lemma report_page_witness :
  exists blocks, @generate_anomaly_webpage length_scorer _ varied_log = Ok blocks /\
    exists anomalies, Sorted ts_le anomalies /\ List.length anomalies = 1%nat.
Proof.
  destruct (@generate_anomaly_webpage length_scorer _ varied_log) as [blocks|e] eqn:Hg;
    [|vm_compute in Hg; discriminate].
  exists blocks. split; [reflexivity|].
  destruct (@report_page length_scorer _ _ _ Hg) as (df & labels & an & rate & Hbf & Hfp & Hs & _ & Hl & _).
  exists an. split; [exact Hs|]. rewrite Hl.
  vm_compute in Hbf. apply Ok_inj in Hbf. subst df.
  vm_compute in Hfp. apply Ok_inj in Hfp. subst labels. reflexivity.
Defined.

Lemma report_sort_independent_witness :
  exists df, build_frame (SplitParser.parse_logs (Lines.read_lines varied_log)) = Ok df /\
    List.NoDup (List.map ts df) /\
    @generate_anomaly_webpage length_scorer merge_sort_values varied_log =
    @generate_anomaly_webpage length_scorer rev_sort_values varied_log.
Proof.
  destruct (build_frame (SplitParser.parse_logs (Lines.read_lines varied_log))) as [df|e] eqn:Hdf;
    [|vm_compute in Hdf; discriminate].
  assert (Hn : List.NoDup (List.map ts df)).
  { vm_compute in Hdf. apply Ok_inj in Hdf. subst df. cbn.
    repeat constructor; intros Hin; repeat (destruct Hin as [Hin|Hin]; [discriminate|]); exact Hin. }
  exists df. split; [reflexivity|]. split; [exact Hn|].
  exact (@report_sort_independent length_scorer merge_sort_values rev_sort_values _ _ Hdf Hn).
Defined.

(** Ten short lines and two long messages at the same second. *)
Definition tie_log : string :=
  (String.concat "" (List.map (fun i => "2024-01-01 10:00:0" ++ Datetime.pad 1 (Z.of_nat i) ++
                                        " INFO ok" ++ Analysis.nl) (seq 0 10)) ++
   "2024-01-01 10:00:30 INFO aaaaaaaaaa" ++ Analysis.nl ++
   "2024-01-01 10:00:30 INFO bbbbbbbbbb" ++ Analysis.nl)%string.

(** With equal timestamps the contract of the sort leaves the order of
    the two anomalies open, and two sorts that keep it give two pages. *)
Example tie_order_differs :
  @generate_anomaly_webpage length_scorer merge_sort_values tie_log <>
  @generate_anomaly_webpage length_scorer rev_sort_values tie_log.
Proof. vm_compute. congruence. Qed.

End Report.
