(* ===== verification/ReportHtml.v ===== *)
(** * The HTML text of the report: src/web_anomaly_display.py:42-280

    [generate_anomaly_webpage] builds the page as one string: a first
    f-string (lines 42-221: the document head with its CSS, the header
    and the four statistic cards, with [len(df)], [len(anomalies)], the
    rate with [:.1f] and the clock [%H:%M]), then either the table
    (lines 224-252: the header, one f-string per anomaly row, the end)
    or the no-anomaly block (lines 254-259), then the footer f-string
    (lines 261-271, with the clock again).  It writes the page to
    [anomaly_results.html], prints two lines and returns the file name
    (lines 273-280).

    The literal text of the f-strings is copied into [head_0] ...
    [foot_1] ([{{] and [}}] of the source are the braces [{] and [}]
    of the text; a double quote is [DQ]).  [block_html] renders a
    block of [Report], [page_html] the page, [webpage_script] the run of
    the script.  [datetime.now()] is an input ([clock]), seen through the
    two strings the page prints.  The theorems show that the message of
    every anomaly is inserted verbatim, unescaped, so a log line can
    inject markup into the page, and what the script prints. *)

From stdpp Require Import base list sorting.
From Stdlib Require Import String Ascii ZArith QArith Lia.
From S2P Require Import Prelude PyStr PyInt Parser Timestamp Frame Features Outlier Analysis Report.
Import PyStr PyInt Frame Outlier Report.

Module ReportHtml.

Definition DQ : string := String "034" EmptyString.

(** Lines 42-221, piece 0 of the first f-string. *)
Definition head_0 : string :=
  ("
    <!DOCTYPE html>
    <html lang=" ++ DQ ++ "en" ++ DQ ++ ">
    <head>
        <meta charset=" ++ DQ ++ "UTF-8" ++ DQ ++ ">
        <meta name=" ++ DQ ++ "viewport" ++ DQ ++ " content=" ++ DQ ++ "width=device-width, initial-scale=1.0" ++ DQ ++ ">
        <title>AIOps Log Anomaly Detection Results</title>
        <style>
            body {
                font-family: 'Segoe UI', Tahoma, Geneva, Verdana, sans-serif;
                margin: 0;
                padding: 20px;
                background: linear-gradient(135deg, #667eea 0%, #764ba2 100%);
                min-height: 100vh;
            }
            .container {
                max-width: 1200px;
                margin: 0 auto;
                background: white;
                border-radius: 15px;
                box-shadow: 0 20px 40px rgba(0,0,0,0.1);
                overflow: hidden;
            }
            .header {
                background: linear-gradient(135deg, #ff6b6b, #ee5a24);
                color: white;
                padding: 30px;
                text-align: center;
            }
            .header h1 {
                margin: 0;
                font-size: 2.5em;
                font-weight: 300;
            }
            .header p {
                margin: 10px 0 0 0;
                opacity: 0.9;
                font-size: 1.1em;
            }
            .stats {
                display: flex;
                justify-content: space-around;
                padding: 30px;
                background: #f8f9fa;
                border-bottom: 1px solid #e9ecef;
            }
            .stat-card {
                text-align: center;
                padding: 20px;
                background: white;
                border-radius: 10px;
                box-shadow: 0 5px 15px rgba(0,0,0,0.08);
                min-width: 150px;
            }
            .stat-number {
                font-size: 2.5em;
                font-weight: bold;
                color: #ff6b6b;
                margin-bottom: 5px;
            }
            .stat-label {
                color: #666;
                font-size: 0.9em;
                text-transform: uppercase;
                letter-spacing: 1px;
            }
            .content {
                padding: 30px;
            }
            .anomaly-table {
                width: 100%;
                border-collapse: collapse;
                margin-top: 20px;
                background: white;
                border-radius: 10px;
                overflow: hidden;
                box-shadow: 0 5px 15px rgba(0,0,0,0.08);
            }
            .anomaly-table th {
                background: linear-gradient(135deg, #667eea, #764ba2);
                color: white;
                padding: 15px;
                text-align: left;
                font-weight: 600;
                text-transform: uppercase;
                letter-spacing: 1px;
                font-size: 0.9em;
            }
            .anomaly-table td {
                padding: 15px;
                border-bottom: 1px solid #f1f3f4;
                vertical-align: top;
            }
            .anomaly-table tr:hover {
                background-color: #f8f9fa;
            }
            .level-badge {
                padding: 5px 12px;
                border-radius: 20px;
                font-size: 0.8em;
                font-weight: bold;
                text-transform: uppercase;
                letter-spacing: 1px;
            }
            .level-warning {
                background: #fff3cd;
                color: #856404;
            }
            .level-error {
                background: #f8d7da;
                color: #721c24;
            }
            .level-critical {
                background: #d1ecf1;
                color: #0c5460;
            }
            .level-info {
                background: #d4edda;
                color: #155724;
            }
            .timestamp {
                font-family: 'Courier New', monospace;
                font-size: 0.9em;
                color: #666;
            }
            .message {
                max-width: 400px;
                word-wrap: break-word;
                line-height: 1.4;
            }
            .anomaly-icon {
                font-size: 1.2em;
                color: #ff6b6b;
            }
            .footer {
                text-align: center;
                padding: 20px;
                background: #f8f9fa;
                color: #666;
                border-top: 1px solid #e9ecef;
            }
            .no-anomalies {
                text-align: center;
                padding: 60px 20px;
                color: #28a745;
            }
            .no-anomalies h3 {
                font-size: 1.5em;
                margin-bottom: 10px;
            }
        </style>
    </head>
    <body>
        <div class=" ++ DQ ++ "container" ++ DQ ++ ">
            <div class=" ++ DQ ++ "header" ++ DQ ++ ">
                <h1>🔍 AIOps Log Anomaly Detection</h1>
                <p>AI-Powered Log Analysis Results</p>
            </div>
            
            <div class=" ++ DQ ++ "stats" ++ DQ ++ ">
                <div class=" ++ DQ ++ "stat-card" ++ DQ ++ ">
                    <div class=" ++ DQ ++ "stat-number" ++ DQ ++ ">")%string.

(** Lines 42-221, piece 1 of the first f-string. *)
Definition head_1 : string :=
  ("</div>
                    <div class=" ++ DQ ++ "stat-label" ++ DQ ++ ">Total Logs</div>
                </div>
                <div class=" ++ DQ ++ "stat-card" ++ DQ ++ ">
                    <div class=" ++ DQ ++ "stat-number" ++ DQ ++ ">")%string.

(** Lines 42-221, piece 2 of the first f-string. *)
Definition head_2 : string :=
  ("</div>
                    <div class=" ++ DQ ++ "stat-label" ++ DQ ++ ">Anomalies Found</div>
                </div>
                <div class=" ++ DQ ++ "stat-card" ++ DQ ++ ">
                    <div class=" ++ DQ ++ "stat-number" ++ DQ ++ ">")%string.

(** Lines 42-221, piece 3 of the first f-string. *)
Definition head_3 : string :=
  ("%</div>
                    <div class=" ++ DQ ++ "stat-label" ++ DQ ++ ">Anomaly Rate</div>
                </div>
                <div class=" ++ DQ ++ "stat-card" ++ DQ ++ ">
                    <div class=" ++ DQ ++ "stat-number" ++ DQ ++ ">")%string.

(** Lines 42-221, piece 4 of the first f-string. *)
Definition head_4 : string :=
  ("</div>
                    <div class=" ++ DQ ++ "stat-label" ++ DQ ++ ">Analysis Time</div>
                </div>
            </div>
            
            <div class=" ++ DQ ++ "content" ++ DQ ++ ">
    ")%string.

(** Lines 224-236: the table header. *)
Definition table_open : string :=
  ("
                <h2>🚨 Detected Anomalies</h2>
                <table class=" ++ DQ ++ "anomaly-table" ++ DQ ++ ">
                    <thead>
                        <tr>
                            <th>Timestamp</th>
                            <th>Level</th>
                            <th>Message</th>
                            <th>Status</th>
                        </tr>
                    </thead>
                    <tbody>
        ")%string.

(** Lines 240-247, piece 0 of a table row. *)
Definition row_0 : string :=
  ("
                        <tr>
                            <td class=" ++ DQ ++ "timestamp" ++ DQ ++ ">")%string.

(** Lines 240-247, piece 1 of a table row. *)
Definition row_1 : string :=
  ("</td>
                            <td><span class=" ++ DQ ++ "level-badge ")%string.

(** Lines 240-247, piece 2 of a table row. *)
Definition row_2 : string :=
  (DQ ++ ">")%string.

(** Lines 240-247, piece 3 of a table row. *)
Definition row_3 : string :=
  ("</span></td>
                            <td class=" ++ DQ ++ "message" ++ DQ ++ ">")%string.

(** Lines 240-247, piece 4 of a table row. *)
Definition row_4 : string :=
  ("</td>
                            <td><span class=" ++ DQ ++ "anomaly-icon" ++ DQ ++ ">⚠️</span> Anomaly</td>
                        </tr>
            ")%string.

(** Lines 249-252: the end of the table. *)
Definition table_close : string :=
  ("
                    </tbody>
                </table>
        ")%string.

(** Lines 254-259: the no-anomaly block. *)
Definition no_anomalies_html : string :=
  ("
                <div class=" ++ DQ ++ "no-anomalies" ++ DQ ++ ">
                    <h3>✅ No Anomalies Detected</h3>
                    <p>All logs appear to be within normal parameters.</p>
                </div>
        ")%string.

(** Lines 261-271, piece 0 of the footer. *)
Definition foot_0 : string :=
  ("
            </div>
            
            <div class=" ++ DQ ++ "footer" ++ DQ ++ ">
                <p>Generated on ")%string.

(** Lines 261-271, piece 1 of the footer. *)
Definition foot_1 : string :=
  (" | 
                Powered by Isolation Forest ML Algorithm</p>
            </div>
        </div>
    </body>
    </html>
    ")%string.

(** [datetime.now()] through the two formats the page prints:
    [strftime('%H:%M')] and [strftime('%Y-%m-%d at %H:%M:%S')]. *)
Record clock := Clock {
  now_hm : string;
  now_stamp : string
}.

(** [f"{x:.1f}"] of a non-negative number with one decimal: the integer
    part, a dot, the tenths digit. *)
Definition format_1f (q : Q) : string :=
  let z := Analysis.round_half_even (q * 10) in
  (py_str (z / 10) ++ "." ++ py_str (z mod 10))%string.

Definition stats_html (clk : clock) (total anomalies : nat) (rate : Q) : string :=
  (head_0 ++ py_str (Z.of_nat total) ++ head_1 ++ py_str (Z.of_nat anomalies) ++ head_2 ++
   format_1f rate ++ head_3 ++ now_hm clk ++ head_4)%string.

(** One anomaly row (lines 240-247). *)
Definition row_html (r : table_row) : string :=
  (row_0 ++ tr_timestamp r ++ row_1 ++ tr_level_class r ++ row_2 ++ tr_level r ++ row_3 ++
   tr_message r ++ row_4)%string.

Definition block_html (clk : clock) (b : block) : string :=
  match b with
  | Stats total anomalies rate => stats_html clk total anomalies rate
  | AnomalyTable rows => (table_open ++ String.concat "" (List.map row_html rows) ++ table_close)%string
  | NoAnomalies => no_anomalies_html
  end.

Definition footer_html (clk : clock) : string := (foot_0 ++ now_stamp clk ++ foot_1)%string.

(** [html_content]. *)
Definition page_html (clk : clock) (blocks : list block) : string :=
  (String.concat "" (List.map (block_html clk) blocks) ++ footer_html clk)%string.

Definition OUTPUT_FILE : string := "anomaly_results.html".

(** What a run of the script leaves: the file written, the lines
    printed, the value returned. *)
Record script_run := ScriptRun {
  written : string;
  printed : list string;
  returned : string
}.

Section WithModel.
Context `{OutlierModel} `{SortValues}.

(** Lines 273-280 after the page is built; the counts are those of the
    statistics block, the first block of every page. *)
Definition webpage_script (clk : clock) (content : string) : result script_run :=
  let* blocks := generate_anomaly_webpage content in
  let html := page_html clk blocks in
  match blocks with
  | Stats total anomalies _ :: _ =>
      Ok (ScriptRun html
            [("✅ Anomaly detection webpage generated: " ++ OUTPUT_FILE)%string;
             ("📊 Found " ++ py_str (Z.of_nat anomalies) ++ " anomalies out of " ++
              py_str (Z.of_nat total) ++ " total logs")%string]
            OUTPUT_FILE)
  | _ => Ok (ScriptRun html [] OUTPUT_FILE)
  end.

End WithModel.

(** ** Lemmas *)

(** [a] occurs in [b]. *)
Definition occurs (a b : string) : Prop := exists p q, b = (p ++ a ++ q)%string.

Lemma occurs_trans a b c : occurs a b -> occurs b c -> occurs a c.
Proof.
  intros (p & q & ->) (p' & q' & ->). exists (p' ++ p)%string, (q ++ q')%string.
  by rewrite !string_app_assoc.
Qed.

Lemma occurs_app_l a b c : occurs a b -> occurs a (b ++ c).
Proof. intros (p & q & ->). exists p, (q ++ c)%string. by rewrite !string_app_assoc. Qed.

Lemma concat_empty_cons x l : String.concat "" (x :: l) = (x ++ String.concat "" l)%string.
Proof. destruct l; simpl; [by rewrite string_app_nil_r | done]. Qed.

Lemma concat_map_occurs {A} (f : A -> string) l x :
  In x l -> occurs (f x) (String.concat "" (List.map f l)).
Proof.
  induction l as [|y l IH]; intros Hx; [done|]. cbn [List.map]. rewrite concat_empty_cons.
  destruct Hx as [->|Hx].
  - exists EmptyString, (String.concat "" (List.map f l)). done.
  - destruct (IH Hx) as (p & q & Hq). exists (f y ++ p)%string, q.
    by rewrite Hq, string_app_assoc.
Qed.

(** The message cell of a row is in the row. *)
Lemma row_message_occurs r : occurs (row_3 ++ tr_message r ++ row_4) (row_html r).
Proof.
  exists (row_0 ++ tr_timestamp r ++ row_1 ++ tr_level_class r ++ row_2 ++ tr_level r)%string, EmptyString.
  unfold row_html. rewrite !string_app_assoc, string_app_nil_r. reflexivity.
Qed.

Lemma page_row_occurs clk blocks rows r :
  In (AnomalyTable rows) blocks -> In r rows -> occurs (row_html r) (page_html clk blocks).
Proof.
  intros Hb Hr. unfold page_html. apply occurs_app_l.
  apply (occurs_trans _ (block_html clk (AnomalyTable rows))); [|by apply concat_map_occurs].
  simpl. destruct (concat_map_occurs row_html rows r Hr) as (p & q & Hq).
  exists (table_open ++ p)%string, (q ++ table_close)%string. rewrite Hq. by rewrite !string_app_assoc.
Qed.

Section WithModel.
Context `{OutlierModel} `{SortValues}.

(** What [generate_anomaly_webpage] builds, with the anomalies drawn from
    the rows of the frame. *)
Lemma generate_Ok_rows content blocks :
  generate_anomaly_webpage content = Ok blocks ->
  exists df labels an rate,
    build_frame (SplitParser.parse_logs (Lines.read_lines content)) = Ok df /\
    fit_predict (Features.features df) = Ok labels /\
    List.length an = outlier_count labels /\ (forall x, In x an -> In x df) /\
    blocks = [Stats (List.length df) (List.length an) rate;
              if decide (0 < List.length an)%nat then AnomalyTable (List.map render_row an)
              else NoAnomalies].
Proof.
  unfold generate_anomaly_webpage. intros Hg. bind_inv.
  destruct (decide _) as [_|Hn]; [discriminate|]. apply Ok_inj in Hg as <-.
  set (an := List.map fst _).
  pose proof (build_frame_length _ _ Ha) as Hdf.
  pose proof (fit_predict_length _ _ Ha0) as Hlab. rewrite Features.features_length in Hlab.
  exists a, a0, (sort_values_timestamp an). eexists.
  split; [exact Ha|]. split; [exact Ha0|]. split.
  { rewrite (Permutation_length (sort_values_perm an)).
    unfold an. rewrite List.length_map. apply anomaly_rows_length. lia. }
  split; [|reflexivity].
  intros x Hx. apply (Permutation_in _ (sort_values_perm an)) in Hx.
  exact (In_anomaly_rows _ _ _ Hx).
Qed.

(** C24: The message of every row in the anomaly table is copied into
    the page verbatim, between [<td class="message">] and [</td>]: it is
    the raw log text of a row of the frame, not escaped, so markup in a
    log message becomes markup of the page. *)
Theorem anomaly_message_unescaped clk content blocks rows tr :
  generate_anomaly_webpage content = Ok blocks -> In (AnomalyTable rows) blocks -> In tr rows ->
  exists df x,
    build_frame (SplitParser.parse_logs (Lines.read_lines content)) = Ok df /\ In x df /\
    tr = render_row x /\ occurs (row_3 ++ message x ++ row_4) (page_html clk blocks).
Proof.
  intros Hg Hb Htr. destruct (generate_Ok_rows _ _ Hg) as (df & labels & an & rate & Hdf & _ & _ & Han & ->).
  exists df. destruct (decide _); simpl in Hb; destruct Hb as [Hb|[Hb|[]]]; try discriminate.
  injection Hb as <-. apply in_map_iff in Htr as (x & <- & Hx).
  exists x. split; [exact Hdf|]. split; [by apply Han|]. split; [done|].
  eapply occurs_trans; [apply (row_message_occurs (render_row x))|].
  apply (page_row_occurs _ _ (List.map render_row an)); [by right; left | by apply in_map].
Qed.

(** C25: The script writes the page, returns the file name and prints
    the number of rows labelled [-1] and the number of rows. *)
Theorem webpage_script_output clk content run :
  webpage_script clk content = Ok run ->
  exists df labels blocks,
    build_frame (SplitParser.parse_logs (Lines.read_lines content)) = Ok df /\
    fit_predict (Features.features df) = Ok labels /\
    generate_anomaly_webpage content = Ok blocks /\
    written run = page_html clk blocks /\ returned run = OUTPUT_FILE /\
    printed run =
      [("✅ Anomaly detection webpage generated: " ++ OUTPUT_FILE)%string;
       ("📊 Found " ++ py_str (Z.of_nat (outlier_count labels)) ++ " anomalies out of " ++
        py_str (Z.of_nat (List.length df)) ++ " total logs")%string].
Proof.
  unfold webpage_script. destruct (generate_anomaly_webpage content) as [blocks|e] eqn:Hg; [|discriminate].
  simpl. destruct (generate_Ok_rows _ _ Hg) as (df & labels & an & rate & Hdf & Hfp & Hl & _ & ->).
  intros Hr. apply Ok_inj in Hr. subst run.
  eexists df, labels, _. split; [exact Hdf|]. split; [exact Hfp|]. split; [reflexivity|].
  simpl. rewrite Hl. by repeat split.
Qed.

End WithModel.

(** ** Concrete runs *)

Definition clock0 : clock := Clock "10:05" "2024-01-01 at 10:05:00".

(** Ten short INFO lines and one whose message is a script element. *)
Definition injection_log : string :=
  (String.concat "" (List.map (fun i => "2024-01-01 10:00:0" ++ Datetime.pad 1 (Z.of_nat i) ++
                                        " INFO ok" ++ Analysis.nl) (seq 0 10)) ++
   "2024-01-01 10:00:10 INFO <script>alert(1)</script>" ++ Analysis.nl)%string.

Definition injected_row : table_row :=
  TableRow "2024-01-01 10:00:10" "INFO" "level-info" "<script>alert(1)</script>".

Definition injection_blocks : list block := [Stats 11 1 (91 # 10); AnomalyTable [injected_row]].

Lemma anomaly_message_unescaped_witness :
  @generate_anomaly_webpage length_scorer _ injection_log = Ok injection_blocks /\
  exists df x,
    build_frame (SplitParser.parse_logs (Lines.read_lines injection_log)) = Ok df /\ In x df /\
    injected_row = render_row x /\ occurs (row_3 ++ message x ++ row_4) (page_html clock0 injection_blocks).
Proof.
  assert (H : @generate_anomaly_webpage length_scorer _ injection_log = Ok injection_blocks)
    by (vm_compute; reflexivity).
  split; [exact H|].
  exact (@anomaly_message_unescaped length_scorer _ clock0 _ _ [injected_row] _ H
           (or_intror (or_introl eq_refl)) (or_introl eq_refl)).
Defined.

Lemma webpage_script_output_witness :
  exists run, @webpage_script length_scorer _ clock0 injection_log = Ok run /\
  exists df labels blocks,
    build_frame (SplitParser.parse_logs (Lines.read_lines injection_log)) = Ok df /\
    @fit_predict length_scorer (Features.features df) = Ok labels /\
    @generate_anomaly_webpage length_scorer _ injection_log = Ok blocks /\
    written run = page_html clock0 blocks /\ returned run = OUTPUT_FILE /\
    printed run =
      [("✅ Anomaly detection webpage generated: " ++ OUTPUT_FILE)%string;
       ("📊 Found " ++ py_str (Z.of_nat (outlier_count labels)) ++ " anomalies out of " ++
        py_str (Z.of_nat (List.length df)) ++ " total logs")%string].
Proof.
  destruct (@webpage_script length_scorer _ clock0 injection_log) as [run|e] eqn:Hr;
    [|vm_compute in Hr; discriminate].
  exists run. split; [reflexivity|]. exact (@webpage_script_output length_scorer _ _ _ _ Hr).
Defined.

(** On that file the page holds the script element as markup, in
    the message cell, and the script prints one anomaly out of eleven
    rows. *)
Example injection_page :
  match @webpage_script length_scorer _ clock0 injection_log with
  | Ok run =>
      py_contains ("<td class=" ++ DQ ++ "message" ++ DQ ++ "><script>alert(1)</script></td>")
                  (written run) = true /\
      printed run = ["✅ Anomaly detection webpage generated: anomaly_results.html";
                     "📊 Found 1 anomalies out of 11 total logs"]%string
  | Err _ => False
  end.
Proof. vm_compute. split; reflexivity. Qed.

End ReportHtml.
