(* ===== verification/Server.v ===== *)
(** * The static web server: src/serve_webpage.py

    The script reads an optional port from the command line
    ([port = int(sys.argv[1])], the default 8000 when it is missing or
    [int] raises [ValueError]), then [serve_webpage(port)]: it returns
    with a message when [anomaly_results.html] does not exist, else
    binds a [socketserver.TCPServer] to the port, prints the URLs, tries
    to open a browser and serves until a [KeyboardInterrupt]; an
    [OSError] of the bind is reported, with a suggested port when the
    address is in use.

    Module [Server] (with [int] and [str] of [PyInt]): the operating
    system as a record [env] (does the file exist, what does [bind]
    answer), the process as a state machine [state] with one [step] per
    stage of the script and the printed lines as its output; [run]
    executes a sequence of inputs (a request served, or Ctrl+C), and
    [steps] is the step relation. *)

From stdpp Require Import base list.
From Stdlib Require Import String Ascii ZArith Lia DecimalString DecimalPos DecimalN.
From S2P Require Import Prelude PyStr PyInt.
Import PyStr.

Module Server.
Import PyInt.
Local Open Scope Z_scope.

Definition DEFAULT_PORT : Z := 8000.
Definition HTML_FILE : string := "anomaly_results.html"%string.

(** What the operating system answers: whether [anomaly_results.html]
    exists in the script's directory (after [os.chdir], line 13), and
    what [socket.bind(("", port))] does for a port in [0..65535]:
    [None] when it binds, [Some msg] for an [OSError] whose [str(e)] is
    [msg].  A port outside that range never reaches the system call:
    CPython raises [OverflowError] ("bind(): port must be 0-65535"). *)
Record env := Env {
  html_exists : bool;
  bind_error : Z -> option string
}.

(** How the process ends: normally, or with an exception that no
    [except] clause catches (a traceback and exit status 1). *)
Inductive exit_status := Clean | Uncaught (e : py_error).

(** The stages of the script. *)
Inductive state :=
| Main (argv : list string)     (* the [__main__] block, line 46 *)
| Serve (port : Z)              (* [serve_webpage(port)], line 8 *)
| Listening (port : Z)          (* in [httpd.serve_forever()], line 35 *)
| Exited (st : exit_status).

(** What happens while the server runs: a request is served, or the
    user presses Ctrl+C ([KeyboardInterrupt]). *)
Inductive input := Request | CtrlC.

Definition INVALID_PORT : string := "Invalid port number. Using default port 8000."%string.

(** Lines 47-52: the port of the command line, or 8000. *)
Definition choose_port (argv : list string) : list string * Z :=
  match argv with
  | _ :: arg :: _ =>
      match py_int arg with
      | Ok p => ([], p)
      | Err _ => ([INVALID_PORT], DEFAULT_PORT)
      end
  | _ => ([], DEFAULT_PORT)
  end.

Definition url (port : Z) : string := ("http://localhost:" ++ py_str port)%string.

Definition serving_lines (port : Z) : list string :=
  ["🌐 Serving anomaly detection webpage at " ++ url port;
   "📄 Direct link: " ++ url port ++ "/anomaly_results.html";
   "Press Ctrl+C to stop the server"]%string.

Definition missing_lines : list string :=
  ["❌ Error: anomaly_results.html not found!";
   "Please run 'python3 web_anomaly_display.py' first to generate the webpage."]%string.

Definition in_use_lines (port : Z) : list string :=
  ["❌ Port " ++ py_str port ++ " is already in use. Try a different port:";
   "python3 serve_webpage.py " ++ py_str (port + 1)]%string.

Definition port_in_range (port : Z) : bool := (0 <=? port) && (port <=? 65535).

(** Lines 13-44, one stage at a time.  The browser call (lines 30-33)
    prints nothing and any exception it raises is swallowed, so it has
    no observable effect. *)
Definition step (E : env) (i : input) (s : state) : list string * state :=
  match s with
  | Main argv => let (out, port) := choose_port argv in (out, Serve port)
  | Serve port =>
      if negb (html_exists E) then (missing_lines, Exited Clean)
      else if negb (port_in_range port) then ([], Exited (Uncaught OverflowError))
      else match bind_error E port with
           | None => (serving_lines port, Listening port)
           | Some msg =>
               if py_contains "Address already in use"%string msg then (in_use_lines port, Exited Clean)
               else (["❌ Error starting server: " ++ msg]%string, Exited Clean)
           end
  | Listening port =>
      match i with
      | Request => ([], Listening port)
      | CtrlC => ([String "010" "🛑 Server stopped."]%string, Exited Clean)
      end
  | Exited st => ([], Exited st)
  end.

(** A run: one step per input, the printed lines in order. *)
Fixpoint run (E : env) (ins : list input) (s : state) : list string * state :=
  match ins with
  | [] => ([], s)
  | i :: ins' =>
      let (out1, s1) := step E i s in
      let (out2, s2) := run E ins' s1 in (out1 ++ out2, s2)
  end.

(** The step relation: [s] goes to [s'] printing [out], for some input. *)
Inductive steps (E : env) : state -> list string -> state -> Prop :=
| steps_refl s : steps E s [] s
| steps_step s i out1 s1 out2 s2 :
    step E i s = (out1, s1) -> steps E s1 out2 s2 -> steps E s (out1 ++ out2) s2.

(** Whether a step is [serve_forever] handling a request, the one loop
    of the script that is meant not to end, and whether the process has
    ended. *)
Definition serves_request (s : state) (i : input) : bool :=
  match s, i with
  | Listening _, Request => true
  | _, _ => false
  end.

Definition ended (s : state) : bool :=
  match s with
  | Exited _ => true
  | _ => false
  end.

(** Every step of a running process other than serving a request,
    whether it changes the state or not. *)
Definition changes (E : env) (s' s : state) : Prop :=
  exists i out, step E i s = (out, s') /\ ended s = false /\ serves_request s i = false.

(** How far the script is from its end. *)
Definition stage (s : state) : nat :=
  match s with
  | Main _ => 3
  | Serve _ => 2
  | Listening _ => 1
  | Exited _ => 0
  end.

(** ** Lemmas *)

(** What a state may be, once the script has chosen [port] from
    [argv]: the invariant of a run. *)
Definition reachable_inv (E : env) (argv : list string) (s : state) : Prop :=
  match s with
  | Main argv' => argv' = argv
  | Serve port => port = snd (choose_port argv)
  | Listening port =>
      port = snd (choose_port argv) /\ html_exists E = true /\
      port_in_range port = true /\ bind_error E port = None
  | Exited _ => True
  end.

Lemma step_inv E argv i s out s' :
  reachable_inv E argv s -> step E i s = (out, s') -> reachable_inv E argv s'.
Proof.
  destruct s as [argv'|port|port|st]; simpl.
  - intros Heq; subst argv'. destruct (choose_port argv) as [o p] eqn:Hc. intros [= <- <-]. simpl. by rewrite Hc.
  - intros ->. destruct (html_exists E) eqn:Hh; simpl; [|by intros [= <- <-]].
    destruct (port_in_range _) eqn:Hr; simpl; [|by intros [= <- <-]].
    destruct (bind_error E _) as [msg|] eqn:Hb; [|by intros [= <- <-]].
    by destruct (py_contains _ msg); intros [= <- <-].
  - intros Hinv. by destruct i; intros [= <- <-].
  - by intros _ [= <- <-].
Qed.

(** Once listening or exited, a run stays listening on the same port
    or exits. *)
Definition settled (port : Z) (s : state) : Prop :=
  s = Listening port \/ exists st, s = Exited st.

Lemma run_settled E port ins s :
  settled port s -> settled port (snd (run E ins s)).
Proof.
  revert s; induction ins as [|i ins IH]; intros s Hs; simpl; [done|].
  destruct (step E i s) as [o1 s1] eqn:H1.
  assert (settled port s1) as Hs1.
  { destruct Hs as [->|[st ->]]; simpl in H1.
    - destruct i; injection H1 as <- <-; [by left | right; eauto].
    - injection H1 as <- <-. right; eauto. }
  specialize (IH s1 Hs1). destruct (run E ins s1). exact IH.
Qed.

Lemma run_app E ins1 ins2 s :
  run E (ins1 ++ ins2) s =
  let (o1, s1) := run E ins1 s in let (o2, s2) := run E ins2 s1 in (o1 ++ o2, s2).
Proof.
  revert s; induction ins1 as [|i ins IH]; intros s; simpl.
  - by destruct (run E ins2 s).
  - destruct (step E i s) as [o1 s1]. rewrite IH.
    destruct (run E ins s1) as [o2 s2]. destruct (run E ins2 s2). by rewrite app_assoc.
Qed.

(** The first two steps of any run leave [Main]: the script is then
    serving or has ended. *)
Lemma run_two_settled E argv i1 i2 :
  settled (snd (choose_port argv)) (snd (run E [i1; i2] (Main argv))).
Proof.
  simpl. destruct (choose_port argv) as [o p]. simpl.
  destruct (html_exists E); simpl; [|right; eauto].
  destruct (port_in_range p); simpl; [|right; eauto].
  destruct (bind_error E p) as [msg|].
  - destruct (py_contains _ msg); simpl; right; eauto.
  - simpl. by left.
Qed.

Lemma steps_inv E argv s out s' :
  reachable_inv E argv s -> steps E s out s' -> reachable_inv E argv s'.
Proof. intros Hs Hst. induction Hst; eauto using step_inv. Qed.

Lemma run_snd_app E ins1 ins2 s :
  snd (run E (ins1 ++ ins2) s) = snd (run E ins2 (snd (run E ins1 s))).
Proof. rewrite run_app. destruct (run E ins1 s) as [o1 s1]. simpl. by destruct (run E ins2 s1). Qed.

Lemma port_in_range_spec p : port_in_range p = true <-> 0 <= p <= 65535.
Proof. unfold port_in_range. rewrite andb_true_iff, !Z.leb_le. done. Qed.

(** A port given on the command line that [int] reads: [Main] moves to
    [serve_webpage(port)] printing nothing. *)
Lemma run_main_port E prog arg p i ins :
  py_int arg = Ok p -> run E (i :: ins) (Main [prog; arg]) = run E ins (Serve p).
Proof. intros Hp. simpl. rewrite Hp. simpl. by destruct (run E ins (Serve p)). Qed.

Lemma choose_port_str prog p : choose_port [prog; py_str p] = ([], p).
Proof. simpl. by rewrite py_int_py_str. Qed.

Lemma serve_out_of_range E i p :
  html_exists E = true -> port_in_range p = false ->
  step E i (Serve p) = ([], Exited (Uncaught OverflowError)).
Proof. intros Hh Hr. simpl. by rewrite Hh, Hr. Qed.

Lemma step_in_use E i port msg :
  html_exists E = true -> port_in_range port = true -> bind_error E port = Some msg ->
  py_contains "Address already in use"%string msg = true ->
  step E i (Serve port) = (in_use_lines port, Exited Clean).
Proof. intros Hh Hr Hb Hc. simpl. by rewrite Hh, Hr, Hb, Hc. Qed.

(** ** Properties *)

(** C29: The server listens only on the port the command line chose,
    after the HTML file was found, on a port in [0..65535] that the
    system bound: an invariant of every run, by induction on the
    steps. *)
Theorem listening_port_valid E argv out p :
  steps E (Main argv) out (Listening p) ->
  p = snd (choose_port argv) /\ html_exists E = true /\ (0 <= p <= 65535) /\
  bind_error E p = None.
Proof.
  intros H. apply (steps_inv E argv) in H; [|done].
  destruct H as (-> & Hh & Hr & Hb). rewrite port_in_range_spec in Hr. done.
Qed.

(** C31: Whatever requests arrive, pressing Ctrl+C ends the process:
    every run that receives Ctrl+C after the start-up steps has exited. *)
Theorem ctrlc_terminates E argv i1 i2 ins :
  exists st, snd (run E (i1 :: i2 :: ins ++ [CtrlC]) (Main argv)) = Exited st.
Proof.
  change (i1 :: i2 :: ins ++ [CtrlC]) with (([i1; i2] ++ ins) ++ [CtrlC]).
  rewrite run_snd_app, run_snd_app.
  destruct (run_settled E _ ins _ (run_two_settled E argv i1 i2)) as [->|[st ->]]; simpl; eauto.
Qed.

(** C30: A port outside [0..65535] on the command line (when the HTML
    file exists) ends the script with an uncaught [OverflowError]: the
    [except OSError] clause does not catch it. *)
Theorem port_out_of_range_crash E prog arg p i1 i2 :
  html_exists E = true -> py_int arg = Ok p -> (p < 0 \/ 65535 < p) ->
  run E [i1; i2] (Main [prog; arg]) = ([], Exited (Uncaught OverflowError)).
Proof.
  intros Hh Hp Hr. rewrite (run_main_port _ _ _ _ _ _ Hp). cbn [run].
  rewrite (serve_out_of_range E i2 p Hh); [done|].
  apply not_true_iff_false. rewrite port_in_range_spec. lia.
Qed.

(** C33: When the port is in use, the script prints a command with the
    next port, and that command's argument is read back as exactly that
    port. *)
Theorem in_use_suggestion E i port msg :
  html_exists E = true -> port_in_range port = true -> bind_error E port = Some msg ->
  py_contains "Address already in use"%string msg = true ->
  exists warn arg,
    step E i (Serve port) = ([warn; ("python3 serve_webpage.py " ++ arg)%string], Exited Clean) /\
    choose_port ["serve_webpage.py"%string; arg] = ([], port + 1).
Proof.
  intros Hh Hr Hb Hc. rewrite (step_in_use _ _ _ _ Hh Hr Hb Hc).
  do 2 eexists. split; [reflexivity|]. apply choose_port_str.
Qed.

(** At port 65535 the suggestion is wrong: running the suggested
    command (with the HTML file present) crashes with [OverflowError]. *)
Theorem suggestion_at_max_port_crashes E E' i msg i1 i2 :
  html_exists E = true -> bind_error E 65535 = Some msg ->
  py_contains "Address already in use"%string msg = true -> html_exists E' = true ->
  exists warn arg,
    step E i (Serve 65535) = ([warn; ("python3 serve_webpage.py " ++ arg)%string], Exited Clean) /\
    run E' [i1; i2] (Main ["serve_webpage.py"%string; arg]) = ([], Exited (Uncaught OverflowError)).
Proof.
  intros Hh Hb Hc Hh'. rewrite (step_in_use E i 65535 msg Hh eq_refl Hb Hc).
  do 2 eexists. split; [reflexivity|].
  rewrite (run_main_port _ _ _ 65536 _ _ (py_int_py_str 65536)). cbn [run].
  by rewrite (serve_out_of_range E' i2 65536 Hh' eq_refl).
Qed.

Lemma changes_stage E s' s : changes E s' s -> (stage s' < stage s)%nat.
Proof.
  intros (i & out & Hs & Hend & Hreq). destruct s as [argv|port|port|st]; simpl in Hs.
  - destruct (choose_port argv). injection Hs as _ <-. simpl. lia.
  - destruct (negb (html_exists E)); [injection Hs as _ <-; simpl; lia|].
    destruct (negb (port_in_range port)); [injection Hs as _ <-; simpl; lia|].
    destruct (bind_error E port) as [msg|]; [|injection Hs as _ <-; simpl; lia].
    destruct (py_contains _ msg); injection Hs as _ <-; simpl; lia.
  - destruct i; [discriminate | injection Hs as _ <-; simpl; lia].
  - discriminate.
Qed.

(** C32: Termination of everything but [serve_forever]: every step of a
    running process that is not the server handling a request, a step
    that leaves the state as it is included, belongs to a well-founded
    relation.  So no stage of the script (reading the port, checking the
    file, binding, reporting an error, stopping on Ctrl+C) can repeat
    forever: only serving requests does. *)
Theorem changes_wf E : well_founded (changes E).
Proof.
  apply (Wf_nat.well_founded_lt_compat _ stage). apply changes_stage.
Qed.

(** ** Concrete runs *)

Definition env_ok : env := Env true (fun _ => None).
Definition env_missing : env := Env false (fun _ => None).
Definition env_busy : env :=
  Env true (fun p => if (p =? 8000) || (p =? 65535)
                     then Some "[Errno 98] Address already in use"%string else None).
Definition argv_8080 : list string := ["serve_webpage.py"; "8080"]%string.

Lemma listening_port_valid_witness :
  steps env_ok (Main argv_8080) (serving_lines 8080) (Listening 8080) /\ 0 <= 8080 <= 65535.
Proof.
  assert (H : steps env_ok (Main argv_8080) (serving_lines 8080) (Listening 8080)).
  { change (serving_lines 8080) with ([] ++ (serving_lines 8080 ++ [])).
    eapply (steps_step _ _ Request); [reflexivity|].
    eapply (steps_step _ _ Request); [reflexivity|]. constructor. }
  split; [exact H|]. exact (proj1 (proj2 (proj2 (listening_port_valid _ _ _ _ H)))).
Defined.

Lemma port_out_of_range_crash_witness :
  py_int "70000" = Ok 70000 /\
  run env_ok [Request; Request] (Main ["serve_webpage.py"; "70000"]%string) =
    ([], Exited (Uncaught OverflowError)).
Proof.
  assert (Hp : py_int "70000" = Ok 70000) by (vm_compute; reflexivity).
  split; [exact Hp|]. apply (port_out_of_range_crash env_ok _ _ 70000 _ _ eq_refl Hp). lia.
Defined.

Lemma in_use_suggestion_witness :
  exists warn arg,
    step env_busy Request (Serve 8000) = ([warn; ("python3 serve_webpage.py " ++ arg)%string], Exited Clean) /\
    choose_port ["serve_webpage.py"%string; arg] = ([], 8001).
Proof.
  apply (in_use_suggestion env_busy Request 8000 _ eq_refl eq_refl eq_refl).
  vm_compute. reflexivity.
Defined.

Lemma suggestion_at_max_port_crashes_witness :
  exists warn arg,
    step env_busy Request (Serve 65535) = ([warn; ("python3 serve_webpage.py " ++ arg)%string], Exited Clean) /\
    run env_ok [Request; Request] (Main ["serve_webpage.py"%string; arg]) = ([], Exited (Uncaught OverflowError)).
Proof.
  apply (suggestion_at_max_port_crashes env_busy env_ok Request _ Request Request eq_refl eq_refl);
    [vm_compute; reflexivity | reflexivity].
Defined.

(** Port 0 asks the system for any free port, but the script
    prints (and opens) [http://localhost:0], not the port it got. *)
Example port_zero_url :
  run env_ok [Request; Request] (Main ["serve_webpage.py"; "0"]%string) =
    (serving_lines 0, Listening 0) /\
  url 0 = "http://localhost:0"%string.
Proof. vm_compute. split; reflexivity. Qed.

(** [int] on the command line: whitespace around the number and
    single underscores between digits are accepted, a doubled
    underscore, a hexadecimal literal or a word is not (port 8000, with
    a message); a missing HTML file ends the script with its message. *)
Example command_line_examples :
  py_int (" 8_080" ++ String "010" EmptyString) = Ok 8080 /\ py_int "+80" = Ok 80 /\ py_int "-5" = Ok (-5) /\
  py_int "8__080" = Err ValueError /\ py_int "0x1F" = Err ValueError /\
  py_int "- 5" = Err ValueError /\
  choose_port ["serve_webpage.py"; "abc"]%string = ([INVALID_PORT], 8000) /\
  run env_missing [Request; Request] (Main ["serve_webpage.py"]%string) = (missing_lines, Exited Clean).
Proof. vm_compute. repeat split. Qed.

End Server.
