(* ===== verification/FlaskApp.v ===== *)
(** * The Flask application: src/web_app.py:9 and 98-122

    [app = Flask(__name__)] (line 9) holds the URL map of three views:
    [dashboard] at [/] renders [templates/dashboard.html] (lines 98-101),
    [api_basic_analysis] and [api_ai_analysis] answer the two analyses
    as JSON, or [{'error': str(e)}] with status 500 when they raise
    (lines 103-119).  [app.run(debug=True, host='0.0.0.0', port=5000)]
    (lines 121-122) serves it on every interface with the Werkzeug
    debugger.

    Module [FlaskApp]: the files a request finds ([app_env]), the rules
    of the URL map ([match_rule], with Flask's [/static/<path:filename>]
    when a [static] folder exists), the views ([view]) and Flask's
    dispatch of one request ([dispatch]): [404] when no rule matches the
    path, the automatic [OPTIONS] answer, [405] for a method other than
    [GET], [HEAD], [OPTIONS] (upper-cased as Werkzeug does), the view for
    [GET] and [HEAD] (the body dropped for [HEAD]), and an exception no view catches answered by
    the debugger's traceback page under [debug=True].  Paths with two
    consecutive slashes, which Werkzeug's [merge_slashes] redirects, are
    outside the model ([dispatch] gives [None]). *)

From stdpp Require Import base list strings.
From Stdlib Require Import String Ascii ZArith Lia.
From S2P Require Import Prelude PyStr Outlier Analysis.

Module FlaskApp.
Import PyStr Outlier Analysis.

(** The rules of [app.url_map]. *)
Inductive endpoint :=
| Dashboard                     (* @app.route('/') *)
| ApiBasicAnalysis              (* @app.route('/api/basic-analysis') *)
| ApiAiAnalysis                 (* @app.route('/api/ai-analysis') *)
| Static (filename : string).   (* Flask's /static/<path:filename> *)

(** What a request finds on disk: the text of [error_logs.txt], the
    rendered [templates/dashboard.html], the files of the [static]
    folder when there is one; [None] when missing. *)
Record app_env := AppEnv {
  log_file : option string;
  template : option string;
  static_folder : option (string -> option string)
}.

Record request := Req {
  method : string;
  path : string
}.

(** What a response carries. *)
Inductive body :=
| Html (text : string)                  (* render_template('dashboard.html') *)
| BasicJson (r : basic_result)          (* jsonify(get_basic_analysis()) *)
| AiJson (r : ai_result)                (* jsonify(get_ai_analysis()) *)
| ErrorJson (e : py_error)              (* jsonify({'error': str(e)}) *)
| FileBody (content : string)           (* send_static_file *)
| Traceback (e : py_error)              (* the Werkzeug debugger's page *)
| InternalServerError                   (* Flask's generic 500 page *)
| NotFound
| MethodNotAllowed (allowed : list string)
| Allowed (allowed : list string)       (* the automatic OPTIONS answer *)
| Empty.

Record http_response := Response {
  status : Z;
  resp_body : body
}.

(** [app.run(debug=True, host='0.0.0.0', port=5000)]. *)
Record run_config := RunConfig {
  debug : bool;
  host : string;
  port : Z
}.

Definition app_run : run_config := RunConfig true "0.0.0.0" 5000.

(** The methods of every rule: [GET], and [HEAD] and [OPTIONS] that
    Flask adds. *)
Definition ALLOWED : list string := ["GET"; "HEAD"; "OPTIONS"].

(** [<path:filename>]: what follows [/static/], not empty and not
    starting with a slash. *)
Definition static_filename (p : string) : option string :=
  if String.prefix "/static/" p then
    match String.substring 8 (String.length p - 8) p with
    | String c rest => if Ascii.eqb c "/" then None else Some (String c rest)
    | EmptyString => None
    end
  else None.

(** The rule a path matches; a rule without a trailing slash does not
    match the path with one. *)
Definition match_rule (E : app_env) (p : string) : option endpoint :=
  if String.eqb p "/" then Some Dashboard
  else if String.eqb p "/api/basic-analysis" then Some ApiBasicAnalysis
  else if String.eqb p "/api/ai-analysis" then Some ApiAiAnalysis
  else match static_folder E, static_filename p with
       | Some _, Some f => Some (Static f)
       | _, _ => None
       end.

(** [with open("error_logs.txt", "r")] inside the analysis: a missing
    file raises [FileNotFoundError] within the view's [try]. *)
Definition with_log_file {A} (E : app_env) (api : string -> response A) : response A :=
  match log_file E with
  | Some c => api c
  | None => Error500 FileNotFoundError
  end.

(** [return jsonify(result)] or [return jsonify({'error': str(e)}), 500]. *)
Definition json {A} (f : A -> body) (r : response A) : http_response :=
  match r with
  | Json200 a => Response 200 (f a)
  | Error500 e => Response 500 (ErrorJson e)
  end.

(** An exception that leaves a view: with [debug=True] Flask propagates
    it and the debugger answers with its traceback; otherwise Flask
    answers with its generic page. *)
Definition uncaught (cfg : run_config) (e : py_error) : http_response :=
  if debug cfg then Response 500 (Traceback e) else Response 500 InternalServerError.

(** [render_template('dashboard.html')]. *)
Definition dashboard (E : app_env) : result string :=
  match template E with
  | Some t => Ok t
  | None => raise TemplateNotFound
  end.

(** Werkzeug's [method.upper()] of the request method, on ASCII. *)
Definition upper_char (c : ascii) : ascii :=
  let n := nat_of_ascii c in
  if (97 <=? n) && (n <=? 122) then ascii_of_nat (n - 32) else c.

Fixpoint py_upper (s : string) : string :=
  match s with
  | EmptyString => EmptyString
  | String c s' => String (upper_char c) (py_upper s')
  end.

(** Werkzeug answers a [HEAD] request without the body. *)
Definition strip_body (r : http_response) : http_response := Response (status r) Empty.

Section WithModel.
Context `{OutlierModel}.

(** The view of each rule. *)
Definition view (cfg : run_config) (E : app_env) (ep : endpoint) : http_response :=
  match ep with
  | Dashboard =>
      match dashboard E with
      | Ok t => Response 200 (Html t)
      | Err e => uncaught cfg e
      end
  | ApiBasicAnalysis => json BasicJson (with_log_file E api_basic_analysis)
  | ApiAiAnalysis => json AiJson (with_log_file E api_ai_analysis)
  | Static f =>
      match static_folder E with
      | Some files =>
          match files f with
          | Some c => Response 200 (FileBody c)
          | None => Response 404 NotFound
          end
      | None => Response 404 NotFound
      end
  end.

(** One request through the application. *)
Definition dispatch (cfg : run_config) (E : app_env) (req : request) : option http_response :=
  if py_contains "//" (path req) then None
  else
    let m := py_upper (method req) in
    let r :=
      match match_rule E (path req) with
      | None => Response 404 NotFound
      | Some ep =>
          if String.eqb m "OPTIONS" then Response 200 (Allowed ALLOWED)
          else if existsb (String.eqb m) ["GET"; "HEAD"] then view cfg E ep
          else Response 405 (MethodNotAllowed ALLOWED)
      end in
    Some (if String.eqb m "HEAD" then strip_body r else r).

End WithModel.

(** ** Lemmas *)

Lemma match_rule_dashboard E p : match_rule E p = Some Dashboard -> p = "/"%string.
Proof.
  unfold match_rule. destruct (String.eqb_spec p "/"); [done|].
  destruct (String.eqb p _); [discriminate|]. destruct (String.eqb p _); [discriminate|].
  destruct (static_folder E), (static_filename p); discriminate.
Qed.

Lemma GET_HEAD_spec m :
  existsb (String.eqb m) ["GET"; "HEAD"] = true -> String.eqb m "HEAD" = false -> m = "GET"%string.
Proof.
  simpl. rewrite orb_false_r. intros Hg Hh. destruct (String.eqb_spec m "GET"); [done|].
  rewrite Hh in Hg. discriminate.
Qed.

Section WithModel.
Context `{OutlierModel}.

(** A view answers with a traceback only for the dashboard, under
    [debug=True], when the template is missing. *)
Lemma view_traceback cfg E ep e :
  resp_body (view cfg E ep) = Traceback e <->
  ep = Dashboard /\ debug cfg = true /\ template E = None /\ e = TemplateNotFound.
Proof.
  split.
  - destruct ep as [| | |f]; simpl.
    + unfold dashboard, uncaught. destruct (template E); [discriminate|].
      destruct (debug cfg); [|discriminate]. simpl. by intros [= <-].
    + unfold json. by destruct (with_log_file E api_basic_analysis).
    + unfold json. by destruct (with_log_file E api_ai_analysis).
    + destruct (static_folder E) as [files|]; [destruct (files f)|]; discriminate.
  - intros (-> & Hd & Ht & ->). simpl. unfold dashboard, uncaught. by rewrite Ht, Hd.
Qed.

(** C26: The two JSON endpoints implement the analyses: a [GET] of
    [/api/basic-analysis] or [/api/ai-analysis] answers [200] with the
    analysis of the text of [error_logs.txt], or [500] with the
    exception, [FileNotFoundError] when the file is missing; the
    [try]/[except Exception] leaves nothing to the debugger. *)
Theorem api_responses cfg E :
  dispatch cfg E (Req "GET" "/api/basic-analysis") =
    Some (match log_file E with
          | None => Response 500 (ErrorJson FileNotFoundError)
          | Some c =>
              match get_basic_analysis c with
              | Ok r => Response 200 (BasicJson r)
              | Err e => Response 500 (ErrorJson e)
              end
          end) /\
  dispatch cfg E (Req "GET" "/api/ai-analysis") =
    Some (match log_file E with
          | None => Response 500 (ErrorJson FileNotFoundError)
          | Some c =>
              match get_ai_analysis c with
              | Ok r => Response 200 (AiJson r)
              | Err e => Response 500 (ErrorJson e)
              end
          end).
Proof.
  split; cbv [dispatch match_rule path method]; cbn -[view]; cbv [view json with_log_file];
    destruct (log_file E) as [c|]; try reflexivity.
  - unfold api_basic_analysis, respond. by destruct (get_basic_analysis c).
  - unfold api_ai_analysis, respond. by destruct (get_ai_analysis c).
Qed.

(** C28: Routing errors: a path that is none of [/], [/api/basic-analysis],
    [/api/ai-analysis] (a trailing slash included) and no static file
    name gets [404] whatever the method; a method other than [GET],
    [HEAD], [OPTIONS] on one of the three gets [405] with the allowed
    methods, and no view runs (the answer does not depend on the
    files). *)
Theorem routing_errors cfg E m p :
  py_contains "//" p = false ->
  (~ In p ["/"; "/api/basic-analysis"; "/api/ai-analysis"]%string -> static_filename p = None ->
     option_map status (dispatch cfg E (Req m p)) = Some 404%Z) /\
  (In p ["/"; "/api/basic-analysis"; "/api/ai-analysis"]%string -> ~ In (py_upper m) ALLOWED ->
     dispatch cfg E (Req m p) = Some (Response 405 (MethodNotAllowed ALLOWED))).
Proof.
  intros Hc. unfold dispatch. cbn [path method]. rewrite Hc. split.
  - intros Hp Hs. unfold match_rule.
    destruct (String.eqb_spec p "/"); [subst; simpl in Hp; tauto|].
    destruct (String.eqb_spec p "/api/basic-analysis"); [subst; simpl in Hp; tauto|].
    destruct (String.eqb_spec p "/api/ai-analysis"); [subst; simpl in Hp; tauto|].
    rewrite Hs. destruct (static_folder E); by destruct (String.eqb (py_upper m) "HEAD").
  - intros Hp Hm. unfold ALLOWED in Hm. simpl in Hm.
    destruct (String.eqb_spec (py_upper m) "OPTIONS"); [rewrite e in Hm; tauto|].
    destruct (String.eqb_spec (py_upper m) "GET"); [rewrite e in Hm; tauto|].
    destruct (String.eqb_spec (py_upper m) "HEAD"); [rewrite e in Hm; tauto|].
    assert (match_rule E p <> None) as Hr.
    { simpl in Hp. destruct Hp as [<-|[<-|[<-|[]]]]; discriminate. }
    destruct (match_rule E p); [|done]. simpl.
    destruct (String.eqb_spec (py_upper m) "GET"), (String.eqb_spec (py_upper m) "HEAD"); done.
Qed.

(** C27: Exposure of the debugger: a response carries a traceback page
    exactly for a [GET] of [/] (the method in any case: Werkzeug
    upper-cases it) under [debug=True] when
    [templates/dashboard.html] is missing ([TemplateNotFound]); with
    [app.run(debug=True, host='0.0.0.0')] that page, with the source
    lines of the stack, goes to any host that asks. *)
Theorem traceback_exposure cfg E req e :
  option_map resp_body (dispatch cfg E req) = Some (Traceback e) <->
  debug cfg = true /\ py_upper (method req) = "GET"%string /\ path req = "/"%string /\
  template E = None /\ e = TemplateNotFound.
Proof.
  split.
  - unfold dispatch. destruct (py_contains "//" (path req)); [discriminate|].
    cbv zeta. destruct (match_rule E (path req)) as [ep|] eqn:Hm;
      [|by destruct (String.eqb (py_upper (method req)) "HEAD")].
    destruct (String.eqb (py_upper (method req)) "OPTIONS");
      [by destruct (String.eqb (py_upper (method req)) "HEAD")|].
    destruct (existsb _ _) eqn:Hg; [|by destruct (String.eqb (py_upper (method req)) "HEAD")].
    destruct (String.eqb (py_upper (method req)) "HEAD") eqn:Hh; [discriminate|].
    simpl. intros [= Hv]. apply view_traceback in Hv as (-> & Hd & Ht & ->).
    apply match_rule_dashboard in Hm. apply GET_HEAD_spec in Hg; [|done]. done.
  - intros (Hd & Hm & Hp & Ht & ->). unfold dispatch. rewrite Hm, Hp. simpl.
    unfold dashboard, uncaught. by rewrite Ht, Hd.
Qed.

End WithModel.

(** ** Concrete requests *)

(** A process with an empty log file, the template and no static folder. *)
Definition env_plain : app_env := AppEnv (Some EmptyString) (Some "<html></html>"%string) None.

Lemma routing_errors_witness :
  option_map status (@dispatch length_scorer app_run env_plain (Req "GET" "/api/ai-analysis/")) =
    Some 404%Z /\
  @dispatch length_scorer app_run env_plain (Req "POST" "/api/ai-analysis") =
    Some (Response 405 (MethodNotAllowed ALLOWED)).
Proof.
  destruct (@routing_errors length_scorer app_run env_plain "GET" "/api/ai-analysis/" eq_refl)
    as [H1 _].
  destruct (@routing_errors length_scorer app_run env_plain "POST" "/api/ai-analysis" eq_refl)
    as [_ H2].
  split.
  - apply H1; [simpl; intros [H|[H|[H|[]]]]; discriminate | reflexivity].
  - apply H2; [simpl; tauto | simpl; intros [H|[H|[H|[]]]]; discriminate].
Defined.

End FlaskApp.
